(** * Shortener settings panel: a model of [prem.py] and its properties

    The development follows the source file top to bottom: the Python
    strings and values the module manipulates, the pure helpers
    ([TimeFormatter], [URLValidator], [ShortenerUI]), the coroutines of
    [ShortenerManager] as computations over an explicit world (settings
    store, inbox of the chat transport, call trace), and the handlers
    [short], [short2], [short3] and [short4]. *)

From Stdlib Require Import ZArith NArith Lia Ascii String DecimalString
  DecimalPos DecimalZ.
From stdpp Require Import base option list gmap strings.

Local Open Scope N_scope.

(** ** Unicode character data

    [str.lower], [str.strip], [int] and the regex class [\d] consult the
    interpreter's Unicode database.  The tables are that database
    (Unicode 14.0.0) restricted to the properties the module reaches. *)

Module Unicode.

(** Code points on which [str.isspace] holds, as inclusive ranges. *)
Definition whitespace_ranges : list (N * N) :=
  [(0x9, 0xD); (0x1C, 0x20); (0x85, 0x85); (0xA0, 0xA0); (0x1680, 0x1680); (0x2000, 0x200A);
   (0x2028, 0x2029); (0x202F, 0x202F); (0x205F, 0x205F); (0x3000, 0x3000)].

(** The zero of each run of ten decimal digits (category Nd). *)
Definition decimal_zeros : list N :=
  [0x30; 0x660; 0x6F0; 0x7C0; 0x966; 0x9E6; 0xA66; 0xAE6; 0xB66; 0xBE6;
   0xC66; 0xCE6; 0xD66; 0xDE6; 0xE50; 0xED0; 0xF20; 0x1040; 0x1090; 0x17E0;
   0x1810; 0x1946; 0x19D0; 0x1A80; 0x1A90; 0x1B50; 0x1BB0; 0x1C40; 0x1C50; 0xA620;
   0xA8D0; 0xA900; 0xA9D0; 0xA9F0; 0xAA50; 0xABF0; 0xFF10; 0x104A0; 0x10D30; 0x11066;
   0x110F0; 0x11136; 0x111D0; 0x112F0; 0x11450; 0x114D0; 0x11650; 0x116C0; 0x11730; 0x118E0;
   0x11950; 0x11C50; 0x11D50; 0x11DA0; 0x16A60; 0x16AC0; 0x16B50; 0x1D7CE; 0x1D7D8; 0x1D7E2;
   0x1D7EC; 0x1D7F6; 0x1E140; 0x1E2F0; 0x1E950; 0x1FBF0].

(** Lower-case mappings [(first, last, stride, image of first)]: every
    [first + k * stride <= last] maps to [image + k * stride]. *)
Definition lower_runs : list (N * N * N * N) :=
  [(0x41, 0x5A, 1, 0x61); (0xC0, 0xD6, 1, 0xE0); (0xD8, 0xDE, 1, 0xF8); (0x100, 0x12E, 2, 0x101);
   (0x132, 0x136, 2, 0x133); (0x139, 0x147, 2, 0x13A); (0x14A, 0x176, 2, 0x14B); (0x178, 0x178, 1, 0xFF);
   (0x179, 0x17D, 2, 0x17A); (0x181, 0x181, 1, 0x253); (0x182, 0x184, 2, 0x183); (0x186, 0x186, 1, 0x254);
   (0x187, 0x187, 1, 0x188); (0x189, 0x18A, 1, 0x256); (0x18B, 0x18B, 1, 0x18C); (0x18E, 0x18E, 1, 0x1DD);
   (0x18F, 0x18F, 1, 0x259); (0x190, 0x190, 1, 0x25B); (0x191, 0x191, 1, 0x192); (0x193, 0x193, 1, 0x260);
   (0x194, 0x194, 1, 0x263); (0x196, 0x196, 1, 0x269); (0x197, 0x197, 1, 0x268); (0x198, 0x198, 1, 0x199);
   (0x19C, 0x19C, 1, 0x26F); (0x19D, 0x19D, 1, 0x272); (0x19F, 0x19F, 1, 0x275); (0x1A0, 0x1A4, 2, 0x1A1);
   (0x1A6, 0x1A6, 1, 0x280); (0x1A7, 0x1A7, 1, 0x1A8); (0x1A9, 0x1A9, 1, 0x283); (0x1AC, 0x1AC, 1, 0x1AD);
   (0x1AE, 0x1AE, 1, 0x288); (0x1AF, 0x1AF, 1, 0x1B0); (0x1B1, 0x1B2, 1, 0x28A); (0x1B3, 0x1B5, 2, 0x1B4);
   (0x1B7, 0x1B7, 1, 0x292); (0x1B8, 0x1B8, 1, 0x1B9); (0x1BC, 0x1BC, 1, 0x1BD); (0x1C4, 0x1C4, 1, 0x1C6);
   (0x1C5, 0x1C5, 1, 0x1C6); (0x1C7, 0x1C7, 1, 0x1C9); (0x1C8, 0x1C8, 1, 0x1C9); (0x1CA, 0x1CA, 1, 0x1CC);
   (0x1CB, 0x1DB, 2, 0x1CC); (0x1DE, 0x1EE, 2, 0x1DF); (0x1F1, 0x1F1, 1, 0x1F3); (0x1F2, 0x1F4, 2, 0x1F3);
   (0x1F6, 0x1F6, 1, 0x195); (0x1F7, 0x1F7, 1, 0x1BF); (0x1F8, 0x21E, 2, 0x1F9); (0x220, 0x220, 1, 0x19E);
   (0x222, 0x232, 2, 0x223); (0x23A, 0x23A, 1, 0x2C65); (0x23B, 0x23B, 1, 0x23C); (0x23D, 0x23D, 1, 0x19A);
   (0x23E, 0x23E, 1, 0x2C66); (0x241, 0x241, 1, 0x242); (0x243, 0x243, 1, 0x180); (0x244, 0x244, 1, 0x289);
   (0x245, 0x245, 1, 0x28C); (0x246, 0x24E, 2, 0x247); (0x370, 0x372, 2, 0x371); (0x376, 0x376, 1, 0x377);
   (0x37F, 0x37F, 1, 0x3F3); (0x386, 0x386, 1, 0x3AC); (0x388, 0x38A, 1, 0x3AD); (0x38C, 0x38C, 1, 0x3CC);
   (0x38E, 0x38F, 1, 0x3CD); (0x391, 0x3A1, 1, 0x3B1); (0x3A3, 0x3AB, 1, 0x3C3); (0x3CF, 0x3CF, 1, 0x3D7);
   (0x3D8, 0x3EE, 2, 0x3D9); (0x3F4, 0x3F4, 1, 0x3B8); (0x3F7, 0x3F7, 1, 0x3F8); (0x3F9, 0x3F9, 1, 0x3F2);
   (0x3FA, 0x3FA, 1, 0x3FB); (0x3FD, 0x3FF, 1, 0x37B); (0x400, 0x40F, 1, 0x450); (0x410, 0x42F, 1, 0x430);
   (0x460, 0x480, 2, 0x461); (0x48A, 0x4BE, 2, 0x48B); (0x4C0, 0x4C0, 1, 0x4CF); (0x4C1, 0x4CD, 2, 0x4C2);
   (0x4D0, 0x52E, 2, 0x4D1); (0x531, 0x556, 1, 0x561); (0x10A0, 0x10C5, 1, 0x2D00); (0x10C7, 0x10C7, 1, 0x2D27);
   (0x10CD, 0x10CD, 1, 0x2D2D); (0x13A0, 0x13EF, 1, 0xAB70); (0x13F0, 0x13F5, 1, 0x13F8); (0x1C90, 0x1CBA, 1, 0x10D0);
   (0x1CBD, 0x1CBF, 1, 0x10FD); (0x1E00, 0x1E94, 2, 0x1E01); (0x1E9E, 0x1E9E, 1, 0xDF); (0x1EA0, 0x1EFE, 2, 0x1EA1);
   (0x1F08, 0x1F0F, 1, 0x1F00); (0x1F18, 0x1F1D, 1, 0x1F10); (0x1F28, 0x1F2F, 1, 0x1F20); (0x1F38, 0x1F3F, 1, 0x1F30);
   (0x1F48, 0x1F4D, 1, 0x1F40); (0x1F59, 0x1F5F, 2, 0x1F51); (0x1F68, 0x1F6F, 1, 0x1F60); (0x1F88, 0x1F8F, 1, 0x1F80);
   (0x1F98, 0x1F9F, 1, 0x1F90); (0x1FA8, 0x1FAF, 1, 0x1FA0); (0x1FB8, 0x1FB9, 1, 0x1FB0); (0x1FBA, 0x1FBB, 1, 0x1F70);
   (0x1FBC, 0x1FBC, 1, 0x1FB3); (0x1FC8, 0x1FCB, 1, 0x1F72); (0x1FCC, 0x1FCC, 1, 0x1FC3); (0x1FD8, 0x1FD9, 1, 0x1FD0);
   (0x1FDA, 0x1FDB, 1, 0x1F76); (0x1FE8, 0x1FE9, 1, 0x1FE0); (0x1FEA, 0x1FEB, 1, 0x1F7A); (0x1FEC, 0x1FEC, 1, 0x1FE5);
   (0x1FF8, 0x1FF9, 1, 0x1F78); (0x1FFA, 0x1FFB, 1, 0x1F7C); (0x1FFC, 0x1FFC, 1, 0x1FF3); (0x2126, 0x2126, 1, 0x3C9);
   (0x212A, 0x212A, 1, 0x6B); (0x212B, 0x212B, 1, 0xE5); (0x2132, 0x2132, 1, 0x214E); (0x2160, 0x216F, 1, 0x2170);
   (0x2183, 0x2183, 1, 0x2184); (0x24B6, 0x24CF, 1, 0x24D0); (0x2C00, 0x2C2F, 1, 0x2C30); (0x2C60, 0x2C60, 1, 0x2C61);
   (0x2C62, 0x2C62, 1, 0x26B); (0x2C63, 0x2C63, 1, 0x1D7D); (0x2C64, 0x2C64, 1, 0x27D); (0x2C67, 0x2C6B, 2, 0x2C68);
   (0x2C6D, 0x2C6D, 1, 0x251); (0x2C6E, 0x2C6E, 1, 0x271); (0x2C6F, 0x2C6F, 1, 0x250); (0x2C70, 0x2C70, 1, 0x252);
   (0x2C72, 0x2C72, 1, 0x2C73); (0x2C75, 0x2C75, 1, 0x2C76); (0x2C7E, 0x2C7F, 1, 0x23F); (0x2C80, 0x2CE2, 2, 0x2C81);
   (0x2CEB, 0x2CED, 2, 0x2CEC); (0x2CF2, 0x2CF2, 1, 0x2CF3); (0xA640, 0xA66C, 2, 0xA641); (0xA680, 0xA69A, 2, 0xA681);
   (0xA722, 0xA72E, 2, 0xA723); (0xA732, 0xA76E, 2, 0xA733); (0xA779, 0xA77B, 2, 0xA77A); (0xA77D, 0xA77D, 1, 0x1D79);
   (0xA77E, 0xA786, 2, 0xA77F); (0xA78B, 0xA78B, 1, 0xA78C); (0xA78D, 0xA78D, 1, 0x265); (0xA790, 0xA792, 2, 0xA791);
   (0xA796, 0xA7A8, 2, 0xA797); (0xA7AA, 0xA7AA, 1, 0x266); (0xA7AB, 0xA7AB, 1, 0x25C); (0xA7AC, 0xA7AC, 1, 0x261);
   (0xA7AD, 0xA7AD, 1, 0x26C); (0xA7AE, 0xA7AE, 1, 0x26A); (0xA7B0, 0xA7B0, 1, 0x29E); (0xA7B1, 0xA7B1, 1, 0x287);
   (0xA7B2, 0xA7B2, 1, 0x29D); (0xA7B3, 0xA7B3, 1, 0xAB53); (0xA7B4, 0xA7C2, 2, 0xA7B5); (0xA7C4, 0xA7C4, 1, 0xA794);
   (0xA7C5, 0xA7C5, 1, 0x282); (0xA7C6, 0xA7C6, 1, 0x1D8E); (0xA7C7, 0xA7C9, 2, 0xA7C8); (0xA7D0, 0xA7D0, 1, 0xA7D1);
   (0xA7D6, 0xA7D8, 2, 0xA7D7); (0xA7F5, 0xA7F5, 1, 0xA7F6); (0xFF21, 0xFF3A, 1, 0xFF41); (0x10400, 0x10427, 1, 0x10428);
   (0x104B0, 0x104D3, 1, 0x104D8); (0x10570, 0x1057A, 1, 0x10597); (0x1057C, 0x1058A, 1, 0x105A3); (0x1058C, 0x10592, 1, 0x105B3);
   (0x10594, 0x10595, 1, 0x105BB); (0x10C80, 0x10CB2, 1, 0x10CC0); (0x118A0, 0x118BF, 1, 0x118C0); (0x16E40, 0x16E5F, 1, 0x16E60);
   (0x1E900, 0x1E921, 1, 0x1E922)].

(** Cased code points that are not case-ignorable. *)
Definition cased_ranges : list (N * N) :=
  [(0x41, 0x5A); (0x61, 0x7A); (0xAA, 0xAA); (0xB5, 0xB5); (0xBA, 0xBA); (0xC0, 0xD6);
   (0xD8, 0xF6); (0xF8, 0x1BA); (0x1BC, 0x1BF); (0x1C4, 0x293); (0x295, 0x2AF); (0x370, 0x373);
   (0x376, 0x377); (0x37B, 0x37D); (0x37F, 0x37F); (0x386, 0x386); (0x388, 0x38A); (0x38C, 0x38C);
   (0x38E, 0x3A1); (0x3A3, 0x3F5); (0x3F7, 0x481); (0x48A, 0x52F); (0x531, 0x556); (0x560, 0x588);
   (0x10A0, 0x10C5); (0x10C7, 0x10C7); (0x10CD, 0x10CD); (0x10D0, 0x10FA); (0x10FD, 0x10FF); (0x13A0, 0x13F5);
   (0x13F8, 0x13FD); (0x1C80, 0x1C88); (0x1C90, 0x1CBA); (0x1CBD, 0x1CBF); (0x1D00, 0x1D2B); (0x1D6B, 0x1D77);
   (0x1D79, 0x1D9A); (0x1E00, 0x1F15); (0x1F18, 0x1F1D); (0x1F20, 0x1F45); (0x1F48, 0x1F4D); (0x1F50, 0x1F57);
   (0x1F59, 0x1F59); (0x1F5B, 0x1F5B); (0x1F5D, 0x1F5D); (0x1F5F, 0x1F7D); (0x1F80, 0x1FB4); (0x1FB6, 0x1FBC);
   (0x1FBE, 0x1FBE); (0x1FC2, 0x1FC4); (0x1FC6, 0x1FCC); (0x1FD0, 0x1FD3); (0x1FD6, 0x1FDB); (0x1FE0, 0x1FEC);
   (0x1FF2, 0x1FF4); (0x1FF6, 0x1FFC); (0x2102, 0x2102); (0x2107, 0x2107); (0x210A, 0x2113); (0x2115, 0x2115);
   (0x2119, 0x211D); (0x2124, 0x2124); (0x2126, 0x2126); (0x2128, 0x2128); (0x212A, 0x212D); (0x212F, 0x2134);
   (0x2139, 0x2139); (0x213C, 0x213F); (0x2145, 0x2149); (0x214E, 0x214E); (0x2160, 0x217F); (0x2183, 0x2184);
   (0x24B6, 0x24E9); (0x2C00, 0x2C7B); (0x2C7E, 0x2CE4); (0x2CEB, 0x2CEE); (0x2CF2, 0x2CF3); (0x2D00, 0x2D25);
   (0x2D27, 0x2D27); (0x2D2D, 0x2D2D); (0xA640, 0xA66D); (0xA680, 0xA69B); (0xA722, 0xA76F); (0xA771, 0xA787);
   (0xA78B, 0xA78E); (0xA790, 0xA7CA); (0xA7D0, 0xA7D1); (0xA7D3, 0xA7D3); (0xA7D5, 0xA7D9); (0xA7F5, 0xA7F6);
   (0xA7FA, 0xA7FA); (0xAB30, 0xAB5A); (0xAB60, 0xAB68); (0xAB70, 0xABBF); (0xFB00, 0xFB06); (0xFB13, 0xFB17);
   (0xFF21, 0xFF3A); (0xFF41, 0xFF5A); (0x10400, 0x1044F); (0x104B0, 0x104D3); (0x104D8, 0x104FB); (0x10570, 0x1057A);
   (0x1057C, 0x1058A); (0x1058C, 0x10592); (0x10594, 0x10595); (0x10597, 0x105A1); (0x105A3, 0x105B1); (0x105B3, 0x105B9);
   (0x105BB, 0x105BC); (0x10C80, 0x10CB2); (0x10CC0, 0x10CF2); (0x118A0, 0x118DF); (0x16E40, 0x16E7F); (0x1D400, 0x1D454);
   (0x1D456, 0x1D49C); (0x1D49E, 0x1D49F); (0x1D4A2, 0x1D4A2); (0x1D4A5, 0x1D4A6); (0x1D4A9, 0x1D4AC); (0x1D4AE, 0x1D4B9);
   (0x1D4BB, 0x1D4BB); (0x1D4BD, 0x1D4C3); (0x1D4C5, 0x1D505); (0x1D507, 0x1D50A); (0x1D50D, 0x1D514); (0x1D516, 0x1D51C);
   (0x1D51E, 0x1D539); (0x1D53B, 0x1D53E); (0x1D540, 0x1D544); (0x1D546, 0x1D546); (0x1D54A, 0x1D550); (0x1D552, 0x1D6A5);
   (0x1D6A8, 0x1D6C0); (0x1D6C2, 0x1D6DA); (0x1D6DC, 0x1D6FA); (0x1D6FC, 0x1D714); (0x1D716, 0x1D734); (0x1D736, 0x1D74E);
   (0x1D750, 0x1D76E); (0x1D770, 0x1D788); (0x1D78A, 0x1D7A8); (0x1D7AA, 0x1D7C2); (0x1D7C4, 0x1D7CB); (0x1DF00, 0x1DF09);
   (0x1DF0B, 0x1DF1E); (0x1E900, 0x1E943); (0x1F130, 0x1F149); (0x1F150, 0x1F169); (0x1F170, 0x1F189)].

(** Case-ignorable code points. *)
Definition case_ignorable_ranges : list (N * N) :=
  [(0x27, 0x27); (0x2E, 0x2E); (0x3A, 0x3A); (0x5E, 0x5E); (0x60, 0x60); (0xA8, 0xA8);
   (0xAD, 0xAD); (0xAF, 0xAF); (0xB4, 0xB4); (0xB7, 0xB8); (0x2B0, 0x36F); (0x374, 0x375);
   (0x37A, 0x37A); (0x384, 0x385); (0x387, 0x387); (0x483, 0x489); (0x559, 0x559); (0x55F, 0x55F);
   (0x591, 0x5BD); (0x5BF, 0x5BF); (0x5C1, 0x5C2); (0x5C4, 0x5C5); (0x5C7, 0x5C7); (0x5F4, 0x5F4);
   (0x600, 0x605); (0x610, 0x61A); (0x61C, 0x61C); (0x640, 0x640); (0x64B, 0x65F); (0x670, 0x670);
   (0x6D6, 0x6DD); (0x6DF, 0x6E8); (0x6EA, 0x6ED); (0x70F, 0x70F); (0x711, 0x711); (0x730, 0x74A);
   (0x7A6, 0x7B0); (0x7EB, 0x7F5); (0x7FA, 0x7FA); (0x7FD, 0x7FD); (0x816, 0x82D); (0x859, 0x85B);
   (0x888, 0x888); (0x890, 0x891); (0x898, 0x89F); (0x8C9, 0x902); (0x93A, 0x93A); (0x93C, 0x93C);
   (0x941, 0x948); (0x94D, 0x94D); (0x951, 0x957); (0x962, 0x963); (0x971, 0x971); (0x981, 0x981);
   (0x9BC, 0x9BC); (0x9C1, 0x9C4); (0x9CD, 0x9CD); (0x9E2, 0x9E3); (0x9FE, 0x9FE); (0xA01, 0xA02);
   (0xA3C, 0xA3C); (0xA41, 0xA42); (0xA47, 0xA48); (0xA4B, 0xA4D); (0xA51, 0xA51); (0xA70, 0xA71);
   (0xA75, 0xA75); (0xA81, 0xA82); (0xABC, 0xABC); (0xAC1, 0xAC5); (0xAC7, 0xAC8); (0xACD, 0xACD);
   (0xAE2, 0xAE3); (0xAFA, 0xAFF); (0xB01, 0xB01); (0xB3C, 0xB3C); (0xB3F, 0xB3F); (0xB41, 0xB44);
   (0xB4D, 0xB4D); (0xB55, 0xB56); (0xB62, 0xB63); (0xB82, 0xB82); (0xBC0, 0xBC0); (0xBCD, 0xBCD);
   (0xC00, 0xC00); (0xC04, 0xC04); (0xC3C, 0xC3C); (0xC3E, 0xC40); (0xC46, 0xC48); (0xC4A, 0xC4D);
   (0xC55, 0xC56); (0xC62, 0xC63); (0xC81, 0xC81); (0xCBC, 0xCBC); (0xCBF, 0xCBF); (0xCC6, 0xCC6);
   (0xCCC, 0xCCD); (0xCE2, 0xCE3); (0xD00, 0xD01); (0xD3B, 0xD3C); (0xD41, 0xD44); (0xD4D, 0xD4D);
   (0xD62, 0xD63); (0xD81, 0xD81); (0xDCA, 0xDCA); (0xDD2, 0xDD4); (0xDD6, 0xDD6); (0xE31, 0xE31);
   (0xE34, 0xE3A); (0xE46, 0xE4E); (0xEB1, 0xEB1); (0xEB4, 0xEBC); (0xEC6, 0xEC6); (0xEC8, 0xECD);
   (0xF18, 0xF19); (0xF35, 0xF35); (0xF37, 0xF37); (0xF39, 0xF39); (0xF71, 0xF7E); (0xF80, 0xF84);
   (0xF86, 0xF87); (0xF8D, 0xF97); (0xF99, 0xFBC); (0xFC6, 0xFC6); (0x102D, 0x1030); (0x1032, 0x1037);
   (0x1039, 0x103A); (0x103D, 0x103E); (0x1058, 0x1059); (0x105E, 0x1060); (0x1071, 0x1074); (0x1082, 0x1082);
   (0x1085, 0x1086); (0x108D, 0x108D); (0x109D, 0x109D); (0x10FC, 0x10FC); (0x135D, 0x135F); (0x1712, 0x1714);
   (0x1732, 0x1733); (0x1752, 0x1753); (0x1772, 0x1773); (0x17B4, 0x17B5); (0x17B7, 0x17BD); (0x17C6, 0x17C6);
   (0x17C9, 0x17D3); (0x17D7, 0x17D7); (0x17DD, 0x17DD); (0x180B, 0x180F); (0x1843, 0x1843); (0x1885, 0x1886);
   (0x18A9, 0x18A9); (0x1920, 0x1922); (0x1927, 0x1928); (0x1932, 0x1932); (0x1939, 0x193B); (0x1A17, 0x1A18);
   (0x1A1B, 0x1A1B); (0x1A56, 0x1A56); (0x1A58, 0x1A5E); (0x1A60, 0x1A60); (0x1A62, 0x1A62); (0x1A65, 0x1A6C);
   (0x1A73, 0x1A7C); (0x1A7F, 0x1A7F); (0x1AA7, 0x1AA7); (0x1AB0, 0x1ACE); (0x1B00, 0x1B03); (0x1B34, 0x1B34);
   (0x1B36, 0x1B3A); (0x1B3C, 0x1B3C); (0x1B42, 0x1B42); (0x1B6B, 0x1B73); (0x1B80, 0x1B81); (0x1BA2, 0x1BA5);
   (0x1BA8, 0x1BA9); (0x1BAB, 0x1BAD); (0x1BE6, 0x1BE6); (0x1BE8, 0x1BE9); (0x1BED, 0x1BED); (0x1BEF, 0x1BF1);
   (0x1C2C, 0x1C33); (0x1C36, 0x1C37); (0x1C78, 0x1C7D); (0x1CD0, 0x1CD2); (0x1CD4, 0x1CE0); (0x1CE2, 0x1CE8);
   (0x1CED, 0x1CED); (0x1CF4, 0x1CF4); (0x1CF8, 0x1CF9); (0x1D2C, 0x1D6A); (0x1D78, 0x1D78); (0x1D9B, 0x1DFF);
   (0x1FBD, 0x1FBD); (0x1FBF, 0x1FC1); (0x1FCD, 0x1FCF); (0x1FDD, 0x1FDF); (0x1FED, 0x1FEF); (0x1FFD, 0x1FFE);
   (0x200B, 0x200F); (0x2018, 0x2019); (0x2024, 0x2024); (0x2027, 0x2027); (0x202A, 0x202E); (0x2060, 0x2064);
   (0x2066, 0x206F); (0x2071, 0x2071); (0x207F, 0x207F); (0x2090, 0x209C); (0x20D0, 0x20F0); (0x2C7C, 0x2C7D);
   (0x2CEF, 0x2CF1); (0x2D6F, 0x2D6F); (0x2D7F, 0x2D7F); (0x2DE0, 0x2DFF); (0x2E2F, 0x2E2F); (0x3005, 0x3005);
   (0x302A, 0x302D); (0x3031, 0x3035); (0x303B, 0x303B); (0x3099, 0x309E); (0x30FC, 0x30FE); (0xA015, 0xA015);
   (0xA4F8, 0xA4FD); (0xA60C, 0xA60C); (0xA66F, 0xA672); (0xA674, 0xA67D); (0xA67F, 0xA67F); (0xA69C, 0xA69F);
   (0xA6F0, 0xA6F1); (0xA700, 0xA721); (0xA770, 0xA770); (0xA788, 0xA78A); (0xA7F2, 0xA7F4); (0xA7F8, 0xA7F9);
   (0xA802, 0xA802); (0xA806, 0xA806); (0xA80B, 0xA80B); (0xA825, 0xA826); (0xA82C, 0xA82C); (0xA8C4, 0xA8C5);
   (0xA8E0, 0xA8F1); (0xA8FF, 0xA8FF); (0xA926, 0xA92D); (0xA947, 0xA951); (0xA980, 0xA982); (0xA9B3, 0xA9B3);
   (0xA9B6, 0xA9B9); (0xA9BC, 0xA9BD); (0xA9CF, 0xA9CF); (0xA9E5, 0xA9E6); (0xAA29, 0xAA2E); (0xAA31, 0xAA32);
   (0xAA35, 0xAA36); (0xAA43, 0xAA43); (0xAA4C, 0xAA4C); (0xAA70, 0xAA70); (0xAA7C, 0xAA7C); (0xAAB0, 0xAAB0);
   (0xAAB2, 0xAAB4); (0xAAB7, 0xAAB8); (0xAABE, 0xAABF); (0xAAC1, 0xAAC1); (0xAADD, 0xAADD); (0xAAEC, 0xAAED);
   (0xAAF3, 0xAAF4); (0xAAF6, 0xAAF6); (0xAB5B, 0xAB5F); (0xAB69, 0xAB6B); (0xABE5, 0xABE5); (0xABE8, 0xABE8);
   (0xABED, 0xABED); (0xFB1E, 0xFB1E); (0xFBB2, 0xFBC2); (0xFE00, 0xFE0F); (0xFE13, 0xFE13); (0xFE20, 0xFE2F);
   (0xFE52, 0xFE52); (0xFE55, 0xFE55); (0xFEFF, 0xFEFF); (0xFF07, 0xFF07); (0xFF0E, 0xFF0E); (0xFF1A, 0xFF1A);
   (0xFF3E, 0xFF3E); (0xFF40, 0xFF40); (0xFF70, 0xFF70); (0xFF9E, 0xFF9F); (0xFFE3, 0xFFE3); (0xFFF9, 0xFFFB);
   (0x101FD, 0x101FD); (0x102E0, 0x102E0); (0x10376, 0x1037A); (0x10780, 0x10785); (0x10787, 0x107B0); (0x107B2, 0x107BA);
   (0x10A01, 0x10A03); (0x10A05, 0x10A06); (0x10A0C, 0x10A0F); (0x10A38, 0x10A3A); (0x10A3F, 0x10A3F); (0x10AE5, 0x10AE6);
   (0x10D24, 0x10D27); (0x10EAB, 0x10EAC); (0x10F46, 0x10F50); (0x10F82, 0x10F85); (0x11001, 0x11001); (0x11038, 0x11046);
   (0x11070, 0x11070); (0x11073, 0x11074); (0x1107F, 0x11081); (0x110B3, 0x110B6); (0x110B9, 0x110BA); (0x110BD, 0x110BD);
   (0x110C2, 0x110C2); (0x110CD, 0x110CD); (0x11100, 0x11102); (0x11127, 0x1112B); (0x1112D, 0x11134); (0x11173, 0x11173);
   (0x11180, 0x11181); (0x111B6, 0x111BE); (0x111C9, 0x111CC); (0x111CF, 0x111CF); (0x1122F, 0x11231); (0x11234, 0x11234);
   (0x11236, 0x11237); (0x1123E, 0x1123E); (0x112DF, 0x112DF); (0x112E3, 0x112EA); (0x11300, 0x11301); (0x1133B, 0x1133C);
   (0x11340, 0x11340); (0x11366, 0x1136C); (0x11370, 0x11374); (0x11438, 0x1143F); (0x11442, 0x11444); (0x11446, 0x11446);
   (0x1145E, 0x1145E); (0x114B3, 0x114B8); (0x114BA, 0x114BA); (0x114BF, 0x114C0); (0x114C2, 0x114C3); (0x115B2, 0x115B5);
   (0x115BC, 0x115BD); (0x115BF, 0x115C0); (0x115DC, 0x115DD); (0x11633, 0x1163A); (0x1163D, 0x1163D); (0x1163F, 0x11640);
   (0x116AB, 0x116AB); (0x116AD, 0x116AD); (0x116B0, 0x116B5); (0x116B7, 0x116B7); (0x1171D, 0x1171F); (0x11722, 0x11725);
   (0x11727, 0x1172B); (0x1182F, 0x11837); (0x11839, 0x1183A); (0x1193B, 0x1193C); (0x1193E, 0x1193E); (0x11943, 0x11943);
   (0x119D4, 0x119D7); (0x119DA, 0x119DB); (0x119E0, 0x119E0); (0x11A01, 0x11A0A); (0x11A33, 0x11A38); (0x11A3B, 0x11A3E);
   (0x11A47, 0x11A47); (0x11A51, 0x11A56); (0x11A59, 0x11A5B); (0x11A8A, 0x11A96); (0x11A98, 0x11A99); (0x11C30, 0x11C36);
   (0x11C38, 0x11C3D); (0x11C3F, 0x11C3F); (0x11C92, 0x11CA7); (0x11CAA, 0x11CB0); (0x11CB2, 0x11CB3); (0x11CB5, 0x11CB6);
   (0x11D31, 0x11D36); (0x11D3A, 0x11D3A); (0x11D3C, 0x11D3D); (0x11D3F, 0x11D45); (0x11D47, 0x11D47); (0x11D90, 0x11D91);
   (0x11D95, 0x11D95); (0x11D97, 0x11D97); (0x11EF3, 0x11EF4); (0x13430, 0x13438); (0x16AF0, 0x16AF4); (0x16B30, 0x16B36);
   (0x16B40, 0x16B43); (0x16F4F, 0x16F4F); (0x16F8F, 0x16F9F); (0x16FE0, 0x16FE1); (0x16FE3, 0x16FE4); (0x1AFF0, 0x1AFF3);
   (0x1AFF5, 0x1AFFB); (0x1AFFD, 0x1AFFE); (0x1BC9D, 0x1BC9E); (0x1BCA0, 0x1BCA3); (0x1CF00, 0x1CF2D); (0x1CF30, 0x1CF46);
   (0x1D167, 0x1D169); (0x1D173, 0x1D182); (0x1D185, 0x1D18B); (0x1D1AA, 0x1D1AD); (0x1D242, 0x1D244); (0x1DA00, 0x1DA36);
   (0x1DA3B, 0x1DA6C); (0x1DA75, 0x1DA75); (0x1DA84, 0x1DA84); (0x1DA9B, 0x1DA9F); (0x1DAA1, 0x1DAAF); (0x1E000, 0x1E006);
   (0x1E008, 0x1E018); (0x1E01B, 0x1E021); (0x1E023, 0x1E024); (0x1E026, 0x1E02A); (0x1E130, 0x1E13D); (0x1E2AE, 0x1E2AE);
   (0x1E2EC, 0x1E2EF); (0x1E8D0, 0x1E8D6); (0x1E944, 0x1E94B); (0x1F3FB, 0x1F3FF); (0xE0001, 0xE0001); (0xE0020, 0xE007F);
   (0xE0100, 0xE01EF)].

Definition in_ranges (rs : list (N * N)) (c : N) : bool :=
  existsb (fun r => (fst r <=? c) && (c <=? snd r)) rs.

Definition is_space (c : N) : bool := in_ranges whitespace_ranges c.

Definition decimal_value (c : N) : option N :=
  match find (fun z => (z <=? c) && (c <? z + 10)) decimal_zeros with
  | Some z => Some (c - z)
  | None => None
  end.

Definition is_decimal (c : N) : bool :=
  match decimal_value c with Some _ => true | None => false end.

Definition in_run (c : N) (r : N * N * N * N) : bool :=
  let '(lo, hi, stride, _) := r in
  (lo <=? c) && (c <=? hi) && ((c - lo) mod stride =? 0).

(** The full lower-case mapping of one code point, out of context.
    U+0130 is the only code point whose image has two code points. *)
Definition to_lower (c : N) : list N :=
  if c =? 0x130 then [0x69; 0x307]
  else match find (in_run c) lower_runs with
       | Some (lo, _, _, img) => [img + (c - lo)]
       | None => [c]
       end.

Definition is_case_ignorable (c : N) : bool := in_ranges case_ignorable_ranges c.

(** Casedness as the final-sigma rule consults it, on code points that
    are not case-ignorable. *)
Definition is_cased (c : N) : bool :=
  negb (is_case_ignorable c) && in_ranges cased_ranges c.

End Unicode.

(** ** Python strings

    A [str] is its sequence of code points.  [py] reads an ASCII literal. *)

Abbreviation pystr := (list N).

Definition py (s : string) : pystr := map N_of_ascii (list_ascii_of_string s).

Definition str_eqb (a b : pystr) : bool := bool_decide (a = b).

Fixpoint dropwhile {A} (p : A -> bool) (l : list A) : list A :=
  match l with
  | [] => []
  | x :: r => if p x then dropwhile p r else l
  end.

Fixpoint takewhile {A} (p : A -> bool) (l : list A) : list A :=
  match l with
  | [] => []
  | x :: r => if p x then x :: takewhile p r else []
  end.

(** [handle_capital_sigma]: U+03A3 lowers to the final sigma U+03C2 when
    a cased letter precedes it and none follows, case-ignorable code
    points skipped on both sides.  [before] is the text to the left of
    the sigma, nearest code point first. *)
Definition capital_sigma (before after : pystr) : N :=
  let preceded :=
    match dropwhile Unicode.is_case_ignorable before with
    | c :: _ => Unicode.is_cased c
    | [] => false
    end in
  let followed :=
    match dropwhile Unicode.is_case_ignorable after with
    | c :: _ => Unicode.is_cased c
    | [] => false
    end in
  if preceded && negb followed then 0x3C2 else 0x3C3.

Fixpoint lower_from (before s : pystr) : pystr :=
  match s with
  | [] => []
  | c :: rest =>
      (if c =? 0x3A3 then [capital_sigma before rest] else Unicode.to_lower c)
        ++ lower_from (c :: before) rest
  end.

(** [s.lower()] *)
Definition lower (s : pystr) : pystr := lower_from [] s.

Definition lstrip_where (p : N -> bool) (s : pystr) : pystr := dropwhile p s.
Definition rstrip_where (p : N -> bool) (s : pystr) : pystr :=
  rev (dropwhile p (rev s)).

(** [s.strip()] *)
Definition strip (s : pystr) : pystr :=
  rstrip_where Unicode.is_space (lstrip_where Unicode.is_space s).

(** [s.strip(chars)] *)
Definition strip_chars (chars s : pystr) : pystr :=
  let p c := existsb (N.eqb c) chars in
  rstrip_where p (lstrip_where p s).

(** [sep.join(parts)] *)
Fixpoint join (sep : pystr) (parts : list pystr) : pystr :=
  match parts with
  | [] => []
  | [p] => p
  | p :: rest => p ++ sep ++ join sep rest
  end.

(** [s.split(sep)] for a one-character separator. *)
Fixpoint split (sep : N) (s : pystr) : list pystr :=
  match s with
  | [] => [[]]
  | c :: rest =>
      if c =? sep then [] :: split sep rest
      else match split sep rest with
           | w :: ws => (c :: w) :: ws
           | [] => [[c]]
           end
  end.

(** [s.split()]: the words between runs of whitespace.  [word] is the
    word being read. *)
Fixpoint split_whitespace_from (word s : pystr) : list pystr :=
  match s with
  | [] => match word with [] => [] | _ => [word] end
  | c :: rest =>
      if Unicode.is_space c then
        match word with
        | [] => split_whitespace_from [] rest
        | _ => word :: split_whitespace_from [] rest
        end
      else split_whitespace_from (word ++ [c]) rest
  end.

Definition split_whitespace (s : pystr) : list pystr := split_whitespace_from [] s.

(** [str(n)] for an [int]. *)
Definition str_of_int (n : Z) : pystr := py (NilZero.string_of_int (Z.to_int n)).

(** [int(ds)] on a run of decimal digits, most significant first. *)
Definition digit (c : N) : N := default 0 (Unicode.decimal_value c).

Definition int_of_digits (ds : pystr) : Z :=
  Z.of_N (fold_left (fun acc d => 10 * acc + digit d) ds 0).

(** ** Exceptions

    [ListenerTimeout] is the one exception the module names in a handler;
    every other exception is a [PyError] carrying its class name. *)

Inductive exn :=
  | ListenerTimeout
  | PyError (name : string).

(** The classes that derive from [BaseException] without deriving from
    [Exception]: the cancellation of a task and the interpreter's exits. *)
Definition exits : list string :=
  ["CancelledError"; "KeyboardInterrupt"; "SystemExit"; "GeneratorExit"]%string.

(** [isinstance(e, Exception)] *)
Definition is_exception (e : exn) : bool :=
  match e with
  | ListenerTimeout => true
  | PyError name => negb (bool_decide (name ∈ exits))
  end.

Inductive result (A : Type) :=
  | Ok (a : A)
  | Err (e : exn).
Arguments Ok {A} a.
Arguments Err {A} e.

(** [[f x for x in l]], the first exception ending it. *)
Fixpoint comprehension {A B} (f : A -> result B) (l : list A) : result (list B) :=
  match l with
  | [] => Ok []
  | x :: rest =>
      match f x with
      | Err e => Err e
      | Ok y => match comprehension f rest with
                | Err e => Err e
                | Ok ys => Ok (y :: ys)
                end
      end
  end.

(** ** [TimeFormatter] *)

Module TimeFormatter.

Local Open Scope Z_scope.

(** [f"{n} {unit}{'s' if n > 1 else ''}"] *)
Definition part (n : Z) (unit : string) : pystr :=
  str_of_int n ++ py " " ++ py unit ++ (if 1 <? n then py "s" else []).

Definition format_seconds (total_seconds : Z) : pystr :=
  if total_seconds =? 0 then py "0 seconds"
  else
    let hours := total_seconds / 3600 in
    let minutes := (total_seconds mod 3600) / 60 in
    let seconds := total_seconds mod 60 in
    let parts := [] in
    let parts := if negb (hours =? 0) then parts ++ [part hours "hour"] else parts in
    let parts := if negb (minutes =? 0) then parts ++ [part minutes "minute"] else parts in
    let parts :=
      if negb (seconds =? 0) && (hours =? 0) then parts ++ [part seconds "second"]
      else parts in
    join (py " ") parts.

Definition is_unit (c : N) : bool :=
  ((c =? 0x68) || (c =? 0x6D) || (c =? 0x73))%N.

(** [re.match(r"^(\d+)([hms])$", s)]: the two groups on a match.  [\d+]
    is greedy and no digit is a unit letter, so group 1 is the longest
    run of leading digits; [$] also matches before one final newline. *)
Definition time_pattern (s : pystr) : option (pystr * N) :=
  match takewhile Unicode.is_decimal s, dropwhile Unicode.is_decimal s with
  | (_ :: _) as digits, [u] => if is_unit u then Some (digits, u) else None
  | (_ :: _) as digits, [u; nl] =>
      if is_unit u && (nl =? 0x0A)%N then Some (digits, u) else None
  | _, _ => None
  end.

(** [{'h': 3600, 'm': 60, 's': 1}[unit]] *)
Definition conversions (unit : N) : Z :=
  if (unit =? 0x68)%N then 3600 else if (unit =? 0x6D)%N then 60 else 1.

Definition parse_time_string (time_str : pystr) : option Z :=
  match time_pattern (strip (lower time_str)) with
  | None => None
  | Some (digits, unit) => Some (int_of_digits digits * conversions unit)
  end.

End TimeFormatter.

(** ** Python values held by the settings store *)

Inductive value :=
  | VNone
  | VBool (b : bool)
  | VInt (n : Z)
  | VStr (s : pystr).

#[global] Instance value_eq_dec : EqDecision value.
Proof. solve_decision. Defined.

(** Truth value of an object in a condition. *)
Definition truthy (v : value) : bool :=
  match v with
  | VNone => false
  | VBool b => b
  | VInt n => negb (n =? 0)%Z
  | VStr s => match s with [] => false | _ => true end
  end.

Definition ascii_space (c : N) : bool := ((9 <=? c) && (c <=? 13)) || (c =? 32).
Definition ascii_digit (c : N) : bool := (0x30 <=? c) && (c <=? 0x39).

(** [int] first rewrites a [str] to ASCII: spaces to [' '], decimal
    digits of any script to ['0'..'9'], other non-ASCII to ['?']. *)
Definition to_ascii_decimal (c : N) : N :=
  if c <? 127 then c
  else if Unicode.is_space c then 0x20
  else match Unicode.decimal_value c with
       | Some v => 0x30 + v
       | None => 0x3F
       end.

(** Digits with single underscores between them. *)
Fixpoint digit_groups (after_digit : bool) (s : pystr) : bool :=
  match s with
  | [] => after_digit
  | c :: rest =>
      if ascii_digit c then digit_groups true rest
      else if c =? 0x5F then after_digit && digit_groups false rest
      else false
  end.

(** [int(s)] for a [str]: [None] stands for [ValueError]. *)
Definition int_of_str (s : pystr) : option Z :=
  let t := map to_ascii_decimal s in
  let t := rstrip_where ascii_space (lstrip_where ascii_space t) in
  let '(negative, body) :=
    match t with
    | 0x2D :: r => (true, r)
    | 0x2B :: r => (false, r)
    | _ => (false, t)
    end in
  if digit_groups false body then
    let n := int_of_digits (filter (fun c => negb (c =? 0x5F)) body) in
    Some (if negative then - n else n)%Z
  else None.

(** [int(v)] *)
Definition py_int (v : value) : result Z :=
  match v with
  | VNone => Err (PyError "TypeError")
  | VBool b => Ok (if b then 1 else 0)%Z
  | VInt n => Ok n
  | VStr s => match int_of_str s with
              | Some n => Ok n
              | None => Err (PyError "ValueError")
              end
  end.

(** ** [ShortenerConfig] and [ShortenerUI] *)

Record ShortenerConfig := {
  api : value;
  bypass_count : value;
  website : value;
  short_enabled : value;
  mode : value;
  token_time : Z;
}.

(** The instance [ShortenerConfig()] of the data class. *)
Definition default_config : ShortenerConfig :=
  {| api := VStr (py "None"); bypass_count := VStr (py "0"); website := VStr (py "None");
     short_enabled := VNone; mode := VStr (py "I"); token_time := 0 |}.

(** The first component of [get_mode_status]; the other two are the
    check marks of the two mode buttons (present or empty). *)
Inductive mode_display := ModeOff | Mode24h | ModePerLink | ModeBlank.

Record Caption := {
  cap_mode : mode_display;
  cap_time : pystr;
  cap_api : value;
  cap_website : value;
  cap_bypassed : value;
}.

Record Keyboard := { check_24 : bool; check_link : bool }.

Module ShortenerUI.

Definition get_mode_status (config : ShortenerConfig) : mode_display * bool * bool :=
  if negb (truthy (short_enabled config)) then (ModeOff, false, false)
  else if bool_decide (mode config = VStr (py "24")) then (Mode24h, true, false)
  else if bool_decide (mode config = VStr (py "link")) then (ModePerLink, false, true)
  else (ModeBlank, false, false).

(** The caption is a fixed template around these five fields. *)
Definition generate_caption (config : ShortenerConfig) : Caption :=
  let '(mode_display, _, _) := get_mode_status config in
  let time_display := TimeFormatter.format_seconds (token_time config) in
  {| cap_mode := mode_display; cap_time := time_display; cap_api := api config;
     cap_website := website config; cap_bypassed := bypass_count config |}.

Definition generate_keyboard (config : ShortenerConfig) : Keyboard :=
  let '(_, mode_24_check, mode_link_check) := get_mode_status config in
  {| check_24 := mode_24_check; check_link := mode_link_check |}.

End ShortenerUI.

(** ** The world of a coroutine

    The module talks to three collaborators: the settings store
    [kingdb], the chat client, and the admin check.  A coroutine is a
    function of the world it runs in. *)

(** A message handle is the message's identifier. *)
Abbreviation message := nat.

Inductive markup := CancelKeyboard | RemoveKeyboard.

(** Texts of prompts and outgoing messages: an object supplied at run
    time (a [str] or [None]), or one of the module's literals. *)
Inductive text :=
  | Text (s : option pystr)
  | WebsitePrompt
  | ApiPrompt
  | InvalidUrl
  | InvalidTimeFormat
  | TimeoutNotice
  | CancelledNotice
  | WebsiteAdded
  | ApiAdded
  | TimeFormatHelp
  | Mode24Enabled (time_display : pystr).

(** Truth value of a text: the literals are non-empty strings. *)
Definition text_truthy (t : text) : bool :=
  match t with
  | Text None | Text (Some []) => false
  | _ => true
  end.

Inductive alert := Unauthorized | PerLinkEnabled | ShortenerRemoved | AlreadyDisabled.

(** Calls made on the collaborators. *)
Inductive call :=
  | SendMessage (chat_id : Z) (body : text) (reply_markup : markup)
  | Listen (timeout : Z) (chat_id : Z)
  | DeleteMessage (m : message)
  | EditMessage (m : message) (body : text) (reply_markup : markup)
  | ReplyPhoto (m : message) (caption : Caption) (keyboard : Keyboard)
  | Answer (a : alert)
  | CheckAdmin (user_id : Z)
  | DbGet (key : string) (default : value)
  | DbSet (key : string) (v : value).

(** What a wait for a reply ends with: a message, whose [text] is
    [None] when it carries none, or the timeout. *)
Inductive incoming :=
  | Reply (text : option pystr)
  | TimedOut.

Inductive level := INFO | WARNING | ERROR.

Record World := {
  store : gmap string value;
  inbox : list incoming;
  faults : nat -> option string;
  admins : Z -> bool;
  calls : list call;
  logs : list (level * string);
}.

(** [calls] and [logs] hold the most recent entry first.  [faults n]
    names the exception the collaborators raise on call number [n], if
    any.  [inbox] lists what the successive waits will end with. *)

Inductive outcome (A : Type) :=
  | Done (a : A)
  | Raised (e : exn)
  | Blocked.
Arguments Done {A} a.
Arguments Raised {A} e.
Arguments Blocked {A}.

(** [Blocked]: the coroutine waits for a reply the inbox does not hold. *)

Definition M (A : Type) : Type := World -> outcome A * World.

Definition ret {A} (a : A) : M A := fun w => (Done a, w).

Definition bind {A B} (m : M A) (k : A -> M B) : M B := fun w =>
  match m w with
  | (Done a, w') => k a w'
  | (Raised e, w') => (Raised e, w')
  | (Blocked, w') => (Blocked, w')
  end.

Definition raise {A} (e : exn) : M A := fun w => (Raised e, w).

Definition lift {A} (r : result A) : M A :=
  match r with Ok a => ret a | Err e => raise e end.

Declare Scope coroutine_scope.
Delimit Scope coroutine_scope with co.
Notation "x <- m ;; k" := (bind m (fun x => k))
  (at level 100, m at next level, right associativity) : coroutine_scope.
Notation "m ;; k" := (bind m (fun _ => k))
  (at level 100, right associativity) : coroutine_scope.
Local Open Scope coroutine_scope.

(** [try: body  except Exception as e: handler e]: an exception that
    does not derive from [Exception] passes through. *)
Definition try_except {A} (body : M A) (handler : exn -> M A) : M A := fun w =>
  match body w with
  | (Raised e, w') => if is_exception e then handler e w' else (Raised e, w')
  | r => r
  end.

(** [try: body  except ListenerTimeout: handler] *)
Definition except_timeout {A} (body : M A) (handler : M A) : M A := fun w =>
  match body w with
  | (Raised ListenerTimeout, w') => handler w'
  | r => r
  end.

(** [try: body  finally: cleanup].  An exception of the cleanup replaces
    the outcome of the body. *)
Definition try_finally {A} (body : M A) (cleanup : M unit) : M A := fun w =>
  match body w with
  | (Blocked, w') => (Blocked, w')
  | (r, w') =>
      match cleanup w' with
      | (Done _, w'') => (r, w'')
      | (Raised e, w'') => (Raised e, w'')
      | (Blocked, w'') => (Blocked, w'')
      end
  end.

Definition record_call (c : call) (w : World) : World :=
  {| store := store w; inbox := inbox w; faults := faults w; admins := admins w;
     calls := c :: calls w; logs := logs w |}.

(** A call on a collaborator: recorded, then either the fault planned
    for it is raised or the collaborator answers. *)
Definition collaborator {A} (c : call) (answer : M A) : M A := fun w =>
  match faults w (length (calls w)) with
  | Some name => (Raised (PyError name), record_call c w)
  | None => answer (record_call c w)
  end.

Definition log (l : level) (msg : string) : M unit := fun w =>
  (Done tt, {| store := store w; inbox := inbox w; faults := faults w;
               admins := admins w; calls := calls w; logs := (l, msg) :: logs w |}).

Definition set_store (s : gmap string value) (w : World) : World :=
  {| store := s; inbox := inbox w; faults := faults w; admins := admins w;
     calls := calls w; logs := logs w |}.

Definition set_inbox (i : list incoming) (w : World) : World :=
  {| store := store w; inbox := i; faults := faults w; admins := admins w;
     calls := calls w; logs := logs w |}.

(** *** The settings store *)

Module kingdb.

(** Modelled from the spec: [database/database.py] is not among the
    sources.  The store is a flat mapping from field name to value;
    reading a field gives its value, or the default when it has none;
    the mapping changes by explicit set calls only. *)
Definition get_variable (key : string) (dflt : value) : M value :=
  collaborator (DbGet key dflt) (fun w => (Done (default dflt (store w !! key)), w)).

Definition set_variable (key : string) (v : value) : M unit :=
  collaborator (DbSet key v) (fun w => (Done tt, set_store (<[key := v]> (store w)) w)).

End kingdb.

Definition get_variable (key : string) (dflt : value) : M value :=
  v <- kingdb.get_variable key dflt ;; ret v.

Definition set_variable (key : string) (v : value) : M unit :=
  kingdb.set_variable key v ;; ret tt.

(** *** The chat client *)

Module client.

(** The handle of a sent message is the number of the call sending it. *)
Definition send_message (chat_id : Z) (body : text) (reply_markup : markup) : M message :=
  fun w => collaborator (SendMessage chat_id body reply_markup) (ret (length (calls w))) w.

(** [response = await client.listen(...)], reduced to [response.text]. *)
Definition listen (timeout chat_id : Z) : M (option pystr) :=
  collaborator (Listen timeout chat_id) (fun w =>
    match inbox w with
    | [] => (Blocked, w)
    | Reply t :: rest => (Done t, set_inbox rest w)
    | TimedOut :: rest => (Raised ListenerTimeout, set_inbox rest w)
    end).

End client.

Definition message_delete (m : message) : M unit :=
  collaborator (DeleteMessage m) (ret tt).

Definition message_edit (m : message) (body : text) (reply_markup : markup) : M message :=
  collaborator (EditMessage m body reply_markup) (ret m).

Definition message_reply_photo (m : message) (caption : Caption) (keyboard : Keyboard)
  : M message :=
  fun w => collaborator (ReplyPhoto m caption keyboard) (ret (length (calls w))) w.

Record CallbackQuery := {
  from_user : Z;
  data : pystr;
  query_message : message;
}.

Definition query_answer (a : alert) : M unit := collaborator (Answer a) (ret tt).

(** *** [AdminChecker] *)

Module AdminChecker.

(** The value read when the store has no ["owner"] field. *)
Definition default_owner : pystr :=
  py "-1002374561133 -1002252580234 -1002359972599 5426061889".

(** A stored value that is not a [str] has no [split]. *)
Definition get_admin_list : M (list Z) :=
  admin_str <- get_variable "owner" (VStr default_owner) ;;
  match admin_str with
  | VStr s => lift (comprehension (fun x => py_int (VStr (strip x))) (split_whitespace s))
  | _ => raise (PyError "AttributeError")
  end.

(** Modelled from the spec: [helper_func.check_admin] is not among the
    sources; it is an external boolean predicate on the user id. *)
Definition is_admin (user_id : Z) : M bool :=
  collaborator (CheckAdmin user_id) (fun w => (Done (admins w user_id), w)).

End AdminChecker.

(** ** [ShortenerManager] *)

(** A validator maps the reply's text to [(is_valid, error_msg)]. *)
Definition validator := option pystr -> result (bool * text).

Module ShortenerManager.

Definition TIMEOUT : Z := 60.

Definition load_config : M ShortenerConfig :=
  api <- get_variable "api" (VStr (py "None")) ;;
  bypass_count <- get_variable "bypass" (VStr (py "0")) ;;
  website <- get_variable "website" (VStr (py "None")) ;;
  short_enabled <- get_variable "short" VNone ;;
  mode <- get_variable "mode" (VStr (py "I")) ;;
  token_time_v <- get_variable "token_time" (VInt 0) ;;
  token_time <- lift (py_int token_time_v) ;;
  ret {| api := api; bypass_count := bypass_count; website := website;
         short_enabled := short_enabled; mode := mode; token_time := token_time |}.

Definition send_settings (msg : message) : M unit :=
  config <- load_config ;;
  let caption := ShortenerUI.generate_caption config in
  let keyboard := ShortenerUI.generate_keyboard config in
  message_reply_photo msg caption keyboard ;;
  ret tt.

Definition refresh_settings (msg : message) : M unit :=
  log INFO "Refreshing settings display" ;;
  try_except (message_delete msg)
    (fun e => log WARNING "Failed to delete message during refresh") ;;
  send_settings msg.

(** The reserved reply that cancels a session: the literal of line 274,
    the cross mark U+274C followed by [" cancel"]. *)
Definition cancel_keyword : pystr := [0x274C] ++ py " cancel".

(** [response.text and response.text.lower().strip() == cancel_keyword] *)
Definition is_cancel (response_text : option pystr) : bool :=
  match response_text with
  | None => false
  | Some [] => false
  | Some t => str_eqb (strip (lower t)) cancel_keyword
  end.

(** The body of [while True], [again] standing for the next iteration. *)
Definition wait_step (user_id : Z) (validate : option validator)
    (again : M (option pystr)) : M (option pystr) :=
  waited <-
    except_timeout
      (log INFO "Waiting for response" ;;
       response_text <- client.listen TIMEOUT user_id ;;
       log INFO "Received response" ;;
       ret (inl response_text))
      (log WARNING "Timeout waiting for response" ;;
       client.send_message user_id TimeoutNotice RemoveKeyboard ;;
       ret (inr None)) ;;
  match waited with
  | inr returned => ret returned
  | inl response_text =>
      if is_cancel response_text then
        log INFO "User cancelled the setup" ;;
        client.send_message user_id CancelledNotice RemoveKeyboard ;;
        ret None
      else
        match validate with
        | None =>
            log INFO "No validator, returning input" ;;
            ret response_text
        | Some validate =>
            log INFO "Validating input" ;;
            verdict <- lift (validate response_text) ;;
            let '(is_valid, error_msg) := verdict in
            if is_valid then
              log INFO "Input validation successful" ;;
              ret response_text
            else
              log WARNING "Input validation failed" ;;
              client.send_message user_id error_msg CancelKeyboard ;;
              again
        end
  end.

(** [while True: ...] run for at most [n] iterations. *)
Fixpoint wait_loop (n : nat) (user_id : Z) (validate : option validator)
  : M (option pystr) :=
  match n with
  | O => fun w => (Blocked, w)
  | S n' => wait_step user_id validate (wait_loop n' user_id validate)
  end.

(** The [try ... except Exception ... finally] statement.  Every
    iteration that reaches the next one has taken a reply from the
    inbox, so one iteration more than the inbox holds is enough. *)
Definition guarded_wait (user_id : Z) (validate : option validator)
    (prompt_message : option message) : M (option pystr) :=
  try_finally
    (try_except
       (fun w => wait_loop (S (length (inbox w))) user_id validate w)
       (fun e => log ERROR "Error in request_user_input" ;; ret None))
    (try_except
       (match prompt_message with
        | Some m => message_delete m
        | None => ret tt
        end)
       (fun e => log WARNING "Failed to delete prompt message")).

Definition request_user_input (user_id : Z) (prompt : text)
    (validate : option validator) (prompt_message : option message)
  : M (option pystr) :=
  log INFO "Requesting user input" ;;
  prompt_message <-
    match prompt_message with
    | None =>
        if text_truthy prompt then
          log INFO "Sending prompt message" ;;
          m <- client.send_message user_id prompt CancelKeyboard ;;
          ret (Some m)
        else ret None
    | Some m => ret (Some m)
    end ;;
  guarded_wait user_id validate prompt_message.

End ShortenerManager.

(** ** [URLValidator] and the handlers *)

(** The six components of [urllib.parse.urlparse]'s result. *)
Record ParseResult := {
  scheme : pystr;
  netloc : pystr;
  path : pystr;
  params : pystr;
  query : pystr;
  fragment : pystr;
}.

(** Truth value of an optional [str]. *)
Definition str_truthy (s : option pystr) : bool :=
  match s with
  | Some (_ :: _) => true
  | _ => false
  end.

(** [l[i]] *)
Definition item {A} (l : list A) (i : nat) : result A :=
  match l !! i with
  | Some x => Ok x
  | None => Err (PyError "IndexError")
  end.

Section Handlers.

(** [urllib.parse.urlparse] on a [str]: the library's parser, which
    raises on some inputs, is a parameter of the development. *)
Variable urlparse : pystr -> result ParseResult.

(** [urlparse(None)] has empty [bytes] components, none equal to a [str]. *)
Definition is_valid_website_url (url : option pystr) : result bool :=
  match
    match url with
    | None => Ok false
    | Some url =>
        match urlparse url with
        | Ok parsed =>
            Ok (str_eqb (scheme parsed) (py "https")
                && match netloc parsed with [] => false | _ => true end
                && match strip_chars (py "/") (path parsed) with [] => true | _ => false end)
        | Err e => Err e
        end
    end
  with
  | Ok b => Ok b
  | Err _ => Ok false
  end.

Definition validate_website (url : option pystr) : result (bool * text) :=
  match is_valid_website_url url with
  | Ok true => Ok (true, Text None)
  | Ok false => Ok (false, InvalidUrl)
  | Err e => Err e
  end.

Definition validate_time (time_str : option pystr) : result (bool * text) :=
  match time_str with
  | None => Err (PyError "AttributeError")
  | Some s =>
      match TimeFormatter.parse_time_string s with
      | Some _ => Ok (true, Text None)
      | None => Ok (false, InvalidTimeFormat)
      end
  end.

Definition short (msg : message) : M unit :=
  log INFO "Short command called" ;;
  ShortenerManager.send_settings msg.

Definition short2 (q : CallbackQuery) : M unit :=
  log INFO "Received query" ;;
  admin <- AdminChecker.is_admin (from_user q) ;;
  if negb admin then
    log WARNING "Unauthorized access attempt" ;;
    query_answer Unauthorized
  else
    action <- lift (item (split 0x5F (data q)) 1) ;;
    let user_id := from_user q in
    if str_eqb action (py "web") then
      log INFO "Website configuration started" ;;
      website <- ShortenerManager.request_user_input user_id WebsitePrompt
                   (Some validate_website) None ;;
      if str_truthy website then
        log INFO "Website set" ;;
        set_variable "website" (VStr (default [] website)) ;;
        client.send_message user_id WebsiteAdded RemoveKeyboard ;;
        ShortenerManager.refresh_settings (query_message q)
      else
        log INFO "Website configuration cancelled or timed out"
    else if str_eqb action (py "api") then
      log INFO "API configuration started" ;;
      api_key <- ShortenerManager.request_user_input user_id ApiPrompt None None ;;
      if str_truthy api_key then
        log INFO "API key received and set" ;;
        set_variable "api" (VStr (default [] api_key)) ;;
        client.send_message user_id ApiAdded RemoveKeyboard ;;
        ShortenerManager.refresh_settings (query_message q)
      else
        log INFO "API configuration cancelled or timed out"
    else ret tt.

Definition short3 (q : CallbackQuery) : M unit :=
  log INFO "Remove shortener called" ;;
  admin <- AdminChecker.is_admin (from_user q) ;;
  if negb admin then
    log WARNING "Unauthorized access attempt" ;;
    query_answer Unauthorized
  else
    config <- ShortenerManager.load_config ;;
    if truthy (short_enabled config) then
      log INFO "Disabling shortener" ;;
      set_variable "short" (VBool false) ;;
      set_variable "mode" VNone ;;
      query_answer ShortenerRemoved ;;
      ShortenerManager.refresh_settings (query_message q)
    else
      log INFO "Shortener already disabled" ;;
      query_answer AlreadyDisabled.

(** [str(seconds)] and [format_seconds(seconds)] for an optional [int]. *)
Definition str_of_seconds (seconds : option Z) : pystr :=
  match seconds with
  | Some n => str_of_int n
  | None => py "None"
  end.

Definition format_optional (seconds : option Z) : result pystr :=
  match seconds with
  | Some n => Ok (TimeFormatter.format_seconds n)
  | None => Err (PyError "TypeError")
  end.

Definition short4 (q : CallbackQuery) : M unit :=
  log INFO "Mode change called" ;;
  admin <- AdminChecker.is_admin (from_user q) ;;
  if negb admin then
    log WARNING "Unauthorized access attempt" ;;
    query_answer Unauthorized
  else
    action <- lift (item (split 0x5F (data q)) 1) ;;
    config <- ShortenerManager.load_config ;;
    if str_eqb action (py "link") then
      log INFO "Enabling per-link mode" ;;
      (if negb (truthy (short_enabled config)) then set_variable "short" (VBool true)
       else ret tt) ;;
      set_variable "mode" (VStr (py "link")) ;;
      query_answer PerLinkEnabled ;;
      ShortenerManager.refresh_settings (query_message q)
    else if str_eqb action (py "24") then
      log INFO "Starting 24h mode configuration" ;;
      edited_msg <-
        try_except
          (log INFO "Editing message to show time format instructions" ;;
           m <- message_edit (query_message q) TimeFormatHelp CancelKeyboard ;;
           ret (Some m))
          (fun e => log ERROR "Failed to edit message" ;; ret None) ;;
      time_input <- ShortenerManager.request_user_input (from_user q) (Text None)
                      (Some validate_time) edited_msg ;;
      if str_truthy time_input then
        log INFO "Time input received" ;;
        let seconds := TimeFormatter.parse_time_string (default [] time_input) in
        log INFO "Setting token_time" ;;
        set_variable "token_time" (VStr (str_of_seconds seconds)) ;;
        (if negb (truthy (short_enabled config)) then set_variable "short" (VBool true)
         else ret tt) ;;
        set_variable "mode" (VStr (py "24")) ;;
        time_display <- lift (format_optional seconds) ;;
        client.send_message (from_user q) (Mode24Enabled time_display) RemoveKeyboard ;;
        log INFO "24h mode enabled successfully" ;;
        ShortenerManager.refresh_settings (query_message q)
      else
        log INFO "24h mode configuration cancelled or timed out" ;;
        ShortenerManager.refresh_settings (query_message q)
    else ret tt.

End Handlers.

(** ** Vocabulary of the properties *)

(** A string of the form [<digits><h|m|s>], for a given notion of digit. *)
Definition time_form (is_digit : N -> bool) (s : pystr) : bool :=
  match rev s with
  | u :: (_ :: _) as digits => TimeFormatter.is_unit u && forallb is_digit digits
  | _ => false
  end.


(** The text for a non-zero number of hours: the hour part and, when
    non-zero, the minute part. *)
Definition hours_and_minutes (n : Z) : pystr :=
  let minutes := ((n mod 3600) / 60)%Z in
  join (py " ")
    (TimeFormatter.part (n / 3600) "hour"
       :: (if (minutes =? 0)%Z then [] else [TimeFormatter.part minutes "minute"])).

(** A code point that [lower] and [strip] leave alone. *)
Definition inert (c : N) : Prop :=
  (c =? 0x3A3) = false /\ Unicode.to_lower c = [c] /\ Unicode.is_space c = false.

Definition is_db_set (c : call) : bool :=
  match c with DbSet _ _ => true | _ => false end.

Definition is_listen (c : call) : bool :=
  match c with Listen _ _ => true | _ => false end.

(** [w'] is [w] after further calls, all of them satisfying [P], that
    left the store alone. *)
Definition extends (P : call -> Prop) (w w' : World) : Prop :=
  (exists new, calls w' = new ++ calls w /\ Forall P new)
  /\ store w' = store w /\ faults w' = faults w /\ admins w' = admins w.

(** Every run of [m] relates the world it starts in to the one it ends in. *)
Definition preserves {A} (R : World -> World -> Prop) (m : M A) : Prop :=
  forall w, R w (snd (m w)).

(** Between [w] and [w'] the store changed or a set call was made. *)
Definition wrote (w w' : World) : Prop :=
  store w' <> store w
  \/ exists new key v, calls w' = new ++ calls w /\ In (DbSet key v) new.

(** The prompt message [request_user_input] holds when it enters its
    [try] statement: the one it was given, or the one it has sent. *)
Definition prompt_in_effect (prompt : text) (prompt_message : option message)
    (w : World) : option message :=
  match prompt_message with
  | Some m => Some m
  | None =>
      if text_truthy prompt then
        match faults w (length (calls w)) with
        | None => Some (length (calls w))
        | Some _ => None
        end
      else None
  end.

(** The calls a session with [user_id] may make: messages to that user,
    waits on that user's chat with the fixed timeout, and deletions. *)
Definition session_call (user_id : Z) (c : call) : Prop :=
  match c with
  | SendMessage chat _ _ => chat = user_id
  | Listen timeout chat => timeout = ShortenerManager.TIMEOUT /\ chat = user_id
  | DeleteMessage _ => True
  | _ => False
  end.

Abbreviation not_set := (fun c : call => is_db_set c = false).

(** The collaborators fail with errors only: no call of the run is
    cancelled or interrupted. *)
Definition errors_only (w : World) : Prop :=
  forall i name, faults w i = Some name -> is_exception (PyError name) = true.

(** An exception a session run from [w] can meet: the one planned for
    a call of a collaborator, or one the validator raises. *)
Definition arises (validate : option validator) (w : World) (e : exn) : Prop :=
  (exists i name, faults w i = Some name /\ e = PyError name)
  \/ (exists v t, validate = Some v /\ v t = Err e).

(** The validator, if any, accepts the text. *)
Definition accepted (validate : option validator) (t : option pystr) : Prop :=
  match validate with
  | Some v => exists msg, v t = Ok (true, msg)
  | None => True
  end.

(** The validator turns the text down, with a message. *)
Definition rejected (validate : option validator) (t : option pystr) : Prop :=
  match validate with
  | Some v => exists msg, v t = Ok (false, msg)
  | None => False
  end.

(** A reply after which the session asks again: not a cancellation, and
    turned down by the validator. *)
Definition asked_again (validate : option validator) (t : option pystr) : Prop :=
  ShortenerManager.is_cancel t = false /\ rejected validate t.

(** The inbox gives a session the input [t]: replies after which the
    session asks again, then the reply [t], which is not a cancellation
    and which the validator accepts, then [rest]. *)
Definition answers (validate : option validator) (inb : list incoming)
    (t : option pystr) (rest : list incoming) : Prop :=
  exists retries,
    inb = map Reply retries ++ Reply t :: rest
    /\ Forall (asked_again validate) retries
    /\ ShortenerManager.is_cancel t = false /\ accepted validate t.

(** The inbox gives a session no input: after the replies that make it
    ask again the wait times out, or the reply is a cancellation; or the
    validator turns every text down. *)
Definition unanswered (validate : option validator) (inb : list incoming) : Prop :=
  (exists retries rest,
     Forall (asked_again validate) retries
     /\ (inb = map Reply retries ++ TimedOut :: rest
         \/ exists c, ShortenerManager.is_cancel c = true
                      /\ inb = map Reply retries ++ Reply c :: rest))
  \/ forall t, rejected validate t.

(** The input session that the callback data of [q] selects in
    [short2], with its validator: for the website, or for the API key. *)
Definition short2_flow (urlparse : pystr -> result ParseResult) (q : CallbackQuery)
    (validate : option validator) (session : M (option pystr)) : Prop :=
  (item (split 0x5F (data q)) 1 = Ok (py "web")
   /\ validate = Some (validate_website urlparse)
   /\ session = ShortenerManager.request_user_input (from_user q) WebsitePrompt
                  validate None)
  \/ (item (split 0x5F (data q)) 1 = Ok (py "api") /\ validate = None
      /\ session = ShortenerManager.request_user_input (from_user q) ApiPrompt None None).

(** The input session of [short4], for the verification time. *)
Definition short4_flow (q : CallbackQuery) (validate : option validator)
    (session : M (option pystr)) : Prop :=
  validate = Some validate_time
  /\ exists edited_msg,
       session = ShortenerManager.request_user_input (from_user q) (Text None)
                   validate edited_msg.

(** Every run of [m] is free of set calls, or the inbox it starts with
    gives a session of the family [F] a non-empty input [t]: the run has
    taken the replies up to that input, and it has reached, without a
    set call and with the inbox untouched, a world [w1] in which the
    session returns [t]. *)
Definition input_gated {A} (F : option validator -> M (option pystr) -> Prop)
    (m : M A) : Prop :=
  forall w,
    extends not_set w (snd (m w))
    \/ exists validate session t rest w1,
         F validate session /\ t <> []
         /\ answers validate (inbox w) (Some t) rest /\ inbox (snd (m w)) = rest
         /\ extends not_set w w1 /\ inbox w1 = inbox w
         /\ fst (session w1) = Done (Some t).

(** The inbox is as it was. *)
Definition same_inbox (w w' : World) : Prop := inbox w' = inbox w.

(** The label of the keyboard button offered for cancelling (lines 248
    and 302): the cross mark followed by [" Cancel"]. *)
Definition cancel_button : pystr := [0x274C] ++ py " Cancel".

(** A world whose collaborators never fail, with an empty store, empty
    trace, every user an admin, and the given inbox. *)
Definition quiet_world (replies : list incoming) : World :=
  {| store := ∅; inbox := replies; faults := fun _ => None;
     admins := fun _ => true; calls := []; logs := [] |}.

(** The same world, the call numbered [n] raising [name]. *)
Definition faulty_world (n : nat) (name : string) (replies : list incoming) : World :=
  {| store := ∅; inbox := replies;
     faults := fun i => if Nat.eqb i n then Some name else None;
     admins := fun _ => true; calls := []; logs := [] |}.

(** A parser for the plain shape [scheme://netloc/path], to run the
    handlers on examples. *)
Definition plain_urlparse (url : pystr) : result ParseResult :=
  match split 0x3A url with
  | [sch; 0x2F :: 0x2F :: rest] =>
      Ok {| scheme := lower sch;
            netloc := takewhile (fun c => negb (c =? 0x2F)) rest;
            path := dropwhile (fun c => negb (c =? 0x2F)) rest;
            params := []; query := []; fragment := [] |}
  | _ => Err (PyError "ValueError")
  end.

(** *** Vocabulary of the further properties *)

(** ASCII digits only; no whitespace. *)
Abbreviation digits l := (Forall (fun c => ascii_digit c = true) l).
Abbreviation spaceless l := (Forall (fun c => Unicode.is_space c = false) l).

(** The two calls of a handler that turns a user away. *)
Definition gate_call (user_id : Z) (c : call) : Prop :=
  c = CheckAdmin user_id \/ c = Answer Unauthorized.

(** The run of [h] from [w] stops at the admin check: it makes no call
    but the check and the alert, leaves store and inbox alone and, when
    these two calls work, returns after the alert. *)
Definition refuses (user_id : Z) (h : M unit) (w : World) : Prop :=
  extends (gate_call user_id) w (snd (h w))
  /\ inbox (snd (h w)) = inbox w
  /\ (faults w (length (calls w)) = None -> faults w (S (length (calls w))) = None ->
      fst (h w) = Done tt
      /\ calls (snd (h w)) = Answer Unauthorized :: CheckAdmin user_id :: calls w).

(** [w'] comes from [w] by calls that all satisfy [P]. *)
Definition traced (P : call -> Prop) (w w' : World) : Prop :=
  exists new, calls w' = new ++ calls w /\ Forall P new.

(** What each handler may pass to [set_variable]. *)
Definition short2_store_call (urlparse : pystr -> result ParseResult) (c : call) : Prop :=
  match c with
  | DbSet key v =>
      exists t, v = VStr t /\ t <> []
        /\ ((key = "website"%string /\ is_valid_website_url urlparse (Some t) = Ok true)
            \/ key = "api"%string)
  | _ => True
  end.

Definition short3_store_call (c : call) : Prop :=
  match c with
  | DbSet key v =>
      (key = "short"%string /\ v = VBool false) \/ (key = "mode"%string /\ v = VNone)
  | _ => True
  end.

Definition short4_store_call (c : call) : Prop :=
  match c with
  | DbSet key v =>
      (key = "short"%string /\ v = VBool true)
      \/ (key = "mode"%string /\ (v = VStr (py "link") \/ v = VStr (py "24")))
      \/ (key = "token_time"%string
          /\ exists n, (0 <= n)%Z /\ v = VStr (str_of_int n) /\ py_int v = Ok n)
  | _ => True
  end.

(** A world whose collaborators never fail, and one in which exactly
    the call numbered [k] raises [name]. *)
Definition reliable (st : gmap string value) (inb : list incoming) (adm : Z -> bool)
    (cs : list call) (lg : list (level * string)) : World :=
  {| store := st; inbox := inb; faults := fun _ => None; admins := adm;
     calls := cs; logs := lg |}.

Definition failing_at (k : nat) (name : string) (st : gmap string value)
    (inb : list incoming) (adm : Z -> bool) (cs : list call)
    (lg : list (level * string)) : World :=
  {| store := st; inbox := inb;
     faults := fun i => if Nat.eqb i k then Some name else None;
     admins := adm; calls := cs; logs := lg |}.

(** The fields [load_config] reads, and its calls, the most recent first. *)
Definition config_keys : list string :=
  ["api"; "bypass"; "website"; "short"; "mode"; "token_time"]%string.

Definition config_reads : list call :=
  [DbGet "token_time" (VInt 0); DbGet "mode" (VStr (py "I")); DbGet "short" VNone;
   DbGet "website" (VStr (py "None")); DbGet "bypass" (VStr (py "0"));
   DbGet "api" (VStr (py "None"))].

(** * Properties *)

(** ** The model on examples *)

Example lower_ascii : lower (py "  1H Xyz") = py "  1h xyz".
Proof. vm_compute. reflexivity. Qed.

Example lower_final_sigma :
  lower [0x39F; 0x394; 0x39F; 0x3A3] = [0x3BF; 0x3B4; 0x3BF; 0x3C2]
  /\ lower [0x3A3; 0x39F] = [0x3C3; 0x3BF].
Proof. vm_compute. split; reflexivity. Qed.

Example strip_both : strip (py "  30m ") = py "30m".
Proof. vm_compute. reflexivity. Qed.

Example str_of_int_ex : str_of_int 3600 = py "3600" /\ str_of_int 0 = py "0" /\ str_of_int (-5) = py "-5".
Proof. vm_compute. repeat split; reflexivity. Qed.

Example split_ex : split 0x5F (py "short_web") = [py "short"; py "web"].
Proof. vm_compute. reflexivity. Qed.

Example format_examples :
  TimeFormatter.format_seconds 90 = py "1 minute 30 seconds"
  /\ TimeFormatter.format_seconds 7322 = py "2 hours 2 minutes"
  /\ TimeFormatter.format_seconds (-1) = py "-1 hour 59 minutes".
Proof. vm_compute. repeat split; reflexivity. Qed.

Example parse_examples :
  TimeFormatter.parse_time_string (py "1h") = Some 3600%Z
  /\ TimeFormatter.parse_time_string (py " 2M ") = Some 120%Z
  /\ TimeFormatter.parse_time_string (py "h") = None
  /\ TimeFormatter.parse_time_string (py "1 h") = None
  /\ TimeFormatter.parse_time_string [0x663; 0x68] = Some 10800%Z.
Proof. vm_compute. repeat split; reflexivity. Qed.

Example int_examples :
  py_int (VStr (py " +1_000 ")) = Ok 1000%Z
  /\ py_int (VStr (py "-07")) = Ok (-7)%Z
  /\ py_int (VStr (py "1__0")) = Err (PyError "ValueError")
  /\ py_int (VStr (py "")) = Err (PyError "ValueError")
  /\ py_int (VStr [0x1C; 0x35]) = Err (PyError "ValueError")
  /\ py_int (VStr [0x20; 0x663; 0x2003]) = Ok 3%Z.
Proof. vm_compute. repeat split; reflexivity. Qed.

(** ** Lists and strings *)

Lemma takewhile_dropwhile {A} (p : A -> bool) (l : list A) :
  takewhile p l ++ dropwhile p l = l.
Proof.
  induction l as [|x l IH]; simpl; [reflexivity|].
  destruct (p x); simpl; [now rewrite IH | reflexivity].
Qed.

Lemma takewhile_all {A} (p : A -> bool) (l : list A) :
  forallb p (takewhile p l) = true.
Proof.
  induction l as [|x l IH]; simpl; [reflexivity|].
  destruct (p x) eqn:E; simpl; [now rewrite E | reflexivity].
Qed.

Lemma dropwhile_head {A} (p : A -> bool) (l : list A) x r :
  dropwhile p l = x :: r -> p x = false.
Proof.
  induction l as [|y l IH]; simpl; [discriminate|].
  destruct (p y) eqn:E; [exact IH|]. intros [= -> _]. exact E.
Qed.

Lemma takewhile_app_stop {A} (p : A -> bool) (l r : list A) x :
  forallb p l = true -> p x = false ->
  takewhile p (l ++ x :: r) = l /\ dropwhile p (l ++ x :: r) = x :: r.
Proof.
  intros Hl Hx. induction l as [|y l IH]; simpl in *.
  - now rewrite Hx.
  - apply andb_prop in Hl as [Hy Hl]. rewrite Hy.
    destruct (IH Hl) as [-> ->]. split; reflexivity.
Qed.

Lemma dropwhile_id {A} (p : A -> bool) (l : list A) x :
  p x = false -> dropwhile p (x :: l) = x :: l.
Proof. intros H. simpl. now rewrite H. Qed.

Lemma rstrip_where_last (p : N -> bool) (s l : pystr) c :
  rstrip_where p s = l ++ [c] -> p c = false.
Proof.
  unfold rstrip_where. intros H.
  apply (f_equal (@rev N)) in H. rewrite rev_involutive, rev_app_distr in H.
  simpl in H. now apply dropwhile_head in H.
Qed.

Lemma rstrip_where_id (p : N -> bool) (l : pystr) c :
  p c = false -> rstrip_where p (l ++ [c]) = l ++ [c].
Proof.
  intros H. unfold rstrip_where. rewrite rev_app_distr. simpl.
  rewrite H. simpl. now rewrite rev_involutive.
Qed.

Lemma strip_last_not_space (s l : pystr) c :
  strip s = l ++ [c] -> Unicode.is_space c = false.
Proof. apply rstrip_where_last. Qed.

(** ** [TimeFormatter.format_seconds] *)

Section FormatSeconds.

Local Open Scope Z_scope.
Import TimeFormatter.

Lemma seconds_cleared (n : Z) :
  let m := n - n mod 60 in
  m / 3600 = n / 3600 /\ (m mod 3600) / 60 = (n mod 3600) / 60 /\ m mod 60 = 0.
Proof. cbv zeta. repeat split; Z.div_mod_to_equations; lia. Qed.

Lemma format_with_hours (n : Z) :
  n / 3600 <> 0 -> format_seconds n = hours_and_minutes n.
Proof.
  intros Hh. unfold format_seconds, hours_and_minutes.
  assert (Hn : (n =? 0) = false).
  { apply Z.eqb_neq. intros ->. now apply Hh. }
  rewrite Hn. apply Z.eqb_neq in Hh. rewrite Hh. simpl negb.
  rewrite andb_false_r. cbv zeta. destruct ((n mod 3600) / 60 =? 0); reflexivity.
Qed.

(** C7: [format_seconds] gives "0 seconds" for 0 and "1 hour 1 minute"
    for 3661; whenever the hours component of the input is non-zero the
    result consists of the hour and minute parts only, and is the same
    as for the input with its seconds component cleared. *)
Theorem format_seconds_drops_seconds (n : Z) (Hhours : n / 3600 <> 0) :
  format_seconds 0 = py "0 seconds"
  /\ format_seconds 3661 = py "1 hour 1 minute"
  /\ format_seconds n = hours_and_minutes n
  /\ format_seconds n = format_seconds (n - n mod 60).
Proof.
  split; [reflexivity|]. split; [vm_compute; reflexivity|].
  split; [now apply format_with_hours|].
  destruct (seconds_cleared n) as (Hh & Hm & _). cbv zeta in Hh, Hm.
  rewrite !format_with_hours by (rewrite ?Hh; exact Hhours).
  unfold hours_and_minutes. cbv zeta. now rewrite Hh, Hm.
Qed.

Lemma format_seconds_drops_seconds_witness :
  3661 / 3600 <> 0 /\ format_seconds 3661 = format_seconds (3661 - 3661 mod 60).
Proof.
  assert (H : 3661 / 3600 <> 0) by (vm_compute; discriminate).
  split; [exact H|]. apply (format_seconds_drops_seconds 3661 H).
Defined.

End FormatSeconds.

(** ** [TimeFormatter.parse_time_string] *)

Section ParseTimeString.

Import TimeFormatter.

Lemma is_unit_cases (u : N) :
  is_unit u = true -> u = 0x68 \/ u = 0x6D \/ u = 0x73.
Proof.
  unfold is_unit. rewrite !orb_true_iff, !N.eqb_eq. tauto.
Qed.

Lemma unit_not_decimal (u : N) : is_unit u = true -> Unicode.is_decimal u = false.
Proof. intros H. destruct (is_unit_cases u H) as [-> | [-> | ->]]; reflexivity. Qed.

Lemma ascii_digit_cases (c : N) :
  ascii_digit c = true ->
  c = 48 \/ c = 49 \/ c = 50 \/ c = 51 \/ c = 52 \/ c = 53 \/ c = 54 \/ c = 55
  \/ c = 56 \/ c = 57.
Proof.
  unfold ascii_digit. rewrite andb_true_iff, !N.leb_le. lia.
Qed.

Lemma ascii_digit_inert (c : N) : ascii_digit c = true -> inert c.
Proof.
  intros H. destruct (ascii_digit_cases c H) as [-> | H1]; [vm_compute; auto|].
  repeat (destruct H1 as [-> | H1]; [vm_compute; auto|]). subst. vm_compute; auto.
Qed.

Lemma unit_inert (u : N) : is_unit u = true -> inert u.
Proof.
  intros H. destruct (is_unit_cases u H) as [-> | [-> | ->]]; vm_compute; auto.
Qed.

Lemma ascii_digit_decimal (c : N) : ascii_digit c = true -> Unicode.is_decimal c = true.
Proof.
  intros H. destruct (ascii_digit_cases c H) as [-> | H1]; [reflexivity|].
  repeat (destruct H1 as [-> | H1]; [reflexivity|]). now subst.
Qed.

Lemma lower_from_inert (before s : pystr) :
  Forall inert s -> lower_from before s = s.
Proof.
  intros H. revert before. induction H as [|c s (Hs & Hl & _) _ IH]; intros before.
  - reflexivity.
  - simpl. rewrite Hs, Hl, IH. reflexivity.
Qed.

Lemma strip_inert (s : pystr) : Forall inert s -> strip s = s.
Proof.
  intros H. unfold strip, lstrip_where.
  destruct s as [|c s]; [reflexivity|].
  inversion H as [|? ? (_ & _ & Hc) Hs]; subst.
  rewrite dropwhile_id by exact Hc.
  destruct (exists_last (l := c :: s) ltac:(discriminate)) as (l & z & E).
  rewrite E. apply rstrip_where_id.
  rewrite E in H. apply Forall_app in H as [_ Hz].
  inversion Hz as [|? ? (_ & _ & Hz') _]. exact Hz'.
Qed.

Lemma time_form_split (is_digit : N -> bool) (s : pystr) :
  time_form is_digit s = true ->
  exists ds u, s = ds ++ [u] /\ ds <> [] /\ forallb is_digit ds = true /\ is_unit u = true.
Proof.
  unfold time_form. destruct (rev s) as [|u [|d rds]] eqn:E; try discriminate.
  intros H. apply andb_prop in H as [Hu Hd].
  exists (rev (d :: rds)), u. repeat split.
  - rewrite <- (rev_involutive s), E. reflexivity.
  - simpl. intros C. now apply app_eq_nil in C as [_ C].
  - rewrite forallb_forall in *. intros x Hx. apply Hd. now apply in_rev in Hx.
  - exact Hu.
Qed.

Lemma time_form_intro (is_digit : N -> bool) (ds : pystr) (u : N) :
  ds <> [] -> forallb is_digit ds = true -> is_unit u = true ->
  time_form is_digit (ds ++ [u]) = true.
Proof.
  intros Hne Hd Hu. unfold time_form. rewrite rev_app_distr. simpl.
  destruct (rev ds) as [|d rds] eqn:E.
  - apply (f_equal (@rev N)) in E. rewrite rev_involutive in E. now destruct Hne.
  - assert (Hr : forallb is_digit (rev ds) = true).
    { rewrite forallb_forall in *. intros x Hx. apply Hd. now apply in_rev. }
    rewrite E in Hr. rewrite Hu. exact Hr.
Qed.

Lemma time_pattern_match (ds : pystr) (u : N) :
  ds <> [] -> forallb Unicode.is_decimal ds = true -> is_unit u = true ->
  time_pattern (ds ++ [u]) = Some (ds, u).
Proof.
  intros Hne Hd Hu. unfold time_pattern.
  destruct (takewhile_app_stop Unicode.is_decimal ds [] u Hd (unit_not_decimal u Hu))
    as [-> ->].
  destruct ds; [now destruct Hne|]. now rewrite Hu.
Qed.

Lemma time_pattern_matched (s ds : pystr) (u : N) :
  time_pattern s = Some (ds, u) ->
  ds <> [] /\ forallb Unicode.is_decimal ds = true /\ is_unit u = true
  /\ (s = ds ++ [u] \/ s = (ds ++ [u]) ++ [0x0A]).
Proof.
  unfold time_pattern. intros H.
  pose proof (takewhile_dropwhile Unicode.is_decimal s) as E.
  pose proof (takewhile_all Unicode.is_decimal s) as A.
  destruct (takewhile Unicode.is_decimal s) as [|d r]; [discriminate|].
  destruct (dropwhile Unicode.is_decimal s) as [|u' [|nl [|? ?]]]; try discriminate.
  - destruct (is_unit u') eqn:Hu; [|discriminate]. injection H as <- <-.
    repeat split; auto; discriminate.
  - destruct (is_unit u') eqn:Hu; [|discriminate]. simpl in H.
    destruct (nl =? 0x0A) eqn:Hnl; [|discriminate]. injection H as <- <-.
    apply N.eqb_eq in Hnl. subst nl.
    split; [discriminate|]. split; [exact A|]. split; [exact Hu|].
    right. rewrite <- app_assoc. now rewrite <- E.
Qed.

Lemma parse_of_form (s ds : pystr) (u : N) :
  strip (lower s) = ds ++ [u] -> ds <> [] ->
  forallb Unicode.is_decimal ds = true -> is_unit u = true ->
  parse_time_string s = Some (int_of_digits ds * conversions u)%Z.
Proof.
  intros E Hne Hd Hu. unfold parse_time_string.
  now rewrite E, (time_pattern_match ds u Hne Hd Hu).
Qed.

Lemma parse_some_form (s : pystr) (r : Z) :
  parse_time_string s = Some r ->
  time_form Unicode.is_decimal (strip (lower s)) = true.
Proof.
  unfold parse_time_string.
  destruct (time_pattern (strip (lower s))) as [[ds u]|] eqn:E; [|discriminate].
  intros _. apply time_pattern_matched in E as (Hne & Hd & Hu & [E | E]).
  - rewrite E. now apply time_form_intro.
  - apply strip_last_not_space in E. discriminate.
Qed.

Lemma ascii_form_normal (s : pystr) :
  time_form ascii_digit s = true -> strip (lower s) = s.
Proof.
  intros H. apply time_form_split in H as (ds & u & -> & _ & Hd & Hu).
  assert (Hi : Forall inert (ds ++ [u])).
  { apply Forall_app. split.
    - rewrite forallb_forall in Hd. apply List.Forall_forall.
      intros x Hx. apply ascii_digit_inert. now apply Hd.
    - constructor; [now apply unit_inert | constructor]. }
  unfold lower. rewrite lower_from_inert by exact Hi. now apply strip_inert.
Qed.

(** C6, amended: [parse_time_string] reads its argument lower-cased and
    stripped of surrounding whitespace.  When that text has the form
    [<digits><h|m|s>] (decimal digits of any script) the result is the
    digits' value times 3600, 60 or 1; otherwise the result is [None].
    A string that has the form with ASCII digits as it stands is its own
    normal form, so the first case applies to it; "1h", "30m" and "45s"
    give 3600, 1800 and 45, and "abc", "1x" and "" give [None]. *)
Theorem parse_time_string_normalises (s : pystr) :
  (time_form ascii_digit s = true ->
     exists ds u, s = ds ++ [u]
       /\ parse_time_string s = Some (int_of_digits ds * conversions u)%Z)
  /\ (time_form Unicode.is_decimal (strip (lower s)) = true ->
     exists ds u, strip (lower s) = ds ++ [u]
       /\ parse_time_string s = Some (int_of_digits ds * conversions u)%Z)
  /\ (time_form Unicode.is_decimal (strip (lower s)) = false ->
     parse_time_string s = None)
  /\ (conversions 0x68 = 3600 /\ conversions 0x6D = 60 /\ conversions 0x73 = 1)%Z
  /\ parse_time_string (py "1h") = Some 3600%Z
  /\ parse_time_string (py "30m") = Some 1800%Z
  /\ parse_time_string (py "45s") = Some 45%Z
  /\ parse_time_string (py "abc") = None
  /\ parse_time_string (py "1x") = None
  /\ parse_time_string (py "") = None.
Proof.
  split.
  { intros H. pose proof (ascii_form_normal s H) as En.
    apply time_form_split in H as (ds & u & E & Hne & Hd & Hu).
    exists ds, u. split; [exact E|].
    apply parse_of_form; auto; [congruence|].
    rewrite forallb_forall in *. intros x Hx. apply ascii_digit_decimal. now apply Hd. }
  split.
  { intros H. apply time_form_split in H as (ds & u & E & Hne & Hd & Hu).
    exists ds, u. split; [exact E|]. now apply parse_of_form. }
  split.
  { intros H. destruct (parse_time_string s) as [r|] eqn:E; [|reflexivity].
    apply parse_some_form in E. congruence. }
  vm_compute. repeat split; reflexivity.
Qed.

Lemma parse_time_string_normalises_witness :
  parse_time_string (py " 2H ") = Some 7200%Z.
Proof.
  destruct (parse_time_string_normalises (py " 2H ")) as (_ & H & _).
  destruct (H eq_refl) as (ds & u & E & ->).
  vm_compute in E.
  destruct ds as [|d [|d' ds]]; try discriminate E.
  - injection E as <- <-. reflexivity.
  - destruct ds; discriminate E.
Defined.

(** C6 as stated fails: "1H" is not of the form [<digits><h|m|s>], and
    yet it parses to an hour. *)
Lemma parse_time_string_upper_case_unit :
  time_form ascii_digit (py "1H") = false
  /\ parse_time_string (py "1H") = Some 3600%Z.
Proof. vm_compute. split; reflexivity. Qed.

End ParseTimeString.

(** ** The cancel keyword *)



(** ** [URLValidator.is_valid_website_url] *)

Lemma dropwhile_nil {A} (p : A -> bool) (l : list A) :
  dropwhile p l = [] <-> forallb p l = true.
Proof.
  induction l as [|x l IH]; simpl; [tauto|].
  destruct (p x); simpl; [exact IH|]. split; discriminate.
Qed.

Lemma strip_chars_nil (chars s : pystr) :
  strip_chars chars s = [] <-> forallb (fun c => existsb (N.eqb c) chars) s = true.
Proof.
  unfold strip_chars, rstrip_where, lstrip_where.
  set (p := fun c => existsb (N.eqb c) chars).
  split.
  - intros H. apply (f_equal (@rev N)) in H. rewrite rev_involutive in H. simpl in H.
    apply dropwhile_nil in H.
    destruct (dropwhile p s) as [|x r] eqn:E; [now apply dropwhile_nil|].
    apply dropwhile_head in E.
    rewrite forallb_forall in H. rewrite H in E; [discriminate|].
    apply in_rev. rewrite rev_involutive. now left.
  - intros H. apply dropwhile_nil in H. now rewrite H.
Qed.

Lemma only_slashes (s : pystr) :
  strip_chars (py "/") s = [] <-> Forall (fun c => c = 0x2F) s.
Proof.
  rewrite strip_chars_nil, forallb_forall, List.Forall_forall.
  split; intros H x Hx; specialize (H x Hx).
  - simpl in H. rewrite orb_false_r in H. now apply N.eqb_eq in H.
  - subst x. reflexivity.
Qed.

Section WebsiteUrl.

Variable urlparse : pystr -> result ParseResult.

(** C9: [is_valid_website_url] answers [True] exactly when the parsed
    scheme is "https", the network location is non-empty and the path
    holds nothing but slashes; a parsed scheme "http" or a path with
    anything else in it is rejected; whatever the parser does, raising
    included, the function returns a boolean. *)
Theorem is_valid_website_url_spec (url : pystr) :
  (is_valid_website_url urlparse (Some url) = Ok true <->
     exists parsed, urlparse url = Ok parsed
       /\ scheme parsed = py "https"
       /\ netloc parsed <> []
       /\ Forall (fun c => c = 0x2F) (path parsed))
  /\ (exists b, is_valid_website_url urlparse (Some url) = Ok b)
  /\ (forall parsed, urlparse url = Ok parsed -> scheme parsed = py "http" ->
        is_valid_website_url urlparse (Some url) = Ok false)
  /\ (forall parsed, urlparse url = Ok parsed ->
        ~ Forall (fun c => c = 0x2F) (path parsed) ->
        is_valid_website_url urlparse (Some url) = Ok false)
  /\ (forall e, urlparse url = Err e ->
        is_valid_website_url urlparse (Some url) = Ok false).
Proof.
  unfold is_valid_website_url, str_eqb.
  destruct (urlparse url) as [parsed|e] eqn:E.
  - split; [|split; [eauto|split; [|split; [|discriminate]]]].
    + split.
      * intros [= H]. apply andb_prop in H as [H Hp]. apply andb_prop in H as [Hs Hn].
        exists parsed. split; [reflexivity|].
        split; [now apply bool_decide_eq_true in Hs|].
        split; [now destruct (netloc parsed)|].
        apply only_slashes. now destruct (strip_chars (py "/") (path parsed)).
      * intros (p & [= <-] & Hs & Hn & Hp). apply only_slashes in Hp.
        rewrite Hs, Hp. destruct (netloc parsed); [now destruct Hn|]. reflexivity.
    + intros p [= <-] Hs. rewrite Hs. reflexivity.
    + intros p [= <-] Hp. rewrite <- only_slashes in Hp.
      destruct (strip_chars (py "/") (path parsed)); [now destruct Hp|].
      now rewrite andb_false_r.
  - split; [|split; [eauto|split; [discriminate|split; [discriminate|reflexivity]]]].
    split; [discriminate|]. intros (p & [=] & _).
Qed.

End WebsiteUrl.

Lemma is_valid_website_url_spec_witness :
  is_valid_website_url plain_urlparse (Some (py "http://example.com")) = Ok false
  /\ is_valid_website_url plain_urlparse (Some (py "https://example.com/page")) = Ok false
  /\ is_valid_website_url plain_urlparse (Some (py "https://example.com/")) = Ok true.
Proof.
  split; [|split].
  - destruct (is_valid_website_url_spec plain_urlparse (py "http://example.com"))
      as (_ & _ & H & _).
    exact (H _ eq_refl eq_refl).
  - destruct (is_valid_website_url_spec plain_urlparse (py "https://example.com/page"))
      as (_ & _ & _ & H & _).
    apply (H _ eq_refl). vm_compute. intros C. inversion C as [|? ? _ C'].
    inversion C' as [|? ? D _]. discriminate D.
  - destruct (is_valid_website_url_spec plain_urlparse (py "https://example.com/"))
      as (H & _).
    apply H. eexists. split; [reflexivity|]. vm_compute.
    split; [reflexivity|]. split; [discriminate|]. repeat constructor.
Defined.

(** ** Coroutines: what a run preserves *)

Section Preservation.

Variable R : World -> World -> Prop.
Hypothesis R_refl : forall w, R w w.
Hypothesis R_trans : forall a b c, R a b -> R b c -> R a c.
Hypothesis R_log : forall l msg w, R w (snd (log l msg w)).

Lemma preserves_ret {A} (a : A) : preserves R (ret a).
Proof. intros w. apply R_refl. Qed.

Lemma preserves_raise {A} (e : exn) : preserves R (@raise A e).
Proof. intros w. apply R_refl. Qed.

Lemma preserves_lift {A} (r : result A) : preserves R (lift r).
Proof. destruct r; [apply preserves_ret | apply preserves_raise]. Qed.

Lemma preserves_log l msg : preserves R (log l msg).
Proof. intros w. apply R_log. Qed.

Lemma preserves_bind {A B} (m : M A) (k : A -> M B) :
  preserves R m -> (forall a, preserves R (k a)) -> preserves R (bind m k).
Proof.
  intros Hm Hk w. unfold bind. specialize (Hm w).
  destruct (m w) as [[a|e|] w1]; simpl in *; auto.
  eapply R_trans; [exact Hm | apply Hk].
Qed.

Lemma preserves_try_except {A} (body : M A) (handler : exn -> M A) :
  preserves R body -> (forall e, preserves R (handler e)) ->
  preserves R (try_except body handler).
Proof.
  intros Hb Hh w. unfold try_except. specialize (Hb w).
  destruct (body w) as [[a|e|] w1]; simpl in *; auto.
  destruct (is_exception e); [|exact Hb].
  eapply R_trans; [exact Hb | apply Hh].
Qed.

Lemma preserves_except_timeout {A} (body handler : M A) :
  preserves R body -> preserves R handler ->
  preserves R (except_timeout body handler).
Proof.
  intros Hb Hh w. unfold except_timeout. specialize (Hb w).
  destruct (body w) as [[a|[|name]|] w1]; simpl in *; auto.
  eapply R_trans; [exact Hb | apply Hh].
Qed.

Lemma preserves_try_finally {A} (body : M A) (cleanup : M unit) :
  preserves R body -> preserves R cleanup ->
  preserves R (try_finally body cleanup).
Proof.
  intros Hb Hc w. unfold try_finally. specialize (Hb w).
  destruct (body w) as [[a|e|] w1]; simpl in *; auto;
    specialize (Hc w1); destruct (cleanup w1) as [[[]|e'|] w2]; simpl in *;
    eapply R_trans; eauto.
Qed.

Lemma preserves_collaborator {A} (c : call) (answer : M A) :
  (forall w, R w (record_call c w)) -> preserves R answer ->
  preserves R (collaborator c answer).
Proof.
  intros Hc Ha w. unfold collaborator.
  destruct (faults w (length (calls w))); simpl; [apply Hc|].
  eapply R_trans; [apply Hc | apply Ha].
Qed.

End Preservation.

Lemma extends_refl (P : call -> Prop) (w : World) : extends P w w.
Proof. repeat split; auto. exists []. split; [reflexivity | constructor]. Qed.

Lemma extends_trans (P : call -> Prop) (a b c : World) :
  extends P a b -> extends P b c -> extends P a c.
Proof.
  intros ((n1 & E1 & F1) & S1 & G1 & A1) ((n2 & E2 & F2) & S2 & G2 & A2).
  repeat split; try congruence.
  exists (n2 ++ n1). split.
  - rewrite E2, E1. apply app_assoc.
  - apply Forall_app. split; assumption.
Qed.

Lemma extends_log (P : call -> Prop) l msg (w : World) : extends P w (snd (log l msg w)).
Proof. repeat split; auto. exists []. split; [reflexivity | constructor]. Qed.

Lemma extends_record (P : call -> Prop) (c : call) (w : World) :
  P c -> extends P w (record_call c w).
Proof.
  intros H. repeat split; auto. exists [c]. split; [reflexivity|].
  constructor; [exact H | constructor].
Qed.

Lemma extends_set_inbox (P : call -> Prop) i (w : World) : extends P w (set_inbox i w).
Proof. repeat split; auto. exists []. split; [reflexivity | constructor]. Qed.

Lemma extends_weaken (P Q : call -> Prop) (w w' : World) :
  (forall c, P c -> Q c) -> extends P w w' -> extends Q w w'.
Proof.
  intros H ((n & E & F) & S & G & A). repeat split; auto.
  exists n. split; [exact E|]. eapply Forall_impl; eauto.
Qed.

Lemma extends_not_wrote (w w' : World) :
  extends (fun c => is_db_set c = false) w w' -> ~ wrote w w'.
Proof.
  intros ((n & E & F) & S & _) [H | (n' & key & v & E' & Hin)]; [now apply H|].
  rewrite E in E'. apply app_inv_tail in E'. subst n'.
  rewrite List.Forall_forall in F. specialize (F _ Hin). discriminate F.
Qed.

Section Frames.

Variable P : call -> Prop.

Local Abbreviation framed := (preserves (extends P)).

Lemma framed_ret {A} (a : A) : framed (ret a).
Proof. apply preserves_ret, extends_refl. Qed.

Lemma framed_lift {A} (r : result A) : framed (lift r).
Proof. apply preserves_lift, extends_refl. Qed.

Lemma framed_log l msg : framed (log l msg).
Proof. apply preserves_log, extends_log. Qed.

Lemma framed_bind {A B} (m : M A) (k : A -> M B) :
  framed m -> (forall a, framed (k a)) -> framed (bind m k).
Proof. apply preserves_bind, extends_trans. Qed.

Lemma framed_try_except {A} (body : M A) (handler : exn -> M A) :
  framed body -> (forall e, framed (handler e)) -> framed (try_except body handler).
Proof. apply preserves_try_except, extends_trans. Qed.

Lemma framed_except_timeout {A} (body handler : M A) :
  framed body -> framed handler -> framed (except_timeout body handler).
Proof. apply preserves_except_timeout, extends_trans. Qed.

Lemma framed_try_finally {A} (body : M A) (cleanup : M unit) :
  framed body -> framed cleanup -> framed (try_finally body cleanup).
Proof. apply preserves_try_finally, extends_trans. Qed.

Lemma framed_collaborator {A} (c : call) (answer : M A) :
  P c -> framed answer -> framed (collaborator c answer).
Proof.
  intros Hc. apply preserves_collaborator; [apply extends_trans|].
  intros w. now apply extends_record.
Qed.

Lemma framed_send_message chat body reply_markup :
  P (SendMessage chat body reply_markup) ->
  framed (client.send_message chat body reply_markup).
Proof.
  intros Hc w. unfold client.send_message.
  apply (framed_collaborator _ (ret (length (calls w))) Hc (framed_ret _)).
Qed.

Lemma framed_listen timeout chat :
  P (Listen timeout chat) -> framed (client.listen timeout chat).
Proof.
  intros Hc. apply framed_collaborator; [exact Hc|].
  intros w. destruct (inbox w) as [|[t|] rest]; simpl;
    [apply extends_refl | apply extends_set_inbox | apply extends_set_inbox].
Qed.

Lemma framed_delete m : P (DeleteMessage m) -> framed (message_delete m).
Proof. intros Hc. apply framed_collaborator; [exact Hc | apply framed_ret]. Qed.

Lemma framed_edit m body reply_markup :
  P (EditMessage m body reply_markup) -> framed (message_edit m body reply_markup).
Proof. intros Hc. apply framed_collaborator; [exact Hc | apply framed_ret]. Qed.

Lemma framed_reply_photo m caption keyboard :
  P (ReplyPhoto m caption keyboard) -> framed (message_reply_photo m caption keyboard).
Proof.
  intros Hc w. unfold message_reply_photo.
  apply (framed_collaborator _ (ret (length (calls w))) Hc (framed_ret _)).
Qed.

Lemma framed_answer a : P (Answer a) -> framed (query_answer a).
Proof. intros Hc. apply framed_collaborator; [exact Hc | apply framed_ret]. Qed.

Lemma framed_is_admin user_id :
  P (CheckAdmin user_id) -> framed (AdminChecker.is_admin user_id).
Proof.
  intros Hc. apply framed_collaborator; [exact Hc|]. intros w. apply extends_refl.
Qed.

Lemma framed_get_variable key dflt :
  P (DbGet key dflt) -> framed (get_variable key dflt).
Proof.
  intros Hc. apply framed_bind; [|intros a; apply framed_ret].
  apply framed_collaborator; [exact Hc|]. intros w. apply extends_refl.
Qed.

End Frames.

(** Chaining the rules above over the text of a coroutine. *)
Ltac frame :=
  repeat first
    [ apply framed_ret | apply framed_lift | apply framed_log
    | apply framed_send_message | apply framed_listen | apply framed_delete
    | apply framed_edit | apply framed_reply_photo | apply framed_answer
    | apply framed_is_admin | apply framed_get_variable
    | apply framed_bind; [|intros ?]
    | apply framed_except_timeout
    | apply framed_try_except; [|intros ?]
    | apply framed_try_finally
    | match goal with
      | |- preserves _ (match ?x with _ => _ end) => destruct x
      | |- preserves _ (if ?x then _ else _) => destruct x
      | |- preserves _ (let '(_, _) := ?x in _) => destruct x
      end ].

Section SessionFrame.

Variable user_id : Z.
Variable validate : option validator.

Lemma wait_loop_session (n : nat) :
  preserves (extends (session_call user_id))
    (ShortenerManager.wait_loop n user_id validate).
Proof.
  induction n as [|n IH]; [intros w; apply extends_refl|].
  simpl. unfold ShortenerManager.wait_step. frame; simpl; auto.
Qed.

Lemma guarded_wait_session (prompt_message : option message) :
  preserves (extends (session_call user_id))
    (ShortenerManager.guarded_wait user_id validate prompt_message).
Proof.
  unfold ShortenerManager.guarded_wait.
  apply framed_try_finally; [apply framed_try_except|].
  - intros w. apply (wait_loop_session (S (length (inbox w))) w).
  - intros e. frame.
  - frame. exact I.
Qed.

Lemma request_user_input_session (prompt : text) (prompt_message : option message) :
  preserves (extends (session_call user_id))
    (ShortenerManager.request_user_input user_id prompt validate prompt_message).
Proof.
  unfold ShortenerManager.request_user_input.
  apply framed_bind; [frame|]. intros _.
  apply framed_bind; [|intros pm; apply guarded_wait_session].
  frame. reflexivity.
Qed.

End SessionFrame.

(** ** The settings store adapter *)

(** C8: [get_variable] and [set_variable] hand the call to the store,
    once, and return what it returns: in every world the adapter and the
    store's own operation end alike, a single store call is recorded, a
    failing store makes the adapter raise the store's exception, and a
    working store gives its current content. *)
Theorem store_adapter_delegates (key : string) (dflt v : value) (w : World) :
  get_variable key dflt w = kingdb.get_variable key dflt w
  /\ set_variable key v w = kingdb.set_variable key v w
  /\ calls (snd (get_variable key dflt w)) = DbGet key dflt :: calls w
  /\ calls (snd (set_variable key v w)) = DbSet key v :: calls w
  /\ (forall name, faults w (length (calls w)) = Some name ->
        fst (get_variable key dflt w) = Raised (PyError name)
        /\ fst (set_variable key v w) = Raised (PyError name)
        /\ store (snd (set_variable key v w)) = store w)
  /\ (faults w (length (calls w)) = None ->
        fst (get_variable key dflt w) = Done (default dflt (store w !! key))
        /\ fst (set_variable key v w) = Done tt
        /\ store (snd (set_variable key v w)) = <[key := v]> (store w)).
Proof.
  unfold get_variable, set_variable, kingdb.get_variable, kingdb.set_variable,
    bind, ret, collaborator.
  destruct (faults w (length (calls w))) as [name|]; simpl;
    (do 4 (split; [reflexivity|])); split.
  - intros ? [= <-]. repeat split; reflexivity.
  - discriminate.
  - discriminate.
  - intros _. repeat split; reflexivity.
Qed.

Lemma store_adapter_delegates_witness :
  fst (get_variable "api" VNone (faulty_world 0 "ConnectionError" []))
    = Raised (PyError "ConnectionError")
  /\ fst (get_variable "api" VNone (quiet_world [])) = Done VNone.
Proof.
  split.
  - destruct (store_adapter_delegates "api" VNone VNone
                (faulty_world 0 "ConnectionError" [])) as (_ & _ & _ & _ & H & _).
    apply (H "ConnectionError"). reflexivity.
  - destruct (store_adapter_delegates "api" VNone VNone (quiet_world []))
      as (_ & _ & _ & _ & _ & H).
    apply H. reflexivity.
Defined.

(** ** [ShortenerManager.request_user_input] *)

#[local] Arguments is_exception : simpl never.

Lemma errors_only_at (w : World) (i : nat) (name : string) :
  errors_only w -> faults w i = Some name -> is_exception (PyError name) = false -> False.
Proof. intros He Hf Hx. rewrite (He _ _ Hf) in Hx. discriminate. Qed.

(** The rest of a proof by cases on the faults of a world whose
    collaborators fail with errors only. *)
Ltac errors_only He :=
  try (exfalso;
       match goal with
       | H : faults _ _ = Some ?s, H' : is_exception (PyError ?s) = false |- _ =>
           exact (errors_only_at _ _ _ He H H')
       end).

Section Session.

Import ShortenerManager.

Variable user_id : Z.

(** The [finally] clause: at most one call, the deletion of the prompt
    message.  Its failure is swallowed when it derives from [Exception]
    and passes through otherwise. *)
Lemma cleanup_runs (prompt_message : option message) (w : World) :
  exists o w',
    try_except
      (match prompt_message with
       | Some m => message_delete m
       | None => ret tt
       end)
      (fun e => log WARNING "Failed to delete prompt message") w = (o, w')
    /\ calls w' = match prompt_message with
                  | Some m => DeleteMessage m :: calls w
                  | None => calls w
                  end
    /\ inbox w' = inbox w
    /\ (forall entry, In entry (logs w) -> In entry (logs w'))
    /\ (o = Done tt
        \/ exists name,
             prompt_message <> None /\ faults w (length (calls w)) = Some name
             /\ is_exception (PyError name) = false /\ o = Raised (PyError name)).
Proof.
  unfold try_except, message_delete, collaborator.
  destruct prompt_message as [m|].
  - destruct (faults w (length (calls w))) as [name|] eqn:Ef; simpl.
    + destruct (is_exception (PyError name)) eqn:Ee; simpl.
      * eexists _, _. split; [reflexivity|]. split; [reflexivity|].
        split; [reflexivity|]. split; [|now left]. intros entry H. now right.
      * eexists _, _. split; [reflexivity|]. split; [reflexivity|].
        split; [reflexivity|]. split; [auto|]. right. exists name. now repeat split.
    + eexists _, _. split; [reflexivity|]. split; [reflexivity|].
      split; [reflexivity|]. split; [auto | now left].
  - simpl. eexists _, _. split; [reflexivity|]. split; [reflexivity|].
    split; [reflexivity|]. split; [auto | now left].
Qed.

(** How the [try] statement ends, from how the loop ends: an exception
    of the loop that derives from [Exception] becomes [None] and an
    [ERROR] record, then the cleanup runs; an exception of the cleanup
    that passes through replaces the outcome. *)
Lemma guarded_wait_ends (validate : option validator) (prompt_message : option message)
    (w w1 : World) (o : outcome (option pystr)) :
  wait_loop (S (length (inbox w))) user_id validate w = (o, w1) ->
  o <> Blocked ->
  exists o2 w2,
    guarded_wait user_id validate prompt_message w = (o2, w2)
    /\ calls w2 = match prompt_message with
                  | Some m => DeleteMessage m :: calls w1
                  | None => calls w1
                  end
    /\ inbox w2 = inbox w1
    /\ (forall e, o = Raised e -> is_exception e = true ->
          In (ERROR, "Error in request_user_input"%string) (logs w2))
    /\ (o2 = match o with
             | Raised e => if is_exception e then Done None else Raised e
             | _ => o
             end
        \/ exists name,
             prompt_message <> None /\ faults w1 (length (calls w1)) = Some name
             /\ is_exception (PyError name) = false /\ o2 = Raised (PyError name)).
Proof.
  intros H Hb. unfold guarded_wait, try_finally.
  set (body := try_except _ _).
  destruct o as [a|e|]; [| |now destruct Hb].
  - assert (E : body w = (Done a, w1)) by (subst body; unfold try_except; now rewrite H).
    rewrite E.
    destruct (cleanup_runs prompt_message w1) as (o' & w2 & -> & Ec & Ei & _ & Ho).
    destruct Ho as [-> | (name & Hp & Hf & Hx & ->)];
      eexists _, w2; (split; [reflexivity|]); repeat split; auto; try discriminate.
    right. exists name. now repeat split.
  - destruct (is_exception e) eqn:Ee.
    + set (w1' := {| store := store w1; inbox := inbox w1; faults := faults w1;
                     admins := admins w1; calls := calls w1;
                     logs := (ERROR, "Error in request_user_input"%string) :: logs w1 |}).
      assert (E : body w = (Done None, w1'))
        by (subst body; unfold try_except; now rewrite H, Ee).
      rewrite E.
      destruct (cleanup_runs prompt_message w1') as (o' & w2 & -> & Ec & Ei & El & Ho).
      destruct Ho as [-> | (name & Hp & Hf & Hx & ->)];
        eexists _, w2; (split; [reflexivity|]); (split; [exact Ec|]);
        (split; [exact Ei|]); (split; [intros _ _ _; apply El; now left|]);
        [now left|].
      right. exists name. now repeat split.
    + assert (E : body w = (Raised e, w1))
        by (subst body; unfold try_except; now rewrite H, Ee).
      rewrite E.
      destruct (cleanup_runs prompt_message w1) as (o' & w2 & -> & Ec & Ei & _ & Ho).
      destruct Ho as [-> | (name & Hp & Hf & Hx & ->)];
        eexists _, w2; (split; [reflexivity|]); (split; [exact Ec|]);
        (split; [exact Ei|]); (split; [intros e' [= <-]; congruence|]);
        [now left|].
      right. exists name. now repeat split.
Qed.

(** The same when neither the loop nor the deletion lets an exception
    through. *)
Lemma guarded_wait_run (validate : option validator) (prompt_message : option message)
    (w w1 : World) (o : outcome (option pystr)) :
  wait_loop (S (length (inbox w))) user_id validate w = (o, w1) ->
  o <> Blocked ->
  (forall e, o = Raised e -> is_exception e = true) ->
  (forall name, faults w1 (length (calls w1)) = Some name ->
     is_exception (PyError name) = true) ->
  exists w2,
    guarded_wait user_id validate prompt_message w
    = (match o with Raised _ => Done None | _ => o end, w2)
    /\ calls w2 = match prompt_message with
                  | Some m => DeleteMessage m :: calls w1
                  | None => calls w1
                  end
    /\ inbox w2 = inbox w1
    /\ (forall e, o = Raised e ->
          In (ERROR, "Error in request_user_input"%string) (logs w2)).
Proof.
  intros H Hb He Hd.
  destruct (guarded_wait_ends validate prompt_message w w1 o H Hb)
    as (o2 & w2 & E & Ec & Ei & El & Ho).
  destruct Ho as [-> | (name & _ & Hf & Hx & _)].
  - exists w2. rewrite E. split; [|split; [exact Ec|split; [exact Ei|]]].
    + destruct o as [a|e|]; try reflexivity. now rewrite (He e eq_refl).
    + intros e ->. apply (El e eq_refl). now apply He.
  - rewrite (Hd _ Hf) in Hx. discriminate.
Qed.

(** The loop leaves the planned faults as they are. *)
Lemma wait_loop_faults (validate : option validator) (n : nat) (w : World) :
  faults (snd (wait_loop n user_id validate w)) = faults w.
Proof. now destruct (wait_loop_session user_id validate n w) as (_ & _ & H & _). Qed.

(** An exception of the loop is one planned for a call, or one of the
    validator. *)
Lemma wait_loop_raises (validate : option validator) (n : nat) (w : World) (e : exn) :
  fst (wait_loop n user_id validate w) = Raised e -> arises validate w e.
Proof.
  revert w. induction n as [|n IH]; intros w; [discriminate|].
  simpl. unfold wait_step, bind, except_timeout, log, client.listen, client.send_message,
    collaborator, lift, ret, raise.
  simpl. unfold arises.
  repeat (case_match; simplify_eq; simpl in *; try discriminate);
    try (intros [= <-]; eauto 8; fail).
  intros Hr. apply IH in Hr. exact Hr.
Qed.

(** When the [try] statement returns, its [try ... except] part has
    returned the same. *)
Lemma guarded_wait_done (validate : option validator) (prompt_message : option message)
    (w : World) (a : option pystr) :
  fst (guarded_wait user_id validate prompt_message w) = Done a ->
  fst (try_except
         (fun w => wait_loop (S (length (inbox w))) user_id validate w)
         (fun e => log ERROR "Error in request_user_input" ;; ret None) w) = Done a.
Proof.
  unfold guarded_wait, try_finally.
  destruct (try_except _ _ w) as [[a'|e|] w1]; [| |discriminate];
    destruct (cleanup_runs prompt_message w1) as (o & w2 & -> & _ & _ & _ & Ho);
    destruct Ho as [-> | (name & _ & _ & _ & ->)]; simpl; congruence.
Qed.

(** The [try] statement waits for ever only if its loop does. *)
Lemma guarded_wait_unblocked (validate : option validator)
    (prompt_message : option message) (w : World) :
  fst (wait_loop (S (length (inbox w))) user_id validate w) <> Blocked ->
  fst (guarded_wait user_id validate prompt_message w) <> Blocked.
Proof.
  intros Hb.
  destruct (wait_loop (S (length (inbox w))) user_id validate w) as [o w1] eqn:E.
  destruct (guarded_wait_ends validate prompt_message w w1 o E Hb)
    as (o2 & w2 & -> & _ & _ & _ & Ho).
  simpl in *. destruct Ho as [-> | (name & _ & _ & _ & ->)]; [|discriminate].
  destruct o as [a|e|]; [discriminate | destruct (is_exception e); discriminate | exact Hb].
Qed.

Lemma guarded_wait_deletes (validate : option validator) (m : message) (w : World) :
  fst (guarded_wait user_id validate (Some m) w) <> Blocked ->
  exists earlier, calls (snd (guarded_wait user_id validate (Some m) w))
                  = DeleteMessage m :: earlier.
Proof.
  unfold guarded_wait, try_finally.
  destruct (try_except _ _ w) as [[a|e|] w1]; [| |intros H; now destruct H];
    intros _; destruct (cleanup_runs (Some m) w1) as (o & w2 & -> & E & _ & _ & Ho);
    destruct Ho as [-> | (name & _ & _ & _ & ->)]; simpl; eauto.
Qed.

(** The [try] statement raises only what does not derive from
    [Exception]. *)
Lemma guarded_wait_raises (validate : option validator) (prompt_message : option message)
    (w : World) (e : exn) :
  fst (guarded_wait user_id validate prompt_message w) = Raised e ->
  is_exception e = false /\ arises validate w e.
Proof.
  destruct (wait_loop (S (length (inbox w))) user_id validate w) as [o w1] eqn:E.
  destruct o as [a|e0|].
  3: { unfold guarded_wait, try_finally, try_except. rewrite E. discriminate. }
  all: pose proof (wait_loop_faults validate (S (length (inbox w))) w) as Hfa;
    pose proof (wait_loop_raises validate (S (length (inbox w))) w) as Hra;
    rewrite E in Hfa, Hra; simpl in Hfa, Hra;
    destruct (guarded_wait_ends validate prompt_message w w1 _ E ltac:(discriminate))
      as (o2 & w2 & -> & _ & _ & _ & Ho);
    simpl; destruct Ho as [-> | (name & _ & Hf & Hx & ->)].
  - discriminate.
  - intros [= <-]. split; [exact Hx|]. left. exists (length (calls w1)), name.
    rewrite <- Hfa. now split.
  - destruct (is_exception e0) eqn:Ee; [discriminate|].
    intros [= <-]. split; [exact Ee|]. now apply Hra.
  - intros [= <-]. split; [exact Hx|]. left. exists (length (calls w1)), name.
    rewrite <- Hfa. now split.
Qed.

(** What [request_user_input] does before its [try] statement. *)
Lemma request_user_input_enters (validate : option validator) (prompt : text) (prompt_message : option message)
    (w : World) (m : message) :
  prompt_in_effect prompt prompt_message w = Some m ->
  exists w1, request_user_input user_id prompt validate prompt_message w
             = guarded_wait user_id validate (Some m) w1
             /\ faults w1 = faults w.
Proof.
  unfold prompt_in_effect, request_user_input, bind, log. simpl.
  destruct prompt_message as [m0|].
  - intros [= <-]. eauto.
  - destruct (text_truthy prompt); [|discriminate].
    unfold bind, log, client.send_message, collaborator. simpl.
    destruct (faults w (length (calls w))); [discriminate|].
    intros [= <-]. simpl. eauto.
Qed.

(** C2: when a prompt message is in effect, every run of
    [request_user_input] that comes to an end, whatever the path, has
    made the deletion of that message its last call.  The run ends by
    returning, unless an exception that does not derive from
    [Exception] passes through; it always returns when no such
    exception arises. *)
Theorem prompt_deleted_on_every_exit (validate : option validator) (prompt : text) (prompt_message : option message)
    (w : World) (m : message) :
  prompt_in_effect prompt prompt_message w = Some m ->
  fst (request_user_input user_id prompt validate prompt_message w) <> Blocked ->
  ((exists returned,
      fst (request_user_input user_id prompt validate prompt_message w) = Done returned)
   \/ exists e,
        fst (request_user_input user_id prompt validate prompt_message w) = Raised e
        /\ is_exception e = false /\ arises validate w e)
  /\ ((forall e, arises validate w e -> is_exception e = true) ->
      exists returned,
        fst (request_user_input user_id prompt validate prompt_message w) = Done returned)
  /\ (exists earlier,
        calls (snd (request_user_input user_id prompt validate prompt_message w))
        = DeleteMessage m :: earlier).
Proof.
  intros Hm. destruct (request_user_input_enters validate _ _ _ _ Hm) as (w1 & -> & Hfa).
  intros Hb.
  assert (Ha : forall e, arises validate w1 e -> arises validate w e).
  { intros e [(i & name & Hf & ->) | H]; [left|now right].
    exists i, name. rewrite <- Hfa. now split. }
  pose proof (guarded_wait_raises validate (Some m) w1) as Hr.
  split; [|split; [|now apply guarded_wait_deletes]].
  - destruct (fst (guarded_wait user_id validate (Some m) w1)) as [a|e|];
      [eauto | | now destruct Hb].
    right. exists e. destruct (Hr e eq_refl) as [Hx Har]. auto.
  - intros Hall.
    destruct (fst (guarded_wait user_id validate (Some m) w1)) as [a|e|];
      [eauto | | now destruct Hb].
    destruct (Hr e eq_refl) as [Hx Har]. rewrite (Hall e (Ha e Har)) in Hx. discriminate.
Qed.

(** A wait that ends by the timeout: the notice is the next call, and
    the iteration returns [None] unless the notice itself fails. *)
Lemma wait_step_timeout (validate : option validator) (again : M (option pystr)) (w : World) (rest : list incoming) :
  inbox w = TimedOut :: rest -> faults w (length (calls w)) = None ->
  calls (snd (wait_step user_id validate again w))
    = SendMessage user_id TimeoutNotice RemoveKeyboard :: Listen TIMEOUT user_id :: calls w
  /\ inbox (snd (wait_step user_id validate again w)) = rest
  /\ faults (snd (wait_step user_id validate again w)) = faults w
  /\ (fst (wait_step user_id validate again w) = Done None
      \/ exists name, faults w (S (length (calls w))) = Some name
           /\ fst (wait_step user_id validate again w) = Raised (PyError name)).
Proof.
  intros Hi Hf.
  unfold wait_step, bind, except_timeout, log, client.listen, client.send_message, collaborator.
  simpl. rewrite Hf. simpl. rewrite Hi. simpl.
  destruct (faults w (S (length (calls w)))) as [name|]; simpl;
    (split; [reflexivity|]); (split; [reflexivity|]); (split; [reflexivity|]).
  - right. exists name. split; reflexivity.
  - now left.
Qed.

(** A reply taken for a cancellation: the notice is the next call, and
    the iteration returns [None] unless the notice itself fails. *)
Lemma wait_step_cancel (validate : option validator) (again : M (option pystr)) (w : World)
    (c : option pystr) (rest : list incoming) :
  inbox w = Reply c :: rest -> faults w (length (calls w)) = None ->
  is_cancel c = true ->
  calls (snd (wait_step user_id validate again w))
    = SendMessage user_id CancelledNotice RemoveKeyboard :: Listen TIMEOUT user_id :: calls w
  /\ inbox (snd (wait_step user_id validate again w)) = rest
  /\ faults (snd (wait_step user_id validate again w)) = faults w
  /\ (fst (wait_step user_id validate again w) = Done None
      \/ exists name, faults w (S (length (calls w))) = Some name
           /\ fst (wait_step user_id validate again w) = Raised (PyError name)).
Proof.
  intros Hi Hf Hc.
  unfold wait_step, bind, except_timeout, log, client.listen, client.send_message, collaborator.
  simpl. rewrite Hf. simpl. rewrite Hi. simpl. rewrite Hc. simpl.
  destruct (faults w (S (length (calls w)))) as [name|]; simpl;
    (split; [reflexivity|]); (split; [reflexivity|]); (split; [reflexivity|]).
  - right. exists name. split; reflexivity.
  - now left.
Qed.

(** A rejected reply: the validator's message is sent and the loop goes
    on in the world after these two calls. *)
Lemma wait_step_retry (v : validator) (again : M (option pystr)) (w : World)
    (t : option pystr) (rest : list incoming) (msg : text) :
  inbox w = Reply t :: rest ->
  faults w (length (calls w)) = None -> faults w (S (length (calls w))) = None ->
  is_cancel t = false -> v t = Ok (false, msg) ->
  wait_step user_id (Some v) again w
  = again {| store := store w; inbox := rest; faults := faults w; admins := admins w;
             calls := SendMessage user_id msg CancelKeyboard
                        :: Listen TIMEOUT user_id :: calls w;
             logs := (WARNING, "Input validation failed") :: (INFO, "Validating input")
                       :: (INFO, "Received response") :: (INFO, "Waiting for response")
                       :: logs w |}.
Proof.
  intros Hi Hf Hf' Hc Hv.
  unfold wait_step, bind, except_timeout, log, client.listen, client.send_message,
    collaborator, lift, ret.
  simpl. rewrite Hf. simpl. rewrite Hi. simpl. rewrite Hc, Hv. simpl. rewrite Hf'.
  reflexivity.
Qed.

(** Rejected replies, then silence: the session ends by the timeout. *)
Lemma wait_loop_retries (v : validator) (retries : list (option pystr)) :
  forall (n : nat) (w : World) (rest : list incoming),
  (length retries < n)%nat ->
  inbox w = map Reply retries ++ TimedOut :: rest ->
  (forall i, faults w i = None) ->
  Forall (fun t => is_cancel t = false /\ exists msg, v t = Ok (false, msg)) retries ->
  fst (wait_loop n user_id (Some v) w) = Done None
  /\ inbox (snd (wait_loop n user_id (Some v) w)) = rest
  /\ exists earlier,
       calls (snd (wait_loop n user_id (Some v) w))
       = SendMessage user_id TimeoutNotice RemoveKeyboard :: Listen TIMEOUT user_id :: earlier.
Proof.
  induction retries as [|t retries IH]; intros n w rest Hn Hi Hf Hr;
    (destruct n as [|n]; [simpl in Hn; lia|]); simpl wait_loop.
  - destruct (wait_step_timeout (Some v) (wait_loop n user_id (Some v)) w rest Hi (Hf _))
      as (Hc & Hin & _).
    split; [|split; eauto].
    unfold wait_step, bind, except_timeout, log, client.listen, client.send_message,
      collaborator.
    simpl. rewrite !Hf. simpl. simpl in Hi. rewrite Hi. simpl. rewrite Hf. reflexivity.
  - inversion Hr as [|? ? (Hc & msg & Hv) Hr']; subst.
    rewrite (wait_step_retry v _ w t _ msg Hi (Hf _) (Hf _) Hc Hv).
    apply IH; simpl in *; auto; lia.
Qed.

(** An exception of the loop that derives from [Exception] is logged
    and turned into [None]. *)
Lemma guarded_wait_catches (validate : option validator)
    (prompt_message : option message) (w w1 : World) (e : exn) :
  wait_loop (S (length (inbox w))) user_id validate w = (Raised e, w1) ->
  is_exception e = true -> errors_only w ->
  fst (guarded_wait user_id validate prompt_message w) = Done None
  /\ In (ERROR, "Error in request_user_input"%string)
        (logs (snd (guarded_wait user_id validate prompt_message w))).
Proof.
  intros H Hx He.
  pose proof (wait_loop_faults validate (S (length (inbox w))) w) as Hfa.
  rewrite H in Hfa. simpl in Hfa.
  destruct (guarded_wait_run validate prompt_message w w1 _ H) as (w2 & -> & _ & _ & Hl).
  - discriminate.
  - now intros e' [= <-].
  - intros name Hf. rewrite Hfa in Hf. exact (He _ _ Hf).
  - split; [reflexivity|]. now apply (Hl e).
Qed.

(** An exception of the loop that does not derive from [Exception]
    passes through, after the deletion of the prompt message. *)
Lemma guarded_wait_passes (validate : option validator)
    (prompt_message : option message) (w w1 : World) (e : exn) :
  wait_loop (S (length (inbox w))) user_id validate w = (Raised e, w1) ->
  is_exception e = false ->
  (exists e', fst (guarded_wait user_id validate prompt_message w) = Raised e'
              /\ is_exception e' = false)
  /\ calls (snd (guarded_wait user_id validate prompt_message w))
     = match prompt_message with
       | Some m => DeleteMessage m :: calls w1
       | None => calls w1
       end
  /\ ((forall name, faults w (length (calls w1)) = Some name ->
         is_exception (PyError name) = true) ->
      fst (guarded_wait user_id validate prompt_message w) = Raised e).
Proof.
  intros H Hx.
  pose proof (wait_loop_faults validate (S (length (inbox w))) w) as Hfa.
  rewrite H in Hfa. simpl in Hfa.
  destruct (guarded_wait_ends validate prompt_message w w1 _ H ltac:(discriminate))
    as (o2 & w2 & -> & Ec & _ & _ & Ho).
  simpl. rewrite Hx in Ho. split; [|split; [exact Ec|]].
  - destruct Ho as [-> | (name & _ & _ & Hx' & ->)]; eauto.
  - intros He. destruct Ho as [-> | (name & _ & Hf & Hx' & _)]; [reflexivity|].
    rewrite Hfa in Hf. rewrite (He _ Hf) in Hx'. discriminate.
Qed.

(** The first wait ends by the timeout. *)
Lemma guarded_wait_timeout (validate : option validator)
    (prompt_message : option message) (w : World) (rest : list incoming) :
  inbox w = TimedOut :: rest -> faults w (length (calls w)) = None -> errors_only w ->
  fst (guarded_wait user_id validate prompt_message w) = Done None
  /\ inbox (snd (guarded_wait user_id validate prompt_message w)) = rest
  /\ In (SendMessage user_id TimeoutNotice RemoveKeyboard)
        (calls (snd (guarded_wait user_id validate prompt_message w))).
Proof.
  intros Hi Hf He.
  destruct (wait_step_timeout validate
              (wait_loop (length (inbox w)) user_id validate) w rest Hi Hf)
    as (Hc & Hin & Hfa & Ho).
  destruct (wait_loop (S (length (inbox w))) user_id validate w) as [o w1] eqn:E.
  simpl in E. rewrite E in Hc, Hin, Hfa, Ho. simpl in Hc, Hin, Hfa, Ho.
  destruct (guarded_wait_run validate prompt_message w w1 o E) as (w2 & -> & Ec & Ei & _).
  - destruct Ho as [-> | (name & _ & ->)]; discriminate.
  - intros e ->. destruct Ho as [[=] | (name & Hn & [= ->])]. exact (He _ _ Hn).
  - intros name Hn. rewrite Hfa in Hn. exact (He _ _ Hn).
  - simpl. split; [|split].
    + destruct Ho as [-> | (name & _ & ->)]; reflexivity.
    + congruence.
    + rewrite Ec, Hc. destruct prompt_message; [right|]; now left.
Qed.

(** The first reply is taken for a cancellation. *)
Lemma guarded_wait_cancel (validate : option validator)
    (prompt_message : option message) (w : World) (c : option pystr)
    (rest : list incoming) :
  inbox w = Reply c :: rest -> is_cancel c = true ->
  faults w (length (calls w)) = None -> errors_only w ->
  fst (guarded_wait user_id validate prompt_message w) = Done None
  /\ inbox (snd (guarded_wait user_id validate prompt_message w)) = rest
  /\ In (SendMessage user_id CancelledNotice RemoveKeyboard)
        (calls (snd (guarded_wait user_id validate prompt_message w))).
Proof.
  intros Hi Hcc Hf He.
  destruct (wait_step_cancel validate
              (wait_loop (length (inbox w)) user_id validate) w c rest Hi Hf Hcc)
    as (Hc & Hin & Hfa & Ho).
  destruct (wait_loop (S (length (inbox w))) user_id validate w) as [o w1] eqn:E.
  simpl in E. rewrite E in Hc, Hin, Hfa, Ho. simpl in Hc, Hin, Hfa, Ho.
  destruct (guarded_wait_run validate prompt_message w w1 o E) as (w2 & -> & Ec & Ei & _).
  - destruct Ho as [-> | (name & _ & ->)]; discriminate.
  - intros e ->. destruct Ho as [[=] | (name & Hn & [= ->])]. exact (He _ _ Hn).
  - intros name Hn. rewrite Hfa in Hn. exact (He _ _ Hn).
  - simpl. split; [|split].
    + destruct Ho as [-> | (name & _ & ->)]; reflexivity.
    + congruence.
    + rewrite Ec, Hc. destruct prompt_message; [right|]; now left.
Qed.

(** Rejected replies followed by the timeout, collaborators working. *)
Lemma guarded_wait_retries (v : validator) (prompt_message : option message)
    (retries : list (option pystr)) (w : World) (rest : list incoming) :
  inbox w = map Reply retries ++ TimedOut :: rest ->
  (forall i, faults w i = None) ->
  Forall (fun t => is_cancel t = false /\ exists msg, v t = Ok (false, msg)) retries ->
  fst (guarded_wait user_id (Some v) prompt_message w) = Done None
  /\ inbox (snd (guarded_wait user_id (Some v) prompt_message w)) = rest
  /\ In (SendMessage user_id TimeoutNotice RemoveKeyboard)
        (calls (snd (guarded_wait user_id (Some v) prompt_message w))).
Proof.
  intros Hi Hf Hr.
  destruct (wait_loop_retries v retries (S (length (inbox w))) w rest) as (Ho & Hin & ea & Hc);
    auto.
  { rewrite Hi, length_app, length_map. simpl. lia. }
  pose proof (wait_loop_faults (Some v) (S (length (inbox w))) w) as Hfa.
  destruct (wait_loop (S (length (inbox w))) user_id (Some v) w) as [o w1] eqn:E.
  simpl in Ho, Hin, Hc, Hfa. subst o.
  destruct (guarded_wait_run (Some v) prompt_message w w1 _ E) as (w2 & -> & Ec & Ei & _);
    [discriminate | discriminate | intros name Hn; rewrite Hfa, Hf in Hn; discriminate |].
  simpl. split; [reflexivity|]. split; [congruence|].
  rewrite Ec, Hc. destruct prompt_message; [right|]; now left.
Qed.

(** What [request_user_input] does before its [try] statement. *)
Lemma request_user_input_cases (prompt : text) (validate : option validator)
    (prompt_message : option message) (w : World) :
  (exists name w1,
     prompt_message = None /\ text_truthy prompt = true
     /\ faults w (length (calls w)) = Some name
     /\ request_user_input user_id prompt validate prompt_message w
        = (Raised (PyError name), w1))
  \/ exists pm w1,
       request_user_input user_id prompt validate prompt_message w
       = guarded_wait user_id validate pm w1
       /\ inbox w1 = inbox w /\ faults w1 = faults w /\ store w1 = store w
       /\ ((calls w1 = calls w /\ pm = prompt_message)
           \/ (calls w1 = SendMessage user_id prompt CancelKeyboard :: calls w
               /\ faults w (length (calls w)) = None
               /\ pm = Some (length (calls w)))).
Proof.
  unfold request_user_input, bind, log. simpl.
  destruct prompt_message as [m|]; [right; eexists _, _; split; [reflexivity|]; auto 7|].
  destruct (text_truthy prompt); [|right; eexists _, _; split; [reflexivity|]; auto 7].
  unfold bind, log, client.send_message, collaborator. simpl.
  destruct (faults w (length (calls w))) as [name|] eqn:Ef; simpl.
  - left. exists name. eauto 6.
  - right. eexists _, _. split; [reflexivity|]. auto 8.
Qed.

(** [request_user_input] raises only when sending the prompt fails, or
    an exception that does not derive from [Exception] arises. *)
Lemma request_user_input_raises (validate : option validator) (prompt : text)
    (prompt_message : option message) (w : World) (e : exn) :
  fst (request_user_input user_id prompt validate prompt_message w) = Raised e ->
  arises validate w e
  /\ ((prompt_message = None /\ text_truthy prompt = true
       /\ exists name, faults w (length (calls w)) = Some name /\ e = PyError name)
      \/ is_exception e = false).
Proof.
  destruct (request_user_input_cases prompt validate prompt_message w)
    as [(name & w1 & Hp & Ht & Hf & ->) | (pm & w1 & -> & _ & Hfa & _)].
  - intros [= <-]. split; [left; eauto|]. left. eauto.
  - intros H. apply guarded_wait_raises in H as [Hx Ha]. split; [|now right].
    destruct Ha as [(i & name & Hf & ->) | Ha]; [left|now right].
    exists i, name. rewrite <- Hfa. now split.
Qed.

(** Without a validator the first reply that is not a cancellation ends
    the session: its text is the result, nothing more is taken from the
    inbox, and a single wait was made. *)
Lemma first_reply_returned (prompt : text) (prompt_message : option message)
    (w : World) (t : option pystr) (rest : list incoming) :
  inbox w = Reply t :: rest -> is_cancel t = false ->
  faults w (length (calls w)) = None -> faults w (S (length (calls w))) = None ->
  errors_only w ->
  fst (request_user_input user_id prompt None prompt_message w) = Done t
  /\ inbox (snd (request_user_input user_id prompt None prompt_message w)) = rest
  /\ exists new,
       calls (snd (request_user_input user_id prompt None prompt_message w))
       = new ++ calls w
       /\ length (List.filter is_listen new) = 1%nat
       /\ forall notice, ~ In (SendMessage user_id notice RemoveKeyboard) new.
Proof.
  intros Hi Hc Hf Hf' He.
  unfold request_user_input, guarded_wait, try_finally, try_except, bind, log,
    message_delete, client.send_message, collaborator, ret.
  simpl. unfold wait_step, bind, except_timeout, log, client.listen, client.send_message,
    collaborator, ret.
  destruct prompt_message as [m|]; [|destruct (text_truthy prompt)]; simpl;
    rewrite ?Hf, ?Hf'; simpl; rewrite ?Hi; simpl; rewrite ?Hc; simpl;
    repeat (case_match; simpl in *; simplify_eq; try congruence);
    errors_only He;
    (split; [reflexivity|split; [reflexivity|]]);
    first
      [ solve [ eexists [_]; (split; [reflexivity|]); (split; [reflexivity|]);
                intros notice Hin; simpl in Hin; intuition discriminate ]
      | solve [ eexists [_; _]; (split; [reflexivity|]); (split; [reflexivity|]);
                intros notice Hin; simpl in Hin; intuition discriminate ]
      | solve [ eexists [_; _; _]; (split; [reflexivity|]); (split; [reflexivity|]);
                intros notice Hin; simpl in Hin; intuition discriminate ] ].
Qed.

(** The first wait of a session ends by the timeout. *)
Lemma first_wait_times_out (validate : option validator) (prompt : text)
    (prompt_message : option message) (w : World) (rest : list incoming) :
  inbox w = TimedOut :: rest ->
  faults w (length (calls w)) = None -> faults w (S (length (calls w))) = None ->
  errors_only w ->
  fst (request_user_input user_id prompt validate prompt_message w) = Done None
  /\ inbox (snd (request_user_input user_id prompt validate prompt_message w)) = rest
  /\ In (SendMessage user_id TimeoutNotice RemoveKeyboard)
        (calls (snd (request_user_input user_id prompt validate prompt_message w))).
Proof.
  intros Hi Hf Hf' He.
  destruct (request_user_input_cases prompt validate prompt_message w)
    as [(name & w1 & _ & _ & Hn & _) | (pm & w1 & -> & Hi1 & Hfa & _ & Hc)];
    [congruence|].
  apply (guarded_wait_timeout validate pm w1 rest).
  - congruence.
  - rewrite Hfa. destruct Hc as [[-> _] | (-> & _ & _)]; assumption.
  - intros i name. rewrite Hfa. apply He.
Qed.

(** The first reply of a session is taken for a cancellation. *)
Lemma first_reply_cancels (validate : option validator) (prompt : text)
    (prompt_message : option message) (w : World) (c : option pystr)
    (rest : list incoming) :
  inbox w = Reply c :: rest -> is_cancel c = true ->
  faults w (length (calls w)) = None -> faults w (S (length (calls w))) = None ->
  errors_only w ->
  fst (request_user_input user_id prompt validate prompt_message w) = Done None
  /\ inbox (snd (request_user_input user_id prompt validate prompt_message w)) = rest
  /\ In (SendMessage user_id CancelledNotice RemoveKeyboard)
        (calls (snd (request_user_input user_id prompt validate prompt_message w))).
Proof.
  intros Hi Hcc Hf Hf' He.
  destruct (request_user_input_cases prompt validate prompt_message w)
    as [(name & w1 & _ & _ & Hn & _) | (pm & w1 & -> & Hi1 & Hfa & _ & Hc)];
    [congruence|].
  apply (guarded_wait_cancel validate pm w1 c rest).
  - congruence.
  - exact Hcc.
  - rewrite Hfa. destruct Hc as [[-> _] | (-> & _ & _)]; assumption.
  - intros i name. rewrite Hfa. apply He.
Qed.

(** C3, amended: every wait of [request_user_input] is a [listen] on
    the user's chat with the 60-second timeout.  When a wait ends by the
    timeout, the timeout notice is the next call and the session yields
    [None], on the first wait as after any number of rejected replies.
    An exception of the loop that derives from [Exception] is logged at
    [ERROR] level and turned into [None].  An exception that does not
    derive from [Exception] is not caught: it reaches the caller, after
    the deletion of the prompt message.  Otherwise [request_user_input]
    raises only when the prompt cannot be sent, before the loop is
    entered. *)
Theorem waits_time_out_and_errors_are_caught (validate : option validator)
    (prompt : text) (prompt_message : option message) (w : World) :
  (exists new,
     calls (snd (request_user_input user_id prompt validate prompt_message w))
     = new ++ calls w
     /\ forall timeout chat, In (Listen timeout chat) new ->
          timeout = 60%Z /\ chat = user_id)
  /\ (forall again rest,
        inbox w = TimedOut :: rest -> faults w (length (calls w)) = None ->
        calls (snd (wait_step user_id validate again w))
        = SendMessage user_id TimeoutNotice RemoveKeyboard
            :: Listen 60 user_id :: calls w)
  /\ (forall rest,
        inbox w = TimedOut :: rest ->
        faults w (length (calls w)) = None -> faults w (S (length (calls w))) = None ->
        errors_only w ->
        fst (request_user_input user_id prompt validate prompt_message w) = Done None
        /\ In (SendMessage user_id TimeoutNotice RemoveKeyboard)
              (calls (snd (request_user_input user_id prompt validate prompt_message w))))
  /\ (forall v retries rest,
        validate = Some v ->
        inbox w = map Reply retries ++ TimedOut :: rest ->
        (forall i, faults w i = None) ->
        Forall (fun t => is_cancel t = false /\ exists msg, v t = Ok (false, msg))
          retries ->
        fst (guarded_wait user_id validate prompt_message w) = Done None
        /\ In (SendMessage user_id TimeoutNotice RemoveKeyboard)
              (calls (snd (guarded_wait user_id validate prompt_message w))))
  /\ (forall e w1,
        wait_loop (S (length (inbox w))) user_id validate w = (Raised e, w1) ->
        is_exception e = true -> errors_only w ->
        fst (guarded_wait user_id validate prompt_message w) = Done None
        /\ In (ERROR, "Error in request_user_input"%string)
              (logs (snd (guarded_wait user_id validate prompt_message w))))
  /\ (forall e w1,
        wait_loop (S (length (inbox w))) user_id validate w = (Raised e, w1) ->
        is_exception e = false ->
        (exists e', fst (guarded_wait user_id validate prompt_message w) = Raised e'
                    /\ is_exception e' = false)
        /\ calls (snd (guarded_wait user_id validate prompt_message w))
           = match prompt_message with
             | Some m => DeleteMessage m :: calls w1
             | None => calls w1
             end
        /\ ((forall name, faults w (length (calls w1)) = Some name ->
               is_exception (PyError name) = true) ->
            fst (guarded_wait user_id validate prompt_message w) = Raised e))
  /\ (forall e,
        fst (guarded_wait user_id validate prompt_message w) = Raised e ->
        is_exception e = false /\ arises validate w e)
  /\ (forall e,
        fst (request_user_input user_id prompt validate prompt_message w) = Raised e ->
        arises validate w e
        /\ ((prompt_message = None /\ text_truthy prompt = true
             /\ exists name, faults w (length (calls w)) = Some name /\ e = PyError name)
            \/ is_exception e = false)).
Proof.
  split.
  { destruct (request_user_input_session user_id validate prompt prompt_message w)
      as ((new & E & F) & _).
    exists new. split; [exact E|]. intros timeout chat Hin.
    rewrite List.Forall_forall in F. exact (F _ Hin). }
  split.
  { intros again rest Hi Hf. now apply (wait_step_timeout validate again w rest). }
  split.
  { intros rest Hi Hf Hf' He.
    destruct (first_wait_times_out validate prompt prompt_message w rest Hi Hf Hf' He)
      as (Ho & _ & Hc).
    now split. }
  split.
  { intros v retries rest -> Hi Hf Hr.
    destruct (guarded_wait_retries v prompt_message retries w rest Hi Hf Hr)
      as (Ho & _ & Hc).
    now split. }
  split.
  { intros e w1. apply guarded_wait_catches. }
  split.
  { intros e w1. apply guarded_wait_passes. }
  split.
  { intros e. apply guarded_wait_raises. }
  intros e. apply request_user_input_raises.
Qed.

End Session.

(** C5: in a session without validator, the first reply that the
    cancel test does not take is the result, text unchanged; nothing
    more is taken from the inbox and the session has made a single wait.
    The prompt and the wait work, and no call is cancelled or
    interrupted. *)
Theorem no_validator_returns_first_reply (user_id : Z) (prompt : text)
    (prompt_message : option message) (w : World) (t : option pystr)
    (rest : list incoming) :
  inbox w = Reply t :: rest ->
  ShortenerManager.is_cancel t = false ->
  faults w (length (calls w)) = None -> faults w (S (length (calls w))) = None ->
  errors_only w ->
  fst (ShortenerManager.request_user_input user_id prompt None prompt_message w) = Done t
  /\ inbox (snd (ShortenerManager.request_user_input user_id prompt None prompt_message w))
     = rest
  /\ exists new,
       calls (snd (ShortenerManager.request_user_input user_id prompt None prompt_message w))
       = new ++ calls w
       /\ length (List.filter is_listen new) = 1%nat.
Proof.
  intros Hi Hc Hf Hf' He.
  destruct (first_reply_returned user_id prompt prompt_message w t rest Hi Hc Hf Hf' He)
    as (Ho & Hin & new & E & Hl & _).
  eauto 6.
Qed.

Lemma errors_only_quiet (replies : list incoming) : errors_only (quiet_world replies).
Proof. intros i name [=]. Qed.

Lemma no_validator_returns_first_reply_witness :
  fst (ShortenerManager.request_user_input 7 ApiPrompt None None
         (quiet_world [Reply (Some (py "key-123")); Reply (Some (py "other"))]))
  = Done (Some (py "key-123")).
Proof.
  apply (no_validator_returns_first_reply 7 ApiPrompt None
           (quiet_world [Reply (Some (py "key-123")); Reply (Some (py "other"))])
           (Some (py "key-123")) [Reply (Some (py "other"))]);
    first [reflexivity | apply errors_only_quiet].
Defined.

(** C10: a reply without text is never taken for a cancellation.  In a
    session without validator it is received like any reply (it is
    taken from the inbox by the one wait of the session, and no notice is
    sent) and makes [request_user_input] return [None]: the value the
    session also returns when its wait times out and when the reply is a
    cancellation, so that the result does not tell the three apart. *)
Theorem textless_reply_returns_none (user_id : Z) (prompt : text)
    (prompt_message : option message) (w : World) (rest : list incoming) :
  faults w (length (calls w)) = None -> faults w (S (length (calls w))) = None ->
  errors_only w ->
  ShortenerManager.is_cancel None = false
  /\ (inbox w = Reply None :: rest ->
      fst (ShortenerManager.request_user_input user_id prompt None prompt_message w)
      = Done None
      /\ inbox (snd (ShortenerManager.request_user_input user_id prompt None
                       prompt_message w)) = rest
      /\ exists new,
           calls (snd (ShortenerManager.request_user_input user_id prompt None
                         prompt_message w)) = new ++ calls w
           /\ length (List.filter is_listen new) = 1%nat
           /\ forall notice, ~ In (SendMessage user_id notice RemoveKeyboard) new)
  /\ (inbox w = TimedOut :: rest ->
      fst (ShortenerManager.request_user_input user_id prompt None prompt_message w)
      = Done None
      /\ inbox (snd (ShortenerManager.request_user_input user_id prompt None
                       prompt_message w)) = rest)
  /\ (forall c, ShortenerManager.is_cancel c = true -> inbox w = Reply c :: rest ->
      fst (ShortenerManager.request_user_input user_id prompt None prompt_message w)
      = Done None
      /\ inbox (snd (ShortenerManager.request_user_input user_id prompt None
                       prompt_message w)) = rest).
Proof.
  intros Hf Hf' He. split; [reflexivity|]. split; [|split].
  - intros Hi.
    now apply (first_reply_returned user_id prompt prompt_message w None rest).
  - intros Hi.
    destruct (first_wait_times_out user_id None prompt prompt_message w rest Hi Hf Hf' He)
      as (Ho & Hin & _).
    now split.
  - intros c Hc Hi.
    destruct (first_reply_cancels user_id None prompt prompt_message w c rest
                Hi Hc Hf Hf' He) as (Ho & Hin & _).
    now split.
Qed.

Lemma textless_reply_returns_none_witness :
  (fst (ShortenerManager.request_user_input 7 ApiPrompt None None
          (quiet_world [Reply None])) = Done None
   /\ inbox (snd (ShortenerManager.request_user_input 7 ApiPrompt None None
                    (quiet_world [Reply None]))) = [])
  /\ fst (ShortenerManager.request_user_input 7 ApiPrompt None None
            (quiet_world [TimedOut])) = Done None
  /\ fst (ShortenerManager.request_user_input 7 ApiPrompt None None
            (quiet_world [Reply (Some cancel_button)])) = Done None.
Proof.
  split; [|split].
  - destruct (textless_reply_returns_none 7 ApiPrompt None (quiet_world [Reply None]) []
                eq_refl eq_refl (errors_only_quiet _)) as (_ & H & _).
    destruct (H eq_refl) as (Ho & Hi & _). now split.
  - destruct (textless_reply_returns_none 7 ApiPrompt None (quiet_world [TimedOut]) []
                eq_refl eq_refl (errors_only_quiet _)) as (_ & _ & H & _).
    exact (proj1 (H eq_refl)).
  - destruct (textless_reply_returns_none 7 ApiPrompt None
                (quiet_world [Reply (Some cancel_button)]) []
                eq_refl eq_refl (errors_only_quiet _)) as (_ & _ & _ & H).
    refine (proj1 (H (Some cancel_button) _ eq_refl)). vm_compute. reflexivity.
Defined.



Lemma prompt_deleted_on_every_exit_witness :
  exists earlier,
    calls (snd (ShortenerManager.request_user_input 7 ApiPrompt None None
                  (quiet_world [TimedOut])))
    = DeleteMessage 0 :: earlier.
Proof.
  refine (proj2 (proj2 (prompt_deleted_on_every_exit 7 None ApiPrompt None
                          (quiet_world [TimedOut]) 0%nat _ _))).
  - reflexivity.
  - vm_compute. discriminate.
Defined.

(** C3 as stated fails: when the task is cancelled during the wait, the
    exception is not caught; it reaches the caller, the prompt deleted. *)
Lemma cancelled_wait_reaches_caller :
  is_exception (PyError "CancelledError") = false
  /\ ShortenerManager.request_user_input 7 ApiPrompt None None
       (faulty_world 1 "CancelledError" [Reply (Some (py "key-123"))])
     = (Raised (PyError "CancelledError"),
        {| store := ∅; inbox := [Reply (Some (py "key-123"))];
           faults := fun i => if Nat.eqb i 1 then Some "CancelledError"%string else None;
           admins := fun _ => true;
           calls := [DeleteMessage 0; Listen 60 7; SendMessage 7 ApiPrompt CancelKeyboard];
           logs := [(INFO, "Waiting for response"); (INFO, "Sending prompt message");
                    (INFO, "Requesting user input")]%string |}).
Proof. split; vm_compute; reflexivity. Qed.

Lemma waits_time_out_and_errors_are_caught_witness :
  fst (ShortenerManager.request_user_input 7 ApiPrompt None None (quiet_world [TimedOut]))
  = Done None
  /\ fst (ShortenerManager.guarded_wait 7 None None (faulty_world 0 "RPCError" []))
     = Done None
  /\ fst (ShortenerManager.guarded_wait 7 None None (faulty_world 0 "CancelledError" []))
     = Raised (PyError "CancelledError").
Proof.
  split; [|split].
  - destruct (waits_time_out_and_errors_are_caught 7 None ApiPrompt None
                (quiet_world [TimedOut])) as (_ & _ & H & _).
    apply (H [] eq_refl eq_refl eq_refl). apply errors_only_quiet.
  - destruct (waits_time_out_and_errors_are_caught 7 None ApiPrompt None
                (faulty_world 0 "RPCError" [])) as (_ & _ & _ & _ & H & _).
    eapply (H (PyError "RPCError")).
    + vm_compute. reflexivity.
    + reflexivity.
    + intros i name. unfold faulty_world. simpl.
      destruct (Nat.eqb i 0); [intros [= <-]; reflexivity | discriminate].
  - destruct (waits_time_out_and_errors_are_caught 7 None ApiPrompt None
                (faulty_world 0 "CancelledError" [])) as (_ & _ & _ & _ & _ & H & _).
    edestruct (H (PyError "CancelledError")) as (_ & _ & H').
    + vm_compute. reflexivity.
    + reflexivity.
    + apply H'. intros name Hn. vm_compute in Hn. discriminate Hn.
Defined.

(** ** The handlers: when the store is written *)

Lemma bind_lift_ok {A B} (a : A) (k : A -> M B) : bind (lift (Ok a)) k = k a.
Proof. reflexivity. Qed.

Lemma bind_lift_err {A B} (e : exn) (k : A -> M B) : bind (lift (Err e)) k = raise e.
Proof. reflexivity. Qed.

Lemma session_call_not_set (user_id : Z) (c : call) : session_call user_id c -> not_set c.
Proof. destruct c; simpl; tauto. Qed.

Lemma request_user_input_quiet (user_id : Z) (prompt : text) (validate : option validator)
    (prompt_message : option message) :
  preserves (extends not_set)
    (ShortenerManager.request_user_input user_id prompt validate prompt_message).
Proof.
  intros w. eapply extends_weaken; [apply session_call_not_set|].
  apply request_user_input_session.
Qed.

Lemma load_config_quiet : preserves (extends not_set) ShortenerManager.load_config.
Proof. unfold ShortenerManager.load_config. frame; reflexivity. Qed.

Lemma refresh_settings_quiet (msg : message) :
  preserves (extends not_set) (ShortenerManager.refresh_settings msg).
Proof.
  unfold ShortenerManager.refresh_settings, ShortenerManager.send_settings.
  frame; reflexivity.
Qed.

(** *** Coroutines that leave the inbox alone *)

Lemma same_inbox_refl (w : World) : same_inbox w w.
Proof. reflexivity. Qed.

Lemma same_inbox_trans (a b c : World) : same_inbox a b -> same_inbox b c -> same_inbox a c.
Proof. unfold same_inbox. congruence. Qed.

Section Still.

Local Abbreviation still := (preserves same_inbox).

Lemma still_ret {A} (a : A) : still (ret a).
Proof. apply preserves_ret, same_inbox_refl. Qed.

Lemma still_lift {A} (r : result A) : still (lift r).
Proof. apply preserves_lift, same_inbox_refl. Qed.

Lemma still_log l msg : still (log l msg).
Proof. intros w. reflexivity. Qed.

Lemma still_bind {A B} (m : M A) (k : A -> M B) :
  still m -> (forall a, still (k a)) -> still (bind m k).
Proof. apply preserves_bind, same_inbox_trans. Qed.

Lemma still_try_except {A} (body : M A) (handler : exn -> M A) :
  still body -> (forall e, still (handler e)) -> still (try_except body handler).
Proof. apply preserves_try_except, same_inbox_trans. Qed.

Lemma still_collaborator {A} (c : call) (answer : M A) :
  still answer -> still (collaborator c answer).
Proof. apply preserves_collaborator; [apply same_inbox_trans|]. intros w. reflexivity. Qed.

Lemma still_send_message chat body reply_markup :
  still (client.send_message chat body reply_markup).
Proof.
  intros w. unfold client.send_message.
  apply (still_collaborator _ (ret (length (calls w))) (still_ret _)).
Qed.

Lemma still_delete m : still (message_delete m).
Proof. apply still_collaborator, still_ret. Qed.

Lemma still_edit m body reply_markup : still (message_edit m body reply_markup).
Proof. apply still_collaborator, still_ret. Qed.

Lemma still_reply_photo m caption keyboard : still (message_reply_photo m caption keyboard).
Proof.
  intros w. unfold message_reply_photo.
  apply (still_collaborator _ (ret (length (calls w))) (still_ret _)).
Qed.

Lemma still_answer a : still (query_answer a).
Proof. apply still_collaborator, still_ret. Qed.

Lemma still_is_admin user_id : still (AdminChecker.is_admin user_id).
Proof. apply still_collaborator. intros w. reflexivity. Qed.

Lemma still_get_variable key dflt : still (get_variable key dflt).
Proof.
  apply still_bind; [|intros a; apply still_ret].
  apply still_collaborator. intros w. reflexivity.
Qed.

Lemma still_set_variable key v : still (set_variable key v).
Proof.
  apply still_bind; [|intros a; apply still_ret].
  apply still_collaborator. intros w. reflexivity.
Qed.

End Still.

(** Chaining the rules above over the text of a coroutine. *)
Ltac still :=
  repeat first
    [ apply still_ret | apply still_lift | apply still_log
    | apply still_send_message | apply still_delete
    | apply still_edit | apply still_reply_photo | apply still_answer
    | apply still_is_admin | apply still_get_variable | apply still_set_variable
    | apply still_bind; [|intros ?]
    | apply still_try_except; [|intros ?]
    | match goal with
      | |- preserves _ (match ?x with _ => _ end) => destruct x
      | |- preserves _ (if ?x then _ else _) => destruct x
      | |- preserves _ (let '(_, _) := ?x in _) => destruct x
      end ].

Lemma load_config_still : preserves same_inbox ShortenerManager.load_config.
Proof. unfold ShortenerManager.load_config. still. Qed.

Lemma refresh_settings_still (msg : message) :
  preserves same_inbox (ShortenerManager.refresh_settings msg).
Proof.
  unfold ShortenerManager.refresh_settings, ShortenerManager.send_settings.
  apply still_bind; [still|intros ?].
  apply still_bind; [still|intros ?].
  apply still_bind; [apply load_config_still|intros config]. still.
Qed.

(** *** The replies a session takes *)

Lemma rejected_not_accepted (validate : option validator) (t : option pystr) :
  rejected validate t -> accepted validate t -> False.
Proof.
  destruct validate as [v|]; simpl; [|tauto].
  intros [m1 E1] [m2 E2]. congruence.
Qed.

(** Two readings of an inbox: what stands where the input [t] stands
    is [t] itself or a reply after which the session asks again. *)
Lemma answer_position (validate : option validator) (t : option pystr)
    (rest1 rest2 : list incoming) (x : incoming) (r1 : list (option pystr)) :
  forall r2 : list (option pystr),
  Forall (asked_again validate) r1 -> Forall (asked_again validate) r2 ->
  accepted validate t ->
  map Reply r1 ++ Reply t :: rest1 = map Reply r2 ++ x :: rest2 ->
  x = Reply t \/ exists a, x = Reply a /\ asked_again validate a.
Proof.
  induction r1 as [|a r1 IH]; intros [|b r2] H1 H2 Ha E; simpl in E.
  - left. congruence.
  - exfalso. injection E as <- _. inversion H2 as [|? ? [_ Hr] _]; subst.
    exact (rejected_not_accepted _ _ Hr Ha).
  - right. exists a. inversion H1; subst. split; [congruence | assumption].
  - injection E as <- E. inversion H1; subst. inversion H2; subst. now apply (IH r2).
Qed.

(** An inbox that gives no input does not give one. *)
Lemma unanswered_no_input (validate : option validator) (inb : list incoming)
    (t : option pystr) (rest : list incoming) :
  unanswered validate inb -> ~ answers validate inb t rest.
Proof.
  intros Hu (r1 & E1 & H1 & Hc & Ha).
  destruct Hu as [(r2 & rest2 & H2 & Hs) | Hall];
    [|exact (rejected_not_accepted _ _ (Hall t) Ha)].
  destruct Hs as [E2 | (c & Hcc & E2)]; rewrite E1 in E2;
    destruct (answer_position validate t rest rest2 _ r1 r2 H1 H2 Ha E2)
      as [Hx | (a & Hx & Hca & _)]; try discriminate.
  - injection Hx as ->. congruence.
  - injection Hx as ->. congruence.
Qed.

(** A text returned by the loop is the input the inbox gives. *)
Lemma wait_loop_answers (user_id : Z) (validate : option validator) (n : nat) :
  forall (w : World) (t : pystr),
  fst (ShortenerManager.wait_loop n user_id validate w) = Done (Some t) ->
  answers validate (inbox w) (Some t)
    (inbox (snd (ShortenerManager.wait_loop n user_id validate w))).
Proof.
  induction n as [|n IH]; intros w t; [discriminate|].
  simpl. unfold ShortenerManager.wait_step, bind, except_timeout, log, client.listen,
    client.send_message, collaborator, lift, ret, raise.
  simpl.
  destruct (faults w (length (calls w))); simpl; [discriminate|].
  destruct (inbox w) as [|[r|] rest] eqn:Ei; simpl; [discriminate| |].
  2: { destruct (faults w (S (length (calls w)))); simpl; discriminate. }
  destruct (ShortenerManager.is_cancel r) eqn:Ec; simpl.
  { destruct (faults w (S (length (calls w)))); simpl; discriminate. }
  destruct validate as [v|]; simpl.
  - destruct (v r) as [[[|] msg]|e] eqn:Ev; simpl.
    + intros [= ->]. exists []. simpl. split; [reflexivity|].
      split; [apply List.Forall_nil|]. split; [exact Ec|]. now exists msg.
    + destruct (faults w (S (length (calls w)))) eqn:Ef'; simpl; [discriminate|].
      intros Hr. apply IH in Hr. simpl in Hr.
      destruct Hr as (retries & E & Hrs & Hc & Ha).
      exists (r :: retries). split; [simpl; f_equal; exact E|].
      split; [|split; assumption].
      apply List.Forall_cons; [|exact Hrs]. split; [exact Ec|]. now exists msg.
    + discriminate.
  - intros [= ->]. exists []. simpl. split; [reflexivity|].
    split; [apply List.Forall_nil|]. split; [exact Ec | exact I].
Qed.

(** A text returned by a session is the input its inbox gives, and the
    session has taken the replies up to it. *)
Lemma session_answers (user_id : Z) (prompt : text) (validate : option validator)
    (prompt_message : option message) (w : World) (t : pystr) :
  fst (ShortenerManager.request_user_input user_id prompt validate prompt_message w)
  = Done (Some t) ->
  answers validate (inbox w) (Some t)
    (inbox (snd (ShortenerManager.request_user_input user_id prompt validate
                   prompt_message w))).
Proof.
  destruct (request_user_input_cases user_id prompt validate prompt_message w)
    as [(name & w1 & _ & _ & _ & ->) | (pm & w1 & -> & Hi1 & _)]; [discriminate|].
  intros H. rewrite <- Hi1.
  pose proof (guarded_wait_done user_id validate pm w1 _ H) as Hb.
  pose proof (wait_loop_answers user_id validate (S (length (inbox w1))) w1 t) as Ha.
  destruct (ShortenerManager.wait_loop (S (length (inbox w1))) user_id validate w1)
    as [o wl] eqn:E.
  assert (Ho : o = Done (Some t)).
  { unfold try_except in Hb. rewrite E in Hb.
    destruct o as [a|e|]; [exact Hb | | discriminate].
    destruct (is_exception e); discriminate. }
  subst o.
  destruct (guarded_wait_ends user_id validate pm w1 wl _ E ltac:(discriminate))
    as (o2 & w2 & -> & _ & Ei & _).
  simpl. rewrite Ei. now apply Ha.
Qed.

Section Gated.

Variable F : option validator -> M (option pystr) -> Prop.

(** A coroutine that makes no set call. *)
Lemma gated_framed {A} (m : M A) :
  preserves (extends not_set) m -> input_gated F m.
Proof. intros H w. left. apply H. Qed.

Lemma gated_bind {A B} (m : M A) (k : A -> M B) :
  preserves (extends not_set) m -> preserves same_inbox m ->
  (forall a, input_gated F (k a)) ->
  input_gated F (bind m k).
Proof.
  intros Hm Hs Hk w. specialize (Hm w). specialize (Hs w).
  destruct (m w) as [[a|e|] wa] eqn:Em; simpl in Hm, Hs.
  - assert (Hrun : bind m k w = k a wa) by (unfold bind; now rewrite Em).
    rewrite Hrun. unfold same_inbox in Hs.
    destruct (Hk a wa)
      as [H | (validate & session & t & rest & w1 & HF & Ht & Ha & Hi & He & Hi1 & Hr)].
    + left. eapply extends_trans; eauto.
    + right. exists validate, session, t, rest, w1. rewrite <- Hs.
      split; [exact HF|]. split; [exact Ht|]. split; [exact Ha|]. split; [exact Hi|].
      split; [eapply extends_trans; eauto|]. split; [exact Hi1 | exact Hr].
  - left. unfold bind. now rewrite Em.
  - left. unfold bind. now rewrite Em.
Qed.

(** The input session of a handler, followed by a rest that makes no
    set call unless it is given a non-empty text, and that takes
    nothing from the inbox. *)
Lemma gated_session {B} (user_id : Z) (prompt : text) (validate : option validator)
    (prompt_message : option message) (rest : option pystr -> M B) :
  F validate
    (ShortenerManager.request_user_input user_id prompt validate prompt_message) ->
  (forall a, str_truthy a = false -> preserves (extends not_set) (rest a)) ->
  (forall a, preserves same_inbox (rest a)) ->
  input_gated F
    (bind (ShortenerManager.request_user_input user_id prompt validate prompt_message)
       rest).
Proof.
  intros HF Hk Hs w.
  pose proof (request_user_input_quiet user_id prompt validate prompt_message w) as Hq.
  pose proof (session_answers user_id prompt validate prompt_message w) as Ha.
  unfold bind.
  destruct (ShortenerManager.request_user_input user_id prompt validate prompt_message w)
    as [o wa] eqn:E.
  simpl in Hq, Ha.
  destruct o as [[[|c r]|]|e|]; try (left; exact Hq).
  - left. eapply extends_trans; [exact Hq|]. now apply Hk.
  - right.
    exists validate,
      (ShortenerManager.request_user_input user_id prompt validate prompt_message),
      (c :: r), (inbox wa), w.
    split; [exact HF|]. split; [discriminate|]. split; [now apply Ha|].
    split; [apply (Hs (Some (c :: r)) wa)|].
    split; [apply extends_refl|]. split; [reflexivity|]. now rewrite E.
  - left. eapply extends_trans; [exact Hq|]. now apply Hk.
Qed.

End Gated.

Section HandlerWrites.

Variable urlparse : pystr -> result ParseResult.

Lemma short2_gated (q : CallbackQuery) :
  input_gated (short2_flow urlparse q) (short2 urlparse q).
Proof.
  unfold short2.
  apply gated_bind; [frame|still|intros _].
  apply gated_bind; [frame; reflexivity|still|intros admin].
  destruct (negb admin); [apply gated_framed; frame; reflexivity|].
  destruct (item (split 0x5F (data q)) 1) as [action|e] eqn:E;
    [|rewrite bind_lift_err; apply gated_framed, preserves_raise, extends_refl].
  rewrite bind_lift_ok.
  destruct (str_eqb action (py "web")) eqn:Ew;
    [|destruct (str_eqb action (py "api")) eqn:Ea].
  - apply bool_decide_eq_true in Ew. subst action.
    apply gated_bind; [frame|still|intros _].
    apply gated_session.
    + left. now repeat split.
    + intros a Ha. rewrite Ha. frame.
    + intros a. destruct (str_truthy a); [|still].
      apply still_bind; [still|intros ?].
      apply still_bind; [still|intros ?].
      apply still_bind; [still|intros ?]. apply refresh_settings_still.
  - apply bool_decide_eq_true in Ea. subst action.
    apply gated_bind; [frame|still|intros _].
    apply gated_session.
    + right. now repeat split.
    + intros a Ha. rewrite Ha. frame.
    + intros a. destruct (str_truthy a); [|still].
      apply still_bind; [still|intros ?].
      apply still_bind; [still|intros ?].
      apply still_bind; [still|intros ?]. apply refresh_settings_still.
  - apply gated_framed. frame.
Qed.

Lemma short4_gated (q : CallbackQuery) :
  (forall action, item (split 0x5F (data q)) 1 = Ok action -> action <> py "link") ->
  input_gated (short4_flow q) (short4 q).
Proof.
  intros Hq. unfold short4.
  apply gated_bind; [frame|still|intros _].
  apply gated_bind; [frame; reflexivity|still|intros admin].
  destruct (negb admin); [apply gated_framed; frame; reflexivity|].
  destruct (item (split 0x5F (data q)) 1) as [action|e] eqn:E;
    [|rewrite bind_lift_err; apply gated_framed, preserves_raise, extends_refl].
  rewrite bind_lift_ok.
  apply gated_bind; [apply load_config_quiet|apply load_config_still|intros config].
  destruct (str_eqb action (py "link")) eqn:El.
  { apply bool_decide_eq_true in El. now destruct (Hq action eq_refl). }
  destruct (str_eqb action (py "24")); [|apply gated_framed; frame].
  apply gated_bind; [frame|still|intros _].
  apply gated_bind; [frame; reflexivity|still|intros edited_msg].
  apply gated_session.
  - split; [reflexivity|]. now exists edited_msg.
  - intros a Ha. rewrite Ha.
    apply framed_bind; [frame|intros _]. apply refresh_settings_quiet.
  - intros a. destruct (str_truthy a).
    + apply still_bind; [still|intros ?].
      apply still_bind; [still|intros ?].
      apply still_bind; [still|intros ?].
      apply still_bind; [still|intros ?].
      apply still_bind; [still|intros ?].
      apply still_bind; [still|intros ?].
      apply still_bind; [still|intros ?].
      apply still_bind; [still|intros ?]. apply refresh_settings_still.
    + apply still_bind; [still|intros ?]. apply refresh_settings_still.
Qed.

(** C1: the handlers write the store only after their input session
    has returned a non-empty text.  If a run of [short2], or of [short4]
    on an action other than "link", makes a set call or changes the
    store, then the inbox it started with gave the session of the flow a
    non-empty input [t] (replies after which the session asks again,
    then the reply [t], not a cancellation and accepted by the
    validator); the run has taken the replies up to that input; and it
    has reached, without a set call and with the inbox untouched, a
    world in which that session returns [t].  So when the inbox gives no
    input (the wait times out, the reply is a cancellation, or the
    validator turns every text down) the run makes no set call and
    leaves the store as it was.  A session itself never writes, and the
    text it returns is the input its inbox gives. *)
Theorem store_written_only_after_input (q : CallbackQuery) (w : World) :
  (wrote w (snd (short2 urlparse q w)) ->
     exists validate session t rest w1,
       short2_flow urlparse q validate session /\ t <> []
       /\ answers validate (inbox w) (Some t) rest
       /\ inbox (snd (short2 urlparse q w)) = rest
       /\ extends not_set w w1 /\ inbox w1 = inbox w
       /\ fst (session w1) = Done (Some t))
  /\ ((forall validate session,
         short2_flow urlparse q validate session -> unanswered validate (inbox w)) ->
      ~ wrote w (snd (short2 urlparse q w)))
  /\ ((forall action, item (split 0x5F (data q)) 1 = Ok action -> action <> py "link") ->
      (wrote w (snd (short4 q w)) ->
         exists validate session t rest w1,
           short4_flow q validate session /\ t <> []
           /\ answers validate (inbox w) (Some t) rest
           /\ inbox (snd (short4 q w)) = rest
           /\ extends not_set w w1 /\ inbox w1 = inbox w
           /\ fst (session w1) = Done (Some t))
      /\ (unanswered (Some validate_time) (inbox w) -> ~ wrote w (snd (short4 q w))))
  /\ (forall user_id prompt validate prompt_message,
        ~ wrote w (snd (ShortenerManager.request_user_input user_id prompt validate
                          prompt_message w))
        /\ forall t,
             fst (ShortenerManager.request_user_input user_id prompt validate
                    prompt_message w) = Done (Some t) ->
             answers validate (inbox w) (Some t)
               (inbox (snd (ShortenerManager.request_user_input user_id prompt validate
                              prompt_message w)))).
Proof.
  assert (H2 : wrote w (snd (short2 urlparse q w)) ->
               exists validate session t rest w1,
                 short2_flow urlparse q validate session /\ t <> []
                 /\ answers validate (inbox w) (Some t) rest
                 /\ inbox (snd (short2 urlparse q w)) = rest
                 /\ extends not_set w w1 /\ inbox w1 = inbox w
                 /\ fst (session w1) = Done (Some t)).
  { intros Hw. destruct (short2_gated q w) as [H | H]; [|exact H].
    now apply extends_not_wrote in H. }
  assert (H4 : (forall action, item (split 0x5F (data q)) 1 = Ok action ->
                  action <> py "link") ->
               wrote w (snd (short4 q w)) ->
               exists validate session t rest w1,
                 short4_flow q validate session /\ t <> []
                 /\ answers validate (inbox w) (Some t) rest
                 /\ inbox (snd (short4 q w)) = rest
                 /\ extends not_set w w1 /\ inbox w1 = inbox w
                 /\ fst (session w1) = Done (Some t)).
  { intros Hq Hw. destruct (short4_gated q Hq w) as [H | H]; [|exact H].
    now apply extends_not_wrote in H. }
  split; [exact H2|]. split; [|split].
  - intros Hu Hw.
    destruct (H2 Hw) as (validate & session & t & rest & w1 & HF & _ & Ha & _).
    exact (unanswered_no_input _ _ _ _ (Hu validate session HF) Ha).
  - intros Hq. split; [exact (H4 Hq)|].
    intros Hu Hw.
    destruct (H4 Hq Hw) as (validate & session & t & rest & w1 & [-> _] & _ & Ha & _).
    exact (unanswered_no_input _ _ _ _ Hu Ha).
  - intros user_id prompt validate prompt_message. split.
    + apply extends_not_wrote, request_user_input_quiet.
    + intros t. apply session_answers.
Qed.

End HandlerWrites.

Example api_key_stored :
  store (snd (short2 plain_urlparse
                {| from_user := 7; data := py "short_api"; query_message := 100 |}
                (quiet_world [Reply (Some (py "key-123"))])))
    !! "api"%string
  = Some (VStr (py "key-123")).
Proof. vm_compute. reflexivity. Qed.

Example timed_out_session_stores_nothing :
  store (snd (short4 {| from_user := 7; data := py "mode_24"; query_message := 100 |}
                (quiet_world [Reply (Some (py "soon")); TimedOut])))
  = ∅.
Proof. vm_compute. reflexivity. Qed.

Lemma store_written_only_after_input_witness :
  (exists validate session t rest w1,
     short2_flow plain_urlparse
       {| from_user := 7; data := py "short_api"; query_message := 100 |} validate session
     /\ t <> []
     /\ answers validate (inbox (quiet_world [Reply (Some (py "key-123"))])) (Some t) rest
     /\ inbox (snd (short2 plain_urlparse
                      {| from_user := 7; data := py "short_api"; query_message := 100 |}
                      (quiet_world [Reply (Some (py "key-123"))]))) = rest
     /\ extends not_set (quiet_world [Reply (Some (py "key-123"))]) w1
     /\ inbox w1 = inbox (quiet_world [Reply (Some (py "key-123"))])
     /\ fst (session w1) = Done (Some t))
  /\ ~ wrote (quiet_world [Reply (Some cancel_button); Reply (Some (py "key-123"))])
         (snd (short2 plain_urlparse
                 {| from_user := 7; data := py "short_api"; query_message := 100 |}
                 (quiet_world [Reply (Some cancel_button); Reply (Some (py "key-123"))]))).
Proof.
  split.
  - apply (proj1 (store_written_only_after_input plain_urlparse
                    {| from_user := 7; data := py "short_api"; query_message := 100 |}
                    (quiet_world [Reply (Some (py "key-123"))]))).
    left. intros H. apply (f_equal (fun m => m !! "api"%string)) in H.
    vm_compute in H. discriminate H.
  - apply (proj1 (proj2 (store_written_only_after_input plain_urlparse
                           {| from_user := 7; data := py "short_api"; query_message := 100 |}
                           (quiet_world [Reply (Some cancel_button);
                                         Reply (Some (py "key-123"))])))).
    intros validate session [(H & _) | (_ & -> & _)]; [vm_compute in H; discriminate H|].
    left. exists [], [Reply (Some (py "key-123"))].
    split; [apply List.Forall_nil|]. right. exists (Some cancel_button).
    split; [vm_compute; reflexivity | reflexivity].
Defined.

(** * Further properties *)

(** ** Numbers and text *)

Lemma uint_digits (d : Decimal.uint) :
  Forall (fun c => ascii_digit c = true) (py (NilEmpty.string_of_uint d)).
Proof. induction d; simpl; constructor; auto. Qed.

Lemma fold_uint_pos (d : Decimal.uint) (p : positive) :
  fold_left (fun acc c => 10 * acc + digit c) (py (NilEmpty.string_of_uint d)) (Npos p)
  = Npos (Pos.of_uint_acc d p).
Proof.
  revert p. induction d; intros p; [reflexivity|..];
    cbn [NilEmpty.string_of_uint py list_ascii_of_string map fold_left Pos.of_uint_acc];
    match goal with |- context [digit ?c] =>
      let v := eval vm_compute in (digit c) in change (digit c) with v end;
    match goal with |- fold_left _ _ ?a = _ =>
      match goal with |- _ = N.pos (Pos.of_uint_acc _ ?q) =>
        replace a with (N.pos q) by lia end end;
    apply IHd.
Qed.

Lemma fold_uint (d : Decimal.uint) :
  fold_left (fun acc c => 10 * acc + digit c) (py (NilEmpty.string_of_uint d)) 0
  = Pos.of_uint d.
Proof.
  induction d; [reflexivity|..];
    cbn [NilEmpty.string_of_uint py list_ascii_of_string map fold_left Pos.of_uint];
    match goal with |- context [digit ?c] =>
      let v := eval vm_compute in (digit c) in change (digit c) with v end;
    first [ exact IHd | apply fold_uint_pos ].
Qed.

Lemma ascii_digit_bounds (c : N) : ascii_digit c = true -> 0x30 <= c <= 0x39.
Proof. unfold ascii_digit. rewrite andb_true_iff, !N.leb_le. tauto. Qed.

Lemma to_ascii_decimal_low (c : N) : c < 127 -> to_ascii_decimal c = c.
Proof. intros H. unfold to_ascii_decimal. apply N.ltb_lt in H. now rewrite H. Qed.

Lemma digits_to_ascii (l : pystr) : digits l -> map to_ascii_decimal l = l.
Proof.
  induction 1 as [|c l Hc _ IH]; simpl; [reflexivity|].
  apply ascii_digit_bounds in Hc. rewrite to_ascii_decimal_low by lia. now rewrite IH.
Qed.

Lemma digit_not_space (c : N) : ascii_digit c = true -> ascii_space c = false.
Proof.
  intros H. apply ascii_digit_bounds in H. unfold ascii_space.
  apply orb_false_intro; [apply andb_false_intro2|]; [apply N.leb_gt | apply N.eqb_neq]; lia.
Qed.

Lemma strip_where_ends (p : N -> bool) (l : pystr) (a z : N) :
  p a = false -> p z = false ->
  rstrip_where p (lstrip_where p (a :: l ++ [z])) = a :: l ++ [z].
Proof.
  intros Ha Hz. unfold lstrip_where. rewrite dropwhile_id by exact Ha.
  change (a :: l ++ [z]) with ((a :: l) ++ [z]). now apply rstrip_where_id.
Qed.

Lemma digit_groups_digits (l : pystr) (b : bool) :
  digits l -> digit_groups b l = match l with [] => b | _ => true end.
Proof.
  intros H. revert b. induction H as [|c l Hc _ IH]; intros b; [reflexivity|].
  simpl. rewrite Hc, IH. now destruct l.
Qed.

Lemma digits_no_underscore (l : pystr) :
  digits l -> filter (fun c => negb (c =? 0x5F)) l = l.
Proof.
  induction 1 as [|c l Hc _ IH]; [reflexivity|].
  rewrite filter_cons_True, IH; [reflexivity|].
  apply ascii_digit_bounds in Hc. apply Is_true_true, negb_true_iff, N.eqb_neq. lia.
Qed.

Lemma strip_digits (l : pystr) (a : N) :
  ascii_space a = false -> digits l -> l <> [] ->
  rstrip_where ascii_space (lstrip_where ascii_space (a :: l)) = a :: l.
Proof.
  intros Ha Hl Hne.
  destruct (exists_last Hne) as (l' & z & ->).
  apply strip_where_ends; [exact Ha|].
  apply Forall_app in Hl as [_ Hz]. inversion Hz; subst. now apply digit_not_space.
Qed.

Lemma int_of_str_signed (l : pystr) :
  digits l -> l <> [] -> int_of_str (0x2D :: l) = Some (- int_of_digits l)%Z.
Proof.
  intros Hl Hne. unfold int_of_str.
  cbn [map]. rewrite digits_to_ascii by exact Hl.
  rewrite to_ascii_decimal_low by reflexivity.
  rewrite strip_digits; auto.
  rewrite digit_groups_digits by exact Hl. destruct l; [now destruct Hne|].
  now rewrite digits_no_underscore.
Qed.

Lemma int_of_str_unsigned (l : pystr) :
  digits l -> l <> [] -> int_of_str l = Some (int_of_digits l).
Proof.
  intros Hl Hne. unfold int_of_str. rewrite digits_to_ascii by exact Hl.
  destruct l as [|c l]; [now destruct Hne|].
  inversion Hl as [|? ? Hc Hl']; subst.
  assert (Hs : rstrip_where ascii_space (lstrip_where ascii_space (c :: l)) = c :: l).
  { destruct l as [|c' l].
    - unfold lstrip_where. rewrite dropwhile_id by now apply digit_not_space.
      apply (rstrip_where_id _ []). now apply digit_not_space.
    - apply strip_digits; [now apply digit_not_space | exact Hl' | discriminate]. }
  rewrite Hs.
  assert (Hm : match c :: l with
               | 0x2D :: r => (true, r)
               | 0x2B :: r => (false, r)
               | _ => (false, c :: l)
               end = (false, c :: l)).
  { destruct (ascii_digit_cases c Hc) as [-> | H1]; [reflexivity|].
    repeat (destruct H1 as [-> | H1]; [reflexivity|]). now subst. }
  rewrite Hm. rewrite digit_groups_digits by exact Hl.
  now rewrite digits_no_underscore.
Qed.

Lemma int_str (n : Z) : py_int (VStr (str_of_int n)) = Ok n.
Proof.
  unfold py_int, str_of_int.
  assert (Hp : forall p, NilZero.string_of_uint (Pos.to_uint p)
                         = NilEmpty.string_of_uint (Pos.to_uint p)).
  { intros p. pose proof (Unsigned.to_uint_nonnil p). now destruct (Pos.to_uint p). }
  assert (Hne : forall p, py (NilEmpty.string_of_uint (Pos.to_uint p)) <> []).
  { intros p. pose proof (Unsigned.to_uint_nonnil p). now destruct (Pos.to_uint p). }
  assert (Hv : forall p, int_of_digits (py (NilEmpty.string_of_uint (Pos.to_uint p)))
                         = Z.pos p).
  { intros p. unfold int_of_digits. now rewrite fold_uint, Unsigned.of_to. }
  destruct n as [|p|p]; cbn [Z.to_int NilZero.string_of_int].
  - reflexivity.
  - rewrite Hp, int_of_str_unsigned; [now rewrite Hv | apply uint_digits | apply Hne].
  - rewrite Hp.
    change (py (String "-" ?s)) with (0x2D :: py s).
    rewrite int_of_str_signed; [now rewrite Hv | apply uint_digits | apply Hne].
Qed.

Lemma parsed_seconds (t : pystr) (n : Z) :
  TimeFormatter.parse_time_string t = Some n ->
  (0 <= n)%Z /\ py_int (VStr (str_of_seconds (Some n))) = Ok n.
Proof.
  unfold TimeFormatter.parse_time_string.
  destruct (TimeFormatter.time_pattern (strip (lower t))) as [[ds u]|]; [|discriminate].
  intros [= <-]. split; [|apply int_str].
  apply Z.mul_nonneg_nonneg.
  - unfold int_of_digits. apply N2Z.is_nonneg.
  - unfold TimeFormatter.conversions. repeat case_match; lia.
Qed.

(** X1: whatever [parse_time_string] returns is a non-negative number of
    seconds, and the text [short4] stores for it, [str(seconds)], is read
    back as the same number by the [int(...)] of [load_config]. *)
Theorem parsed_seconds_storable (t : pystr) (n : Z) :
  TimeFormatter.parse_time_string t = Some n ->
  (0 <= n)%Z /\ py_int (VStr (str_of_seconds (Some n))) = Ok n.
Proof. apply parsed_seconds. Qed.

Lemma parsed_seconds_storable_witness :
  py_int (VStr (str_of_seconds (Some 5400%Z))) = Ok 5400%Z.
Proof.
  apply (parsed_seconds_storable (py "90m") 5400%Z). reflexivity.
Defined.

(** X2: the caption and the keyboard are drawn from the same status: the
    24h button is checked exactly when the caption shows the 24h mode,
    the per-link button exactly when it shows the per-link mode, never
    both; the caption shows the shortener off exactly when [short_enabled]
    is falsy, and a mode exactly when it is truthy and [mode] is ["24"]
    or ["link"]. *)
Theorem mode_marks_agree (config : ShortenerConfig) :
  let caption := ShortenerUI.generate_caption config in
  let keyboard := ShortenerUI.generate_keyboard config in
  (check_24 keyboard = true <-> cap_mode caption = Mode24h)
  /\ (check_link keyboard = true <-> cap_mode caption = ModePerLink)
  /\ (check_24 keyboard && check_link keyboard = false)
  /\ (cap_mode caption = ModeOff <-> truthy (short_enabled config) = false)
  /\ (cap_mode caption = Mode24h <->
        truthy (short_enabled config) = true /\ mode config = VStr (py "24"))
  /\ (cap_mode caption = ModePerLink <->
        truthy (short_enabled config) = true /\ mode config = VStr (py "link")).
Proof.
  unfold ShortenerUI.generate_caption, ShortenerUI.generate_keyboard,
    ShortenerUI.get_mode_status.
  destruct (truthy (short_enabled config)); simpl.
  - destruct (bool_decide (mode config = VStr (py "24"))) eqn:E24;
      [|destruct (bool_decide (mode config = VStr (py "link"))) eqn:El]; simpl.
    + apply bool_decide_eq_true in E24. rewrite E24.
      repeat split; auto; try discriminate; intros [_ [=]].
    + apply bool_decide_eq_true in El. apply bool_decide_eq_false in E24.
      rewrite El. repeat split; auto; try discriminate; intros [_ [=]].
    + apply bool_decide_eq_false in E24, El.
      repeat split; auto; try discriminate; intros [_ H]; contradiction.
  - repeat split; auto; try discriminate; intros [[=] _].
Qed.

Lemma part_nonempty (n : Z) (unit : string) : TimeFormatter.part n unit <> [].
Proof.
  unfold TimeFormatter.part. intros H.
  apply app_eq_nil in H as [_ H]. discriminate H.
Qed.

Lemma join_nonempty (sep p : pystr) (ps : list pystr) : p <> [] -> join sep (p :: ps) <> [].
Proof.
  intros Hp. destruct ps; simpl; [exact Hp|].
  intros H. apply app_eq_nil in H as [H _]. contradiction.
Qed.

(** X3: [format_seconds] never returns the empty string, whatever the
    number, negative ones included. *)
Theorem format_seconds_never_empty (n : Z) : TimeFormatter.format_seconds n <> [].
Proof.
  unfold TimeFormatter.format_seconds.
  destruct (n =? 0)%Z eqn:E0; [discriminate|].
  apply Z.eqb_neq in E0.
  destruct (n / 3600 =? 0)%Z eqn:Eh; simpl negb.
  - destruct (n mod 3600 / 60 =? 0)%Z eqn:Em; simpl negb.
    + destruct (n mod 60 =? 0)%Z eqn:Es; simpl.
      * exfalso. apply Z.eqb_eq in Eh, Em, Es. apply E0.
        clear E0. Z.div_mod_to_equations. lia.
      * apply part_nonempty.
    + cbn [app]. destruct (negb (n mod 60 =? 0)%Z && true);
        apply join_nonempty, part_nonempty.
  - cbn [app]. destruct (negb (n mod 3600 / 60 =? 0)%Z); cbn [app];
      rewrite andb_false_r; apply join_nonempty, part_nonempty.
Qed.

(** ** What a session returns *)

Section SessionResults.

Import ShortenerManager.

Variable user_id : Z.

Lemma wait_loop_returns (validate : option validator) (n : nat) (w : World)
    (t : option pystr) :
  fst (wait_loop n user_id validate w) = Done t -> t <> None ->
  In (Reply t) (inbox w) /\ is_cancel t = false /\ accepted validate t.
Proof.
  revert w. induction n as [|n IH]; intros w; [discriminate|].
  simpl. unfold wait_step, bind, except_timeout, log, client.listen, client.send_message,
    collaborator, lift, ret, raise.
  simpl. intros H Ht. revert H.
  repeat (case_match; simplify_eq; simpl in *; try discriminate);
    try (intros [= <-]; try congruence; repeat split; eauto; fail).
  intros Hr. apply IH in Hr; [|exact Ht]. destruct Hr as (Hin & Hc & Ha).
  repeat split; auto.
Qed.

Lemma guarded_wait_returns (validate : option validator) (pm : option message)
    (w : World) (t : option pystr) :
  fst (guarded_wait user_id validate pm w) = Done t -> t <> None ->
  fst (wait_loop (S (length (inbox w))) user_id validate w) = Done t.
Proof.
  intros H Ht. apply guarded_wait_done in H. revert H. unfold try_except.
  destruct (wait_loop _ _ _ w) as [[a|e|] w1]; simpl; auto; try discriminate.
  destruct (is_exception e); [|discriminate].
  intros [= <-]. now destruct Ht.
Qed.

Lemma session_returns (prompt : text) (validate : option validator)
    (prompt_message : option message) (w : World) (t : pystr) :
  fst (request_user_input user_id prompt validate prompt_message w) = Done (Some t) ->
  In (Reply (Some t)) (inbox w)
  /\ match validate with
     | Some v => exists msg, v (Some t) = Ok (true, msg)
     | None => True
     end.
Proof.
  intros H.
  destruct (request_user_input_cases user_id prompt validate prompt_message w)
    as [(name & w1 & _ & _ & _ & E) | (pm & w1 & E & Hi & _)]; rewrite E in H;
    [discriminate|].
  apply guarded_wait_returns in H; [|discriminate].
  apply wait_loop_returns in H; [|discriminate].
  rewrite Hi in H. destruct H as (Hin & _ & Ha). split; [exact Hin | exact Ha].
Qed.

(** A reply that is accepted ends the iteration with its text. *)
Lemma wait_step_accept (validate : option validator) (again : M (option pystr))
    (w : World) (t : option pystr) (rest : list incoming) :
  inbox w = Reply t :: rest -> faults w (length (calls w)) = None ->
  is_cancel t = false -> accepted validate t ->
  exists w', wait_step user_id validate again w = (Done t, w')
    /\ inbox w' = rest /\ calls w' = Listen TIMEOUT user_id :: calls w.
Proof.
  intros Hi Hf Hc Ha.
  unfold wait_step, bind, except_timeout, log, client.listen, collaborator, lift, ret.
  simpl. rewrite Hf. simpl. rewrite Hi. simpl. rewrite Hc.
  destruct validate as [v|]; simpl in *.
  - destruct Ha as [msg ->]. simpl. eauto.
  - eauto.
Qed.

Lemma wait_loop_accepts (v : validator) (retries : list (option pystr)) :
  forall (n : nat) (w : World) (good : option pystr) (rest : list incoming),
  (length retries < n)%nat ->
  inbox w = map Reply retries ++ Reply good :: rest ->
  (forall i, faults w i = None) ->
  Forall (fun t => is_cancel t = false /\ exists msg, v t = Ok (false, msg)) retries ->
  is_cancel good = false -> (exists msg, v good = Ok (true, msg)) ->
  fst (wait_loop n user_id (Some v) w) = Done good
  /\ inbox (snd (wait_loop n user_id (Some v) w)) = rest
  /\ exists new,
       calls (snd (wait_loop n user_id (Some v) w)) = new ++ calls w
       /\ length (List.filter is_listen new) = S (length retries)
       /\ forall t msg, In t retries -> v t = Ok (false, msg) ->
            In (SendMessage user_id msg CancelKeyboard) new.
Proof.
  induction retries as [|t retries IH]; intros n w good rest Hn Hi Hf Hr Hc Ha;
    (destruct n as [|n]; [simpl in Hn; lia|]); simpl wait_loop.
  - destruct (wait_step_accept (Some v) (wait_loop n user_id (Some v)) w good rest
                Hi (Hf _) Hc Ha) as (w' & -> & Hin & Hcalls).
    simpl. repeat split; auto. exists [Listen TIMEOUT user_id].
    split; [exact Hcalls|]. split; [reflexivity|]. intros ? ? [].
  - inversion Hr as [|? ? (Hct & msg & Hv) Hr']; subst.
    rewrite (wait_step_retry user_id v _ w t _ msg Hi (Hf _) (Hf _) Hct Hv).
    match goal with
    | |- context [wait_loop n _ _ ?w2] =>
        destruct (IH n w2 good rest) as (Ho & Hin & new & Hcalls & Hl & Hs); auto
    end; [simpl in Hn; lia|].
    split; [exact Ho|]. split; [exact Hin|].
    exists (new ++ [SendMessage user_id msg CancelKeyboard; Listen TIMEOUT user_id]).
    split; [|split].
    + rewrite Hcalls. simpl. now rewrite <- app_assoc.
    + rewrite List.filter_app, length_app, Hl. simpl. lia.
    + intros t' msg' [<- | Hin'] Hv'; apply in_or_app.
      * right. left. congruence.
      * left. now apply (Hs t').
Qed.

Lemma session_accepts (prompt : text) (v : validator)
    (prompt_message : option message) (w : World)
    (retries : list (option pystr)) (good : option pystr) (rest : list incoming) :
  inbox w = map Reply retries ++ Reply good :: rest ->
  (forall i, faults w i = None) ->
  Forall (fun t => is_cancel t = false /\ exists msg, v t = Ok (false, msg)) retries ->
  is_cancel good = false -> (exists msg, v good = Ok (true, msg)) ->
  fst (request_user_input user_id prompt (Some v) prompt_message w) = Done good
  /\ inbox (snd (request_user_input user_id prompt (Some v) prompt_message w)) = rest
  /\ length (List.filter is_listen
               (calls (snd (request_user_input user_id prompt (Some v) prompt_message w))))
     = (S (length retries) + length (List.filter is_listen (calls w)))%nat
  /\ forall t msg, In t retries -> v t = Ok (false, msg) ->
       In (SendMessage user_id msg CancelKeyboard)
         (calls (snd (request_user_input user_id prompt (Some v) prompt_message w))).
Proof.
  intros Hi Hf Hr Hc Ha.
  destruct (request_user_input_cases user_id prompt (Some v) prompt_message w)
    as [(name & w1 & _ & _ & Hfault & _) | (pm & w1 & -> & Hi1 & Hf1 & _ & Hc1)];
    [rewrite Hf in Hfault; discriminate|].
  destruct (wait_loop_accepts v retries (S (length (inbox w1))) w1 good rest)
    as (Ho & Hin & new & Hcalls & Hl & Hs); auto.
  { rewrite Hi1, Hi, length_app, length_map. simpl. lia. }
  { now rewrite Hi1. }
  { intros i. now rewrite Hf1. }
  pose proof (wait_loop_faults user_id (Some v) (S (length (inbox w1))) w1) as Hfa.
  destruct (wait_loop (S (length (inbox w1))) user_id (Some v) w1) as [o w2] eqn:E.
  simpl in Ho, Hin, Hcalls, Hfa. subst o.
  destruct (guarded_wait_run user_id (Some v) pm w1 w2 _ E) as (w3 & -> & Ec & Ei & _);
    [discriminate | discriminate
    | intros name Hn; rewrite Hfa, Hf1, Hf in Hn; discriminate |].
  simpl. split; [reflexivity|]. split; [congruence|].
  assert (Hc1' : length (List.filter is_listen (calls w1))
                 = length (List.filter is_listen (calls w))).
  { destruct Hc1 as [[-> _] | (-> & _)]; reflexivity. }
  assert (Hw2 : length (List.filter is_listen (calls w2))
                = (S (length retries) + length (List.filter is_listen (calls w)))%nat).
  { rewrite Hcalls, List.filter_app, length_app, Hl, Hc1'. reflexivity. }
  split.
  - rewrite Ec. destruct pm; simpl; exact Hw2.
  - intros t msg Hin' Hv.
    assert (In (SendMessage user_id msg CancelKeyboard) (calls w2))
      by (rewrite Hcalls; apply in_or_app; left; now apply (Hs t)).
    rewrite Ec. destruct pm; [right|]; assumption.
Qed.

(** X5: when the collaborators work, replies the validator rejects are
    each answered with the validator's message and a new wait; the first
    accepted reply is returned, the replies after it stay in the inbox,
    and one wait was made per reply consumed. *)
Theorem accepted_after_retries (prompt : text) (v : validator)
    (prompt_message : option message) (w : World)
    (retries : list (option pystr)) (good : option pystr) (rest : list incoming) :
  inbox w = map Reply retries ++ Reply good :: rest ->
  (forall i, faults w i = None) ->
  Forall (fun t => is_cancel t = false /\ exists msg, v t = Ok (false, msg)) retries ->
  is_cancel good = false -> (exists msg, v good = Ok (true, msg)) ->
  fst (request_user_input user_id prompt (Some v) prompt_message w) = Done good
  /\ inbox (snd (request_user_input user_id prompt (Some v) prompt_message w)) = rest
  /\ length (List.filter is_listen
               (calls (snd (request_user_input user_id prompt (Some v) prompt_message w))))
     = (S (length retries) + length (List.filter is_listen (calls w)))%nat
  /\ forall t msg, In t retries -> v t = Ok (false, msg) ->
       In (SendMessage user_id msg CancelKeyboard)
         (calls (snd (request_user_input user_id prompt (Some v) prompt_message w))).
Proof. apply session_accepts. Qed.

(** A validator that raises on the reply ends the iteration. *)
Lemma wait_step_raises (v : validator) (again : M (option pystr)) (w : World)
    (t : option pystr) (rest : list incoming) (e : exn) :
  inbox w = Reply t :: rest -> faults w (length (calls w)) = None ->
  is_cancel t = false -> v t = Err e ->
  exists w', wait_step user_id (Some v) again w = (Raised e, w')
    /\ inbox w' = rest.
Proof.
  intros Hi Hf Hc Hv.
  unfold wait_step, bind, except_timeout, log, client.listen, collaborator, lift, ret, raise.
  simpl. rewrite Hf. simpl. rewrite Hi. simpl. rewrite Hc, Hv. simpl.
  destruct e; eauto.
Qed.

Lemma session_aborts (prompt : text) (v : validator)
    (prompt_message : option message) (w : World) (t : option pystr)
    (rest : list incoming) (e : exn) :
  inbox w = Reply t :: rest ->
  faults w (length (calls w)) = None -> faults w (S (length (calls w))) = None ->
  is_cancel t = false -> v t = Err e -> is_exception e = true -> errors_only w ->
  fst (request_user_input user_id prompt (Some v) prompt_message w) = Done None
  /\ inbox (snd (request_user_input user_id prompt (Some v) prompt_message w)) = rest
  /\ In (ERROR, "Error in request_user_input"%string)
        (logs (snd (request_user_input user_id prompt (Some v) prompt_message w))).
Proof.
  intros Hi Hf Hf' Hc Hv Hx He.
  destruct (request_user_input_cases user_id prompt (Some v) prompt_message w)
    as [(name & w1 & _ & _ & Hfault & _) | (pm & w1 & -> & Hi1 & Hf1 & _ & Hc1)];
    [rewrite Hf in Hfault; discriminate|].
  assert (Hl : faults w1 (length (calls w1)) = None).
  { rewrite Hf1. destruct Hc1 as [[-> _] | (-> & _)]; assumption. }
  rewrite <- Hi1 in Hi.
  destruct (wait_step_raises v (wait_loop (length (inbox w1)) user_id (Some v)) w1 t rest e
              Hi Hl Hc Hv) as (w2 & E & Hin).
  pose proof (wait_loop_faults user_id (Some v) (S (length (inbox w1))) w1) as Hfa.
  simpl in Hfa. rewrite E in Hfa. simpl in Hfa.
  destruct (guarded_wait_run user_id (Some v) pm w1 w2 (Raised e) E)
    as (w3 & -> & _ & Ei & Hlog);
    [discriminate | now intros e' [= <-]
    | intros name Hn; rewrite Hfa, Hf1 in Hn; exact (He _ _ Hn) |].
  simpl. split; [reflexivity|]. split; [congruence|]. now apply (Hlog e).
Qed.

(** Once some wait of the inbox ends by the timeout, the loop ends. *)
Lemma wait_loop_ends (validate : option validator) (l : list incoming) :
  forall (n : nat) (w : World),
  inbox w = l -> In TimedOut l -> (length l < n)%nat ->
  fst (wait_loop n user_id validate w) <> Blocked.
Proof.
  induction l as [|r l IH]; intros n w Hi Hin Hn; [destruct Hin|].
  destruct n as [|n]; [simpl in Hn; lia|].
  simpl wait_loop.
  unfold wait_step, bind, except_timeout, log, client.listen, client.send_message,
    collaborator, lift, ret, raise.
  simpl. rewrite Hi.
  repeat (case_match; simplify_eq; simpl in *; try discriminate).
  apply IH; simpl; auto; [|lia].
  destruct Hin as [Hin | Hin]; [discriminate | exact Hin].
Qed.

(** X6: a session whose inbox holds a wait that times out never stays
    blocked, whatever precedes it: it returns or raises. *)
Theorem session_ends_on_timeout (prompt : text) (validate : option validator)
    (prompt_message : option message) (w : World) :
  In TimedOut (inbox w) ->
  fst (request_user_input user_id prompt validate prompt_message w) <> Blocked.
Proof.
  intros Hin.
  destruct (request_user_input_cases user_id prompt validate prompt_message w)
    as [(name & w1 & _ & _ & _ & ->) | (pm & w1 & -> & Hi1 & _)]; [discriminate|].
  apply guarded_wait_unblocked.
  pose proof (wait_loop_ends validate (inbox w1) (S (length (inbox w1))) w1 eq_refl) as H.
  rewrite Hi1 in H at 1. specialize (H Hin ltac:(lia)).
  destruct (wait_loop _ _ _ w1) as [[a|e|] w2]; simpl in *; try discriminate.
  now destruct H.
Qed.

(** X4: a text returned by [request_user_input] is the text of a reply of
    the inbox, and the validator, when there is one, accepted it. *)
Theorem returned_text_was_accepted (prompt : text) (validate : option validator)
    (prompt_message : option message) (w : World) (t : pystr) :
  fst (request_user_input user_id prompt validate prompt_message w) = Done (Some t) ->
  In (Reply (Some t)) (inbox w)
  /\ match validate with
     | Some v => exists msg, v (Some t) = Ok (true, msg)
     | None => True
     end.
Proof. apply session_returns. Qed.

End SessionResults.

Lemma session_ends_on_timeout_witness :
  fst (ShortenerManager.request_user_input 7 (Text None) (Some validate_time) None
         (quiet_world [Reply (Some (py "soon")); TimedOut]))
  <> Blocked.
Proof.
  apply (session_ends_on_timeout 7 (Text None) (Some validate_time) None
           (quiet_world [Reply (Some (py "soon")); TimedOut])).
  right. left. reflexivity.
Defined.

Lemma accepted_after_retries_witness :
  fst (ShortenerManager.request_user_input 7 (Text None) (Some validate_time) None
         (quiet_world [Reply (Some (py "soon")); Reply (Some (py "90m")); TimedOut]))
  = Done (Some (py "90m")).
Proof.
  refine (proj1 (accepted_after_retries 7 (Text None) validate_time None
                   (quiet_world [Reply (Some (py "soon")); Reply (Some (py "90m")); TimedOut])
                   [Some (py "soon")] (Some (py "90m")) [TimedOut] _ _ _ _ _)).
  - reflexivity.
  - intros i. reflexivity.
  - apply List.Forall_cons; [|apply List.Forall_nil].
    split; [vm_compute; reflexivity|]. exists InvalidTimeFormat. vm_compute. reflexivity.
  - vm_compute. reflexivity.
  - exists (Text None). vm_compute. reflexivity.
Defined.

(** X7: a reply without text ends the 24h-time session with [None] and an
    ERROR record (its validator raises on [None]), whereas the website
    session answers it with the invalid-URL message and waits again. *)
Theorem textless_reply_by_flow (urlparse : pystr -> result ParseResult) (user_id : Z)
    (prompt : text) (prompt_message : option message) (w : World) :
  (forall i, faults w i = None) ->
  (forall rest, inbox w = Reply None :: rest ->
     let r := ShortenerManager.request_user_input user_id prompt (Some validate_time)
                prompt_message w in
     fst r = Done None /\ inbox (snd r) = rest
     /\ In (ERROR, "Error in request_user_input"%string) (logs (snd r)))
  /\ (forall t rest, inbox w = Reply None :: Reply (Some t) :: rest ->
        ShortenerManager.is_cancel (Some t) = false ->
        is_valid_website_url urlparse (Some t) = Ok true ->
        let r := ShortenerManager.request_user_input user_id prompt
                   (Some (validate_website urlparse)) prompt_message w in
        fst r = Done (Some t) /\ inbox (snd r) = rest
        /\ In (SendMessage user_id InvalidUrl CancelKeyboard) (calls (snd r))).
Proof.
  intros Hf. split.
  - intros rest Hi.
    apply (session_aborts user_id prompt validate_time prompt_message w None rest
             (PyError "AttributeError")); auto.
    intros i name Hn. rewrite Hf in Hn. discriminate.
  - intros t rest Hi Hc Hv.
    destruct (session_accepts user_id prompt (validate_website urlparse) prompt_message w
                [None] (Some t) rest Hi Hf) as (Ho & Hin & _ & Hs).
    + apply List.Forall_cons; [|apply List.Forall_nil].
      split; [reflexivity|]. now exists InvalidUrl.
    + exact Hc.
    + exists (Text None). unfold validate_website. now rewrite Hv.
    + split; [exact Ho|]. split; [exact Hin|].
      apply (Hs None); [now left | reflexivity].
Qed.

Lemma textless_reply_by_flow_witness :
  fst (ShortenerManager.request_user_input 7 (Text None) (Some validate_time) None
         (quiet_world [Reply None; Reply (Some (py "90m"))]))
  = Done None.
Proof.
  destruct (textless_reply_by_flow plain_urlparse 7 (Text None) None
              (quiet_world [Reply None; Reply (Some (py "90m"))]) (fun i => eq_refl))
    as [H _].
  exact (proj1 (H [Reply (Some (py "90m"))] eq_refl)).
Defined.

Lemma returned_text_was_accepted_witness :
  In (Reply (Some (py "90m"))) (inbox (quiet_world [Reply (Some (py "90m"))]))
  /\ exists msg, validate_time (Some (py "90m")) = Ok (true, msg).
Proof.
  apply (returned_text_was_accepted 7 (Text None) (Some validate_time) None
           (quiet_world [Reply (Some (py "90m"))]) (py "90m")).
  vm_compute. reflexivity.
Defined.

(** ** Handlers *)

Lemma extends_intro (P : call -> Prop) (new : list call) (w w' : World) :
  calls w' = new ++ calls w -> Forall P new ->
  store w' = store w -> faults w' = faults w -> admins w' = admins w ->
  extends P w w'.
Proof. intros. repeat split; eauto. Qed.

Lemma refused (h : M unit) (rest : M unit) (user_id : Z) (msg1 msg2 : string) (w : World) :
  h = (log INFO msg1 ;;
       admin <- AdminChecker.is_admin user_id ;;
       if negb admin then log WARNING msg2 ;; query_answer Unauthorized else rest)%co ->
  admins w user_id = false ->
  refuses user_id h w.
Proof.
  intros -> Ha. unfold refuses.
  unfold bind, log, AdminChecker.is_admin, query_answer, collaborator, ret. simpl.
  destruct (faults w (length (calls w))) as [n1|]; simpl.
  - split; [|split; [reflexivity|discriminate]].
    apply (extends_intro _ [CheckAdmin user_id]); auto.
    apply List.Forall_cons; [now left | apply List.Forall_nil].
  - rewrite Ha. simpl.
    destruct (faults w (S (length (calls w)))) as [n2|]; simpl;
      (split; [apply (extends_intro _ [Answer Unauthorized; CheckAdmin user_id]); auto;
               apply List.Forall_cons; [now right|];
               apply List.Forall_cons; [now left | apply List.Forall_nil]|]);
      (split; [reflexivity|]).
    + intros _ [=].
    + intros _ _. split; reflexivity.
Qed.

(** X8: for a user the admin check turns away, [short2], [short3] and
    [short4] make no call but the check and the unauthorized alert and
    leave store and inbox as they were. *)
Theorem non_admin_is_refused (urlparse : pystr -> result ParseResult)
    (q : CallbackQuery) (w : World) :
  admins w (from_user q) = false ->
  refuses (from_user q) (short2 urlparse q) w
  /\ refuses (from_user q) (short3 q) w
  /\ refuses (from_user q) (short4 q) w.
Proof.
  intros Ha. split; [|split]; eapply refused; try exact Ha; reflexivity.
Qed.

Lemma non_admin_is_refused_witness :
  refuses 7 (short3 {| from_user := 7; data := py "short_rem"; query_message := 100 |})
    (reliable ∅ [] (fun _ => false) [] []).
Proof.
  refine (proj1 (proj2 (non_admin_is_refused plain_urlparse
                          {| from_user := 7; data := py "short_rem"; query_message := 100 |}
                          (reliable ∅ [] (fun _ => false) [] []) _))).
  reflexivity.
Defined.

Lemma split_no_sep (sep : N) (s : pystr) : ~ In sep s -> split sep s = [s].
Proof.
  induction s as [|c s IH]; intros H; [reflexivity|].
  simpl. destruct (c =? sep) eqn:E.
  - apply N.eqb_eq in E. subst. destruct H. now left.
  - rewrite IH; [reflexivity|]. intros Hin. apply H. now right.
Qed.

(** X9: callback data without an underscore makes [short2] and [short4]
    raise [IndexError] right after the admin check, nothing written;
    an action [short2] does not know makes it return without a call. *)
Theorem malformed_callback_data (urlparse : pystr -> result ParseResult)
    (q : CallbackQuery) (w : World) :
  admins w (from_user q) = true -> faults w (length (calls w)) = None ->
  (~ In 0x5F (data q) ->
     fst (short2 urlparse q w) = Raised (PyError "IndexError")
     /\ fst (short4 q w) = Raised (PyError "IndexError")
     /\ calls (snd (short2 urlparse q w)) = CheckAdmin (from_user q) :: calls w
     /\ calls (snd (short4 q w)) = CheckAdmin (from_user q) :: calls w
     /\ store (snd (short2 urlparse q w)) = store w
     /\ store (snd (short4 q w)) = store w)
  /\ (forall action,
        item (split 0x5F (data q)) 1 = Ok action ->
        action <> py "web" -> action <> py "api" ->
        fst (short2 urlparse q w) = Done tt
        /\ calls (snd (short2 urlparse q w)) = CheckAdmin (from_user q) :: calls w
        /\ store (snd (short2 urlparse q w)) = store w).
Proof.
  intros Ha Hf. split.
  - intros Hs.
    unfold short2, short4, bind, log, AdminChecker.is_admin, collaborator.
    simpl. rewrite Hf, Ha. simpl. rewrite (split_no_sep _ _ Hs). simpl.
    repeat split; reflexivity.
  - intros action E Hw Hk.
    unfold short2, bind, log, AdminChecker.is_admin, collaborator.
    simpl. rewrite Hf, Ha. simpl. rewrite E. simpl.
    unfold str_eqb. rewrite !bool_decide_eq_false_2 by assumption.
    repeat split; reflexivity.
Qed.

Lemma malformed_callback_data_witness :
  fst (short4 {| from_user := 7; data := py "close"; query_message := 100 |}
         (quiet_world []))
  = Raised (PyError "IndexError").
Proof.
  destruct (malformed_callback_data plain_urlparse
              {| from_user := 7; data := py "close"; query_message := 100 |}
              (quiet_world []) eq_refl eq_refl) as [H _].
  apply H. simpl. intuition discriminate.
Defined.

(** ** What the handlers store *)

Section Traced.

Variable P : call -> Prop.

Lemma traced_refl (w : World) : traced P w w.
Proof. exists []. split; [reflexivity | constructor]. Qed.

Lemma traced_trans (a b c : World) : traced P a b -> traced P b c -> traced P a c.
Proof.
  intros (n1 & E1 & F1) (n2 & E2 & F2). exists (n2 ++ n1). split.
  - rewrite E2, E1. apply app_assoc.
  - apply Forall_app. now split.
Qed.

Lemma traced_log l msg (w : World) : traced P w (snd (log l msg w)).
Proof. exists []. split; [reflexivity | constructor]. Qed.

Lemma traced_quiet {A} (m : M A) :
  (forall c, is_db_set c = false -> P c) ->
  preserves (extends not_set) m -> preserves (traced P) m.
Proof.
  intros HP Hm w. destruct (Hm w) as ((new & E & F) & _).
  exists new. split; [exact E|]. eapply Forall_impl; eauto.
Qed.

Lemma traced_bind {A B} (m : M A) (k : A -> M B) :
  preserves (traced P) m -> (forall a, preserves (traced P) (k a)) ->
  preserves (traced P) (bind m k).
Proof. apply preserves_bind, traced_trans. Qed.

(** Sequencing, the rest being entered with a result of [m] only. *)
Lemma traced_bind_post {A B} (Q : A -> Prop) (m : M A) (k : A -> M B) :
  preserves (traced P) m -> (forall w a, fst (m w) = Done a -> Q a) ->
  (forall a, Q a -> preserves (traced P) (k a)) ->
  preserves (traced P) (bind m k).
Proof.
  intros Hm HQ Hk w. unfold bind. specialize (Hm w). specialize (HQ w).
  destruct (m w) as [[a|e|] w1]; simpl in *; auto.
  eapply traced_trans; [exact Hm|]. apply Hk. now apply HQ.
Qed.

Lemma traced_set_variable (key : string) (v : value) :
  P (DbSet key v) -> preserves (traced P) (set_variable key v).
Proof.
  intros H w. unfold set_variable, kingdb.set_variable, bind, collaborator, ret.
  destruct (faults w (length (calls w))); simpl;
    (exists [DbSet key v]; split; [reflexivity|]);
    (apply List.Forall_cons; [exact H | apply List.Forall_nil]).
Qed.

End Traced.

(** A coroutine without set calls, in a handler whose set calls are
    constrained by [P]. *)
Ltac quiet :=
  apply traced_quiet; [intros [] ?; simpl; (exact I || discriminate) | frame; reflexivity].

Section StoredValues.

Variable urlparse : pystr -> result ParseResult.

Lemma website_accepted (t : option pystr) (msg : text) :
  validate_website urlparse t = Ok (true, msg) ->
  is_valid_website_url urlparse t = Ok true.
Proof.
  unfold validate_website. destruct (is_valid_website_url urlparse t) as [[|]|e];
    [reflexivity | discriminate | discriminate].
Qed.

Lemma short2_stores (q : CallbackQuery) :
  preserves (traced (short2_store_call urlparse)) (short2 urlparse q).
Proof.
  unfold short2.
  apply traced_bind; [quiet|intros _].
  apply traced_bind; [quiet|intros admin].
  destruct (negb admin); [quiet|].
  apply traced_bind; [quiet|intros action].
  destruct (str_eqb action (py "web")); [|destruct (str_eqb action (py "api"))].
  - apply traced_bind; [quiet|intros _].
    apply (traced_bind_post _
             (fun a => forall t, a = Some t ->
                is_valid_website_url urlparse (Some t) = Ok true)).
    + apply traced_quiet; [intros [] ?; simpl; (exact I || discriminate)|].
      apply request_user_input_quiet.
    + intros w a H t ->. apply session_returns in H as (_ & msg & H).
      now apply website_accepted in H.
    + intros a Ha. destruct a as [[|c r]|]; simpl str_truthy; cbv iota; [quiet|..|quiet].
      apply traced_bind; [quiet|intros _].
      apply traced_bind; [|intros _; quiet].
      apply traced_set_variable. simpl. exists (c :: r).
      split; [reflexivity|]. split; [discriminate|]. left. split; [reflexivity|].
      now apply Ha.
  - apply traced_bind; [quiet|intros _].
    apply traced_bind; [apply traced_quiet;
                        [intros [] ?; simpl; (exact I || discriminate)|];
                        apply request_user_input_quiet|intros a].
    destruct a as [[|c r]|]; simpl str_truthy; cbv iota; [quiet|..|quiet].
    apply traced_bind; [quiet|intros _].
    apply traced_bind; [|intros _; quiet].
    apply traced_set_variable. simpl. exists (c :: r).
    split; [reflexivity|]. split; [discriminate|]. now right.
  - quiet.
Qed.

End StoredValues.

Lemma short3_stores (q : CallbackQuery) :
  preserves (traced short3_store_call) (short3 q).
Proof.
  unfold short3.
  apply traced_bind; [quiet|intros _].
  apply traced_bind; [quiet|intros admin].
  destruct (negb admin); [quiet|].
  apply traced_bind; [quiet|intros config].
  destruct (truthy (short_enabled config)); [|quiet].
  apply traced_bind; [quiet|intros _].
  apply traced_bind; [apply traced_set_variable; simpl; tauto|intros _].
  apply traced_bind; [apply traced_set_variable; simpl; tauto|intros _].
  quiet.
Qed.

Lemma time_accepted (t : option pystr) (msg : text) :
  validate_time t = Ok (true, msg) ->
  exists s n, t = Some s /\ TimeFormatter.parse_time_string s = Some n.
Proof.
  unfold validate_time. destruct t as [s|]; [|discriminate].
  destruct (TimeFormatter.parse_time_string s) as [n|] eqn:E; [|discriminate].
  intros _. exists s, n. split; [reflexivity | exact E].
Qed.

Lemma short4_stores (q : CallbackQuery) :
  preserves (traced short4_store_call) (short4 q).
Proof.
  unfold short4.
  apply traced_bind; [quiet|intros _].
  apply traced_bind; [quiet|intros admin].
  destruct (negb admin); [quiet|].
  apply traced_bind; [quiet|intros action].
  apply traced_bind; [quiet|intros config].
  assert (Hshort : preserves (traced short4_store_call)
                     (if negb (truthy (short_enabled config))
                      then set_variable "short" (VBool true) else ret tt)).
  { destruct (negb (truthy (short_enabled config))); [|quiet].
    apply traced_set_variable. simpl. tauto. }
  destruct (str_eqb action (py "link")); [|destruct (str_eqb action (py "24"))].
  - apply traced_bind; [quiet|intros _].
    apply traced_bind; [exact Hshort|intros _].
    apply traced_bind; [apply traced_set_variable; simpl; tauto|intros _].
    quiet.
  - apply traced_bind; [quiet|intros _].
    apply traced_bind; [quiet|intros edited_msg].
    apply (traced_bind_post _
             (fun a => forall t, a = Some t ->
                exists n, TimeFormatter.parse_time_string t = Some n)).
    + apply traced_quiet; [intros [] ?; simpl; (exact I || discriminate)|].
      apply request_user_input_quiet.
    + intros w a H t ->. apply session_returns in H as (_ & msg & H).
      apply time_accepted in H as (s & n & [= <-] & H). eauto.
    + intros a Ha. destruct a as [[|c r]|]; simpl str_truthy; cbv iota; [quiet|..|quiet].
      destruct (Ha (c :: r) eq_refl) as [n Hn].
      apply traced_bind; [quiet|intros _].
      apply traced_bind; [quiet|intros _].
      apply traced_bind; [|intros _].
      { apply traced_set_variable. simpl. right. right. split; [reflexivity|].
        rewrite Hn. exists n. destruct (parsed_seconds _ _ Hn) as [H0 H1]. auto. }
      apply traced_bind; [exact Hshort|intros _].
      apply traced_bind; [apply traced_set_variable; simpl; tauto|intros _].
      quiet.
  - quiet.
Qed.

(** X10: every value [short2] passes to [set_variable] is a non-empty
    string, stored under ["website"] only if [is_valid_website_url]
    accepts it, or under ["api"]. *)
Theorem short2_stores_validated (urlparse : pystr -> result ParseResult)
    (q : CallbackQuery) (w : World) :
  traced (short2_store_call urlparse) w (snd (short2 urlparse q w)).
Proof. apply short2_stores. Qed.

(** X11: the only values [short3] passes to [set_variable] are [False]
    for ["short"] and [None] for ["mode"]. *)
Theorem short3_stores_disabled (q : CallbackQuery) (w : World) :
  traced short3_store_call w (snd (short3 q w)).
Proof. apply short3_stores. Qed.

(** X12: the only values [short4] passes to [set_variable] are [True] for
    ["short"], ["link"] or ["24"] for ["mode"], and for ["token_time"] the
    decimal text of a non-negative number that [int] reads back. *)
Theorem short4_stores_readable (q : CallbackQuery) (w : World) :
  traced short4_store_call w (snd (short4 q w)).
Proof. apply short4_stores. Qed.

(** ** [AdminChecker.get_admin_list] *)

Lemma split_whitespace_word (p word rest : pystr) :
  spaceless p ->
  split_whitespace_from word (p ++ rest) = split_whitespace_from (word ++ p) rest.
Proof.
  intros Hp. revert word. induction Hp as [|c p Hc _ IH]; intros word; simpl.
  - now rewrite app_nil_r.
  - rewrite Hc, IH. now rewrite <- app_assoc.
Qed.

Lemma split_whitespace_gap (sep word rest : pystr) :
  Forall (fun c => Unicode.is_space c = true) sep -> sep <> [] -> word <> [] ->
  split_whitespace_from word (sep ++ rest) = word :: split_whitespace_from [] rest.
Proof.
  intros Hs Hne Hw. destruct Hs as [|c sep Hc Hs]; [now destruct Hne|]. clear Hne.
  simpl. rewrite Hc. destruct word; [now destruct Hw|]. f_equal.
  induction Hs as [|d sep Hd _ IH]; simpl; [reflexivity|]. now rewrite Hd.
Qed.

Lemma split_whitespace_join (sep : pystr) (ps : list pystr) :
  Forall (fun c => Unicode.is_space c = true) sep -> sep <> [] ->
  Forall (fun p => p <> [] /\ spaceless p) ps ->
  split_whitespace (join sep ps) = ps.
Proof.
  intros Hs Hne Hps. unfold split_whitespace.
  induction Hps as [|p ps [Hp Hsp] Hps IH]; [reflexivity|].
  destruct ps as [|q ps].
  - simpl join. pose proof (split_whitespace_word p [] [] Hsp) as E.
    rewrite app_nil_r in E. rewrite E. simpl. now destruct p.
  - change (join sep (p :: q :: ps)) with (p ++ sep ++ join sep (q :: ps)).
    rewrite split_whitespace_word by exact Hsp. rewrite app_nil_l.
    rewrite split_whitespace_gap by assumption. now rewrite IH.
Qed.

Lemma digit_spaceless (l : pystr) : digits l -> spaceless l.
Proof.
  intros H. eapply Forall_impl; [exact H|]. intros c Hc. simpl.
  destruct (ascii_digit_cases c Hc) as [-> | H1]; [reflexivity|].
  repeat (destruct H1 as [-> | H1]; [reflexivity|]). now subst.
Qed.

Lemma str_of_int_shape (n : Z) :
  str_of_int n <> [] /\ spaceless (str_of_int n).
Proof.
  unfold str_of_int.
  assert (Hp : forall p, NilZero.string_of_uint (Pos.to_uint p)
                         = NilEmpty.string_of_uint (Pos.to_uint p)).
  { intros p. pose proof (Unsigned.to_uint_nonnil p). now destruct (Pos.to_uint p). }
  assert (Hne : forall p, py (NilEmpty.string_of_uint (Pos.to_uint p)) <> []).
  { intros p. pose proof (Unsigned.to_uint_nonnil p). now destruct (Pos.to_uint p). }
  destruct n as [|p|p]; cbn [Z.to_int NilZero.string_of_int].
  - split; [discriminate|]. repeat constructor.
  - rewrite Hp. split; [apply Hne|]. apply digit_spaceless, uint_digits.
  - rewrite Hp. change (py (String "-" ?s)) with (0x2D :: py s).
    split; [discriminate|]. constructor; [reflexivity|].
    apply digit_spaceless, uint_digits.
Qed.

Lemma strip_spaceless (l : pystr) : spaceless l -> strip l = l.
Proof.
  intros H. unfold strip, lstrip_where.
  destruct l as [|a l]; [reflexivity|].
  inversion H as [|? ? Ha Hl]; subst. rewrite dropwhile_id by exact Ha.
  destruct (@exists_last _ (a :: l)) as (l' & z & E); [discriminate|].
  rewrite E. apply rstrip_where_id.
  rewrite E in H. apply Forall_app in H as [_ Hz]. now inversion Hz.
Qed.

Lemma comprehension_ints (ids : list Z) :
  comprehension (fun x => py_int (VStr (strip x))) (map str_of_int ids) = Ok ids.
Proof.
  induction ids as [|n ids IH]; [reflexivity|]. cbn [comprehension map].
  rewrite strip_spaceless by apply str_of_int_shape.
  now rewrite int_str, IH.
Qed.

Lemma comprehension_fails {A B} (f : A -> result B) (l : list A) (x : A) (e : exn) :
  In x l -> (forall y e', f y = Err e' -> e' = e) -> f x = Err e ->
  comprehension f l = Err e.
Proof.
  intros Hin Hall Hx. induction l as [|y l IH]; [destruct Hin|]. simpl.
  destruct (f y) as [b|e'] eqn:Ey; [|now rewrite (Hall y e' Ey)].
  destruct Hin as [-> | Hin]; [congruence|]. now rewrite IH.
Qed.

Lemma py_int_str_error (s : pystr) (e : exn) :
  py_int (VStr s) = Err e -> e = PyError "ValueError".
Proof. unfold py_int. destruct (int_of_str s); congruence. Qed.

Lemma get_admin_list_reads (w : World) :
  faults w (length (calls w)) = None ->
  AdminChecker.get_admin_list w
  = match default (VStr AdminChecker.default_owner) (store w !! "owner"%string) with
    | VStr s => lift (comprehension (fun x => py_int (VStr (strip x))) (split_whitespace s))
    | _ => raise (PyError "AttributeError")
    end (record_call (DbGet "owner" (VStr AdminChecker.default_owner)) w).
Proof.
  intros Hf. unfold AdminChecker.get_admin_list, get_variable, kingdb.get_variable, bind, collaborator, ret.
  rewrite Hf. reflexivity.
Qed.

(** X13: [get_admin_list] decodes what joining the decimal texts of a
    list of integers with any non-empty whitespace gives: the list itself,
    the store unchanged. *)
Theorem admin_list_round_trip (w : World) (sep : pystr) (ids : list Z) :
  faults w (length (calls w)) = None ->
  Forall (fun c => Unicode.is_space c = true) sep -> sep <> [] ->
  store w !! "owner"%string = Some (VStr (join sep (map str_of_int ids))) ->
  fst (AdminChecker.get_admin_list w) = Done ids /\ store (snd (AdminChecker.get_admin_list w)) = store w.
Proof.
  intros Hf Hs Hne Hst. rewrite get_admin_list_reads by exact Hf. rewrite Hst. simpl.
  rewrite split_whitespace_join; auto.
  - rewrite comprehension_ints. split; reflexivity.
  - apply Forall_map, Forall_forall. intros n _. apply str_of_int_shape.
Qed.

Lemma admin_list_round_trip_witness :
  fst (AdminChecker.get_admin_list
         {| store := {["owner"%string := VStr (py "-100 42")]}; inbox := [];
            faults := fun _ => None; admins := fun _ => false; calls := []; logs := [] |})
  = Done [(-100)%Z; 42%Z].
Proof.
  apply (admin_list_round_trip _ (py " ") [(-100)%Z; 42%Z]).
  - reflexivity.
  - repeat constructor.
  - discriminate.
  - reflexivity.
Defined.

Lemma split_whitespace_words (s word : pystr) :
  spaceless word ->
  Forall (fun p => p <> [] /\ spaceless p) (split_whitespace_from word s).
Proof.
  revert word. induction s as [|c s IH]; intros word Hw; simpl.
  - destruct word; [constructor|]. constructor; [|constructor]. split; [discriminate|exact Hw].
  - destruct (Unicode.is_space c) eqn:Ec.
    + destruct word; [apply IH; constructor|].
      constructor; [split; [discriminate|exact Hw] | apply IH; constructor].
    + apply IH. apply Forall_app. split; [exact Hw|]. constructor; [exact Ec|constructor].
Qed.

Lemma split_whitespace_blank (s : pystr) :
  forallb Unicode.is_space s = true -> split_whitespace s = [].
Proof.
  unfold split_whitespace. induction s as [|c s IH]; simpl; [reflexivity|].
  intros H. apply andb_prop in H as [-> H]. auto.
Qed.

(** X14: [get_admin_list] without an ["owner"] field returns the four
    built-in ids; a value that is not a string raises [AttributeError], a
    word that is not an integer raises [ValueError], and a blank string
    gives the empty list. *)
Theorem admin_list_errors (w : World) :
  faults w (length (calls w)) = None ->
  (store w !! "owner"%string = None ->
     fst (AdminChecker.get_admin_list w)
     = Done [(-1002374561133)%Z; (-1002252580234)%Z; (-1002359972599)%Z; 5426061889%Z])
  /\ (forall v, store w !! "owner"%string = Some v -> (forall s, v <> VStr s) ->
        fst (AdminChecker.get_admin_list w) = Raised (PyError "AttributeError"))
  /\ (forall s x, store w !! "owner"%string = Some (VStr s) ->
        In x (split_whitespace s) -> int_of_str x = None ->
        fst (AdminChecker.get_admin_list w) = Raised (PyError "ValueError"))
  /\ (forall s, store w !! "owner"%string = Some (VStr s) ->
        forallb Unicode.is_space s = true -> fst (AdminChecker.get_admin_list w) = Done []).
Proof.
  intros Hf. rewrite get_admin_list_reads by exact Hf.
  split; [|split; [|split]].
  - intros ->. vm_compute. reflexivity.
  - intros v -> Hv. destruct v; try reflexivity. now destruct (Hv s).
  - intros s x -> Hin Hx. simpl.
    rewrite (comprehension_fails _ _ x (PyError "ValueError") Hin).
    + reflexivity.
    + intros y e. apply py_int_str_error.
    + pose proof (split_whitespace_words s [] (List.Forall_nil _)) as Hw.
      rewrite List.Forall_forall in Hw. destruct (Hw x Hin) as [_ Hsp].
      rewrite strip_spaceless by exact Hsp. unfold py_int. now rewrite Hx.
  - intros s -> Hs. simpl. now rewrite split_whitespace_blank.
Qed.

Lemma admin_list_errors_witness :
  fst (AdminChecker.get_admin_list
         {| store := {["owner"%string := VStr (py "12 x7")]}; inbox := [];
            faults := fun _ => None; admins := fun _ => false; calls := []; logs := [] |})
  = Raised (PyError "ValueError").
Proof.
  refine (proj1 (proj2 (proj2 (admin_list_errors _ _))) (py "12 x7") (py "x7") _ _ _).
  - reflexivity.
  - reflexivity.
  - vm_compute. auto.
  - reflexivity.
Defined.

(** ** Runs of the handlers with working collaborators *)

#[local] Arguments ShortenerManager.is_cancel : simpl never.
#[local] Arguments str_truthy : simpl never.
#[local] Arguments truthy : simpl never.
#[local] Arguments validate_time : simpl never.
#[local] Arguments TimeFormatter.parse_time_string : simpl never.
#[local] Arguments TimeFormatter.format_seconds : simpl never.
#[local] Arguments py_int : simpl never.
#[local] Arguments str_of_int : simpl never.
#[local] Arguments str_eqb : simpl never.
#[local] Arguments Nat.eqb : simpl never.
#[local] Arguments ShortenerUI.generate_caption : simpl never.
#[local] Arguments ShortenerUI.generate_keyboard : simpl never.

Ltac run :=
  unfold ShortenerManager.refresh_settings, ShortenerManager.send_settings,
    ShortenerManager.load_config, ShortenerManager.request_user_input,
    ShortenerManager.guarded_wait, ShortenerManager.wait_step,
    get_variable, set_variable, kingdb.get_variable, kingdb.set_variable,
    client.send_message, client.listen, message_delete, message_edit,
    message_reply_photo, query_answer, AdminChecker.is_admin,
    try_finally, try_except, except_timeout, bind, log, collaborator, lift, ret, raise,
    reliable;
  simpl.

Ltac lookups :=
  repeat first [rewrite lookup_insert_eq | rewrite lookup_insert_ne by discriminate].

Ltac card :=
  unfold ShortenerUI.generate_caption, ShortenerUI.generate_keyboard,
    ShortenerUI.get_mode_status; simpl.

(** X15: the 24h flow of [short4], collaborators working: an admin's
    parsable reply is stored as the decimal text of its seconds, the mode
    becomes ["24"], the shortener is enabled, the confirmation names the
    formatted duration and the panel sent last shows the 24h mode. *)
Theorem mode_24_enabled (q : CallbackQuery) (st : gmap string value)
    (rest : list incoming) (adm : Z -> bool) (cs : list call)
    (lg : list (level * string)) (t : pystr) (n n0 : Z) :
  adm (from_user q) = true ->
  item (split 0x5F (data q)) 1 = Ok (py "24") ->
  py_int (default (VInt 0) (st !! "token_time"%string)) = Ok n0 ->
  ShortenerManager.is_cancel (Some t) = false ->
  TimeFormatter.parse_time_string t = Some n ->
  let r := short4 q (reliable st (Reply (Some t) :: rest) adm cs lg) in
  fst r = Done tt
  /\ inbox (snd r) = rest
  /\ store (snd r) !! "token_time"%string = Some (VStr (str_of_int n))
  /\ store (snd r) !! "mode"%string = Some (VStr (py "24"))
  /\ truthy (default VNone (store (snd r) !! "short"%string)) = true
  /\ exists earlier caption keyboard,
       calls (snd r) = ReplyPhoto (query_message q) caption keyboard :: earlier
       /\ cap_mode caption = Mode24h
       /\ cap_time caption = TimeFormatter.format_seconds n
       /\ check_24 keyboard = true
       /\ In (SendMessage (from_user q)
                (Mode24Enabled (TimeFormatter.format_seconds n)) RemoveKeyboard) earlier.
Proof.
  intros Ha Hq H0 Hc Hn.
  assert (Ht : str_truthy (Some t) = true)
    by (destruct t; [vm_compute in Hn; discriminate | reflexivity]).
  unfold short4. run. rewrite Ha. simpl. rewrite Hq. simpl. rewrite H0. simpl.
  change (str_eqb (py "24") (py "link")) with false.
  change (str_eqb (py "24") (py "24")) with true.
  cbv iota. run. rewrite Hc. simpl. unfold validate_time. rewrite Hn. simpl.
  rewrite Ht. simpl. rewrite Hn. simpl.
  destruct (truthy (default VNone (st !! "short"%string))) eqn:Es; simpl;
    lookups; simpl; rewrite int_str; simpl; lookups;
    (split; [reflexivity|]); (split; [reflexivity|]);
    (split; [reflexivity|]); (split; [reflexivity|]);
    (split; [simpl; rewrite ?Es; reflexivity|]);
    eexists _, _, _; (split; [reflexivity|]);
    card; rewrite ?Es; simpl; repeat split; tauto.
Qed.

Lemma mode_24_enabled_witness :
  store (snd (short4 {| from_user := 7; data := py "mode_24"; query_message := 100 |}
                (reliable ∅ [Reply (Some (py "90m"))] (fun _ => true) [] [])))
    !! "token_time"%string
  = Some (VStr (str_of_int 5400)).
Proof.
  destruct (mode_24_enabled
              {| from_user := 7; data := py "mode_24"; query_message := 100 |}
              ∅ [] (fun _ => true) [] [] (py "90m") 5400 0) as (_ & _ & H & _).
  - reflexivity.
  - reflexivity.
  - reflexivity.
  - vm_compute. reflexivity.
  - vm_compute. reflexivity.
  - exact H.
Defined.

(** X16: the per-link flow of [short4], collaborators working: no reply
    is consumed, the mode becomes ["link"], the shortener is enabled,
    [token_time] is kept, the alert is sent and the panel sent last shows
    the per-link mode with its button checked. *)
Theorem per_link_enabled (q : CallbackQuery) (st : gmap string value)
    (inb : list incoming) (adm : Z -> bool) (cs : list call)
    (lg : list (level * string)) (n0 : Z) :
  adm (from_user q) = true ->
  item (split 0x5F (data q)) 1 = Ok (py "link") ->
  py_int (default (VInt 0) (st !! "token_time"%string)) = Ok n0 ->
  let r := short4 q (reliable st inb adm cs lg) in
  fst r = Done tt
  /\ inbox (snd r) = inb
  /\ store (snd r) !! "mode"%string = Some (VStr (py "link"))
  /\ truthy (default VNone (store (snd r) !! "short"%string)) = true
  /\ store (snd r) !! "token_time"%string = st !! "token_time"%string
  /\ exists earlier caption keyboard,
       calls (snd r) = ReplyPhoto (query_message q) caption keyboard :: earlier
       /\ cap_mode caption = ModePerLink
       /\ cap_time caption = TimeFormatter.format_seconds n0
       /\ check_link keyboard = true /\ check_24 keyboard = false
       /\ In (Answer PerLinkEnabled) earlier.
Proof.
  intros Ha Hq H0.
  unfold short4. run. rewrite Ha. simpl. rewrite Hq. simpl. rewrite H0. simpl.
  change (str_eqb (py "link") (py "link")) with true.
  cbv iota. run.
  destruct (truthy (default VNone (st !! "short"%string))) eqn:Es; simpl;
    lookups; simpl; rewrite H0; simpl; lookups;
    (split; [reflexivity|]); (split; [reflexivity|]);
    (split; [reflexivity|]);
    (split; [simpl; rewrite ?Es; reflexivity|]);
    (split; [reflexivity|]);
    eexists _, _, _; (split; [reflexivity|]);
    card; rewrite ?Es; simpl; repeat split; tauto.
Qed.

Lemma per_link_enabled_witness :
  store (snd (short4 {| from_user := 7; data := py "mode_link"; query_message := 100 |}
                (reliable ∅ [] (fun _ => true) [] [])))
    !! "mode"%string
  = Some (VStr (py "link")).
Proof.
  destruct (per_link_enabled
              {| from_user := 7; data := py "mode_link"; query_message := 100 |}
              ∅ [] (fun _ => true) [] [] 0) as (_ & _ & H & _).
  - reflexivity.
  - reflexivity.
  - reflexivity.
  - exact H.
Defined.

(** X17: [short3], collaborators working: with the shortener enabled it
    stores [short = False] and [mode = None], alerts and sends a panel
    showing it off; with the shortener off it writes nothing and its last
    call is the already-disabled alert. *)
Theorem shortener_removed (q : CallbackQuery) (st : gmap string value)
    (inb : list incoming) (adm : Z -> bool) (cs : list call)
    (lg : list (level * string)) (n0 : Z) :
  adm (from_user q) = true ->
  py_int (default (VInt 0) (st !! "token_time"%string)) = Ok n0 ->
  let r := short3 q (reliable st inb adm cs lg) in
  fst r = Done tt
  /\ if truthy (default VNone (st !! "short"%string)) then
       store (snd r) = <["mode" := VNone]> (<["short" := VBool false]> st)
       /\ exists earlier caption keyboard,
            calls (snd r) = ReplyPhoto (query_message q) caption keyboard :: earlier
            /\ cap_mode caption = ModeOff
            /\ check_24 keyboard = false /\ check_link keyboard = false
            /\ In (Answer ShortenerRemoved) earlier
     else
       store (snd r) = st
       /\ exists reads,
            calls (snd r)
            = Answer AlreadyDisabled :: reads ++ CheckAdmin (from_user q) :: cs
            /\ Forall (fun c => is_db_set c = false) reads.
Proof.
  intros Ha H0.
  unfold short3. run. rewrite Ha. simpl. rewrite H0. simpl.
  destruct (truthy (default VNone (st !! "short"%string))) eqn:Es; simpl.
  - lookups. simpl. rewrite H0. simpl.
    split; [reflexivity|]. split; [reflexivity|].
    eexists _, _, _. split; [reflexivity|].
    card. repeat split; tauto.
  - split; [reflexivity|]. split; [reflexivity|].
    eexists [_; _; _; _; _; _]. split; [reflexivity|].
    repeat (apply List.Forall_cons; [reflexivity|]). apply List.Forall_nil.
Qed.

Lemma shortener_removed_witness :
  fst (short3 {| from_user := 7; data := py "short_rem"; query_message := 100 |}
         (reliable {["short"%string := VBool true]} [] (fun _ => true) [] []))
  = Done tt.
Proof.
  destruct (shortener_removed
              {| from_user := 7; data := py "short_rem"; query_message := 100 |}
              {["short"%string := VBool true]} [] (fun _ => true) [] [] 0) as [H _].
  - reflexivity.
  - reflexivity.
  - exact H.
Defined.

Lemma caption_fields (config : ShortenerConfig) :
  cap_api (ShortenerUI.generate_caption config) = api config
  /\ cap_website (ShortenerUI.generate_caption config) = website config
  /\ cap_bypassed (ShortenerUI.generate_caption config) = bypass_count config
  /\ cap_time (ShortenerUI.generate_caption config)
     = TimeFormatter.format_seconds (token_time config).
Proof.
  unfold ShortenerUI.generate_caption.
  destruct (ShortenerUI.get_mode_status config) as [[d m24] ml]. repeat split.
Qed.

Section Short2Flows.

Variable urlparse : pystr -> result ParseResult.

(** X18: the website flow of [short2], collaborators working: an admin's
    reply that [is_valid_website_url] accepts is stored verbatim under
    ["website"], nothing else changes in the store, the confirmation is
    sent and the panel sent last shows the new website. *)
Theorem website_changed (q : CallbackQuery) (st : gmap string value)
    (rest : list incoming) (adm : Z -> bool) (cs : list call)
    (lg : list (level * string)) (t : pystr) (n0 : Z) :
  adm (from_user q) = true ->
  item (split 0x5F (data q)) 1 = Ok (py "web") ->
  py_int (default (VInt 0) (st !! "token_time"%string)) = Ok n0 ->
  ShortenerManager.is_cancel (Some t) = false ->
  is_valid_website_url urlparse (Some t) = Ok true -> t <> [] ->
  let r := short2 urlparse q (reliable st (Reply (Some t) :: rest) adm cs lg) in
  fst r = Done tt
  /\ inbox (snd r) = rest
  /\ store (snd r) = <["website" := VStr t]> st
  /\ exists earlier caption keyboard,
       calls (snd r) = ReplyPhoto (query_message q) caption keyboard :: earlier
       /\ cap_website caption = VStr t
       /\ In (SendMessage (from_user q) WebsiteAdded RemoveKeyboard) earlier.
Proof.
  intros Ha Hq H0 Hc Hv Hne.
  assert (Ht : str_truthy (Some t) = true) by (destruct t; [now destruct Hne | reflexivity]).
  unfold short2. run. rewrite Ha. simpl. rewrite Hq. simpl.
  change (str_eqb (py "web") (py "web")) with true.
  cbv iota. run. rewrite Hc. simpl. unfold validate_website. rewrite Hv. simpl.
  rewrite Ht. simpl. lookups. simpl. rewrite H0. simpl.
  split; [reflexivity|]. split; [reflexivity|]. split; [reflexivity|].
  eexists _, _, _. split; [reflexivity|].
  rewrite (proj1 (proj2 (caption_fields _))). simpl. lookups.
  split; [reflexivity|]. tauto.
Qed.

(** X19: the API flow of [short2], collaborators working: any non-empty
    reply of an admin is stored verbatim under ["api"], unvalidated, and
    the panel sent last shows it. *)
Theorem api_key_changed (q : CallbackQuery) (st : gmap string value)
    (rest : list incoming) (adm : Z -> bool) (cs : list call)
    (lg : list (level * string)) (t : pystr) (n0 : Z) :
  adm (from_user q) = true ->
  item (split 0x5F (data q)) 1 = Ok (py "api") ->
  py_int (default (VInt 0) (st !! "token_time"%string)) = Ok n0 ->
  ShortenerManager.is_cancel (Some t) = false -> t <> [] ->
  let r := short2 urlparse q (reliable st (Reply (Some t) :: rest) adm cs lg) in
  fst r = Done tt
  /\ inbox (snd r) = rest
  /\ store (snd r) = <["api" := VStr t]> st
  /\ exists earlier caption keyboard,
       calls (snd r) = ReplyPhoto (query_message q) caption keyboard :: earlier
       /\ cap_api caption = VStr t
       /\ In (SendMessage (from_user q) ApiAdded RemoveKeyboard) earlier.
Proof.
  intros Ha Hq H0 Hc Hne.
  assert (Ht : str_truthy (Some t) = true) by (destruct t; [now destruct Hne | reflexivity]).
  unfold short2. run. rewrite Ha. simpl. rewrite Hq. simpl.
  change (str_eqb (py "api") (py "web")) with false.
  change (str_eqb (py "api") (py "api")) with true.
  cbv iota. run. rewrite Hc. simpl.
  rewrite Ht. simpl. lookups. simpl. rewrite H0. simpl.
  split; [reflexivity|]. split; [reflexivity|]. split; [reflexivity|].
  eexists _, _, _. split; [reflexivity|].
  rewrite (proj1 (caption_fields _)). simpl. lookups.
  split; [reflexivity|]. tauto.
Qed.

End Short2Flows.

Lemma api_key_changed_witness :
  store (snd (short2 plain_urlparse
                {| from_user := 7; data := py "short_api"; query_message := 100 |}
                (reliable ∅ [Reply (Some (py "key-123"))] (fun _ => true) [] [])))
  = <["api"%string := VStr (py "key-123")]> ∅.
Proof.
  destruct (api_key_changed plain_urlparse
              {| from_user := 7; data := py "short_api"; query_message := 100 |}
              ∅ [] (fun _ => true) [] [] (py "key-123") 0)
    as (_ & _ & H & _).
  - reflexivity.
  - reflexivity.
  - reflexivity.
  - vm_compute. reflexivity.
  - discriminate.
  - exact H.
Defined.

Lemma website_changed_witness :
  store (snd (short2 plain_urlparse
                {| from_user := 7; data := py "short_web"; query_message := 100 |}
                (reliable ∅ [Reply (Some (py "https://example.com"))]
                   (fun _ => true) [] [])))
  = <["website"%string := VStr (py "https://example.com")]> ∅.
Proof.
  destruct (website_changed plain_urlparse
              {| from_user := 7; data := py "short_web"; query_message := 100 |}
              ∅ [] (fun _ => true) [] [] (py "https://example.com") 0)
    as (_ & _ & H & _).
  - reflexivity.
  - reflexivity.
  - reflexivity.
  - vm_compute. reflexivity.
  - vm_compute. reflexivity.
  - discriminate.
  - exact H.
Defined.

(** X20: when deleting the old panel fails with an exception that
    derives from [Exception], [refresh_settings] logs a warning and
    still reads the configuration and sends the new panel. *)
Theorem refresh_survives_failed_delete (msg : message) (name : string)
    (st : gmap string value) (inb : list incoming) (adm : Z -> bool)
    (cs : list call) (lg : list (level * string)) (n0 : Z) :
  is_exception (PyError name) = true ->
  py_int (default (VInt 0) (st !! "token_time"%string)) = Ok n0 ->
  let r := ShortenerManager.refresh_settings msg
             (failing_at (length cs) name st inb adm cs lg) in
  fst r = Done tt
  /\ (exists caption keyboard,
        calls (snd r)
        = ReplyPhoto msg caption keyboard :: config_reads ++ DeleteMessage msg :: cs
        /\ cap_time caption = TimeFormatter.format_seconds n0)
  /\ In (WARNING, "Failed to delete message during refresh"%string) (logs (snd r))
  /\ store (snd r) = st.
Proof.
  intros Hx H0. unfold failing_at. run. rewrite Nat.eqb_refl. simpl. rewrite Hx. simpl.
  repeat (rewrite (proj2 (Nat.eqb_neq _ (length cs))) by lia; simpl).
  rewrite H0. simpl.
  repeat (rewrite (proj2 (Nat.eqb_neq _ (length cs))) by lia; simpl).
  split; [reflexivity|]. split.
  - eexists _, _. split; [reflexivity|].
    now rewrite (proj2 (proj2 (proj2 (caption_fields _)))).
  - split; [tauto | reflexivity].
Qed.

Lemma refresh_survives_failed_delete_witness :
  fst (ShortenerManager.refresh_settings 100
         (failing_at 0 "MessageDeleteForbidden" ∅ [] (fun _ => true) [] []))
  = Done tt.
Proof.
  destruct (refresh_survives_failed_delete 100 "MessageDeleteForbidden"
              ∅ [] (fun _ => true) [] [] 0) as [H _].
  - reflexivity.
  - reflexivity.
  - exact H.
Defined.

(** X21: the [/short] command sends the panel after the six reads of
    [load_config] when the stored [token_time] converts with [int]; when
    it does not, the conversion's exception reaches the caller after the
    six reads and no panel is sent. *)
Theorem settings_need_integer_time (msg : message) (st : gmap string value)
    (inb : list incoming) (adm : Z -> bool) (cs : list call)
    (lg : list (level * string)) :
  let r := short msg (reliable st inb adm cs lg) in
  match py_int (default (VInt 0) (st !! "token_time"%string)) with
  | Ok n =>
      fst r = Done tt
      /\ exists caption keyboard,
           calls (snd r) = ReplyPhoto msg caption keyboard :: config_reads ++ cs
           /\ cap_time caption = TimeFormatter.format_seconds n
  | Err e => fst r = Raised e /\ calls (snd r) = config_reads ++ cs
  end.
Proof.
  unfold short. run. destruct (py_int _) as [n|e]; simpl.
  - split; [reflexivity|]. eexists _, _. split; [reflexivity|].
    now rewrite (proj2 (proj2 (proj2 (caption_fields _)))).
  - split; reflexivity.
Qed.

(** X22: with none of its six fields in the store, [load_config] returns
    the data class's default instance, for which the panel shows the
    shortener off and ["0 seconds"]. *)
Theorem unset_store_gives_defaults (st : gmap string value)
    (inb : list incoming) (adm : Z -> bool) (cs : list call)
    (lg : list (level * string)) :
  Forall (fun key => st !! key = None) config_keys ->
  ShortenerManager.load_config (reliable st inb adm cs lg)
  = (Done default_config, reliable st inb adm (config_reads ++ cs) lg)
  /\ ShortenerUI.get_mode_status default_config = (ModeOff, false, false)
  /\ cap_time (ShortenerUI.generate_caption default_config) = py "0 seconds".
Proof.
  intros H. repeat (apply Forall_cons in H as [? H]).
  split; [|split; reflexivity].
  run. repeat match goal with E : st !! _ = None |- _ => rewrite E; clear E end.
  reflexivity.
Qed.

Lemma unset_store_gives_defaults_witness :
  ShortenerManager.load_config (reliable ∅ [] (fun _ => true) [] [])
  = (Done default_config, reliable ∅ [] (fun _ => true) (config_reads ++ []) []).
Proof.
  apply (unset_store_gives_defaults ∅ [] (fun _ => true) [] []).
  repeat (apply List.Forall_cons; [reflexivity|]). apply List.Forall_nil.
Defined.

(** ** Runs in sequence *)

Lemma short3_world (q : CallbackQuery) (st : gmap string value)
    (inb : list incoming) (adm : Z -> bool) (cs : list call)
    (lg : list (level * string)) (n0 : Z) :
  adm (from_user q) = true ->
  py_int (default (VInt 0) (st !! "token_time"%string)) = Ok n0 ->
  exists cs' lg',
    short3 q (reliable st inb adm cs lg)
    = (Done tt,
       reliable (if truthy (default VNone (st !! "short"%string))
                 then <["mode" := VNone]> (<["short" := VBool false]> st) else st)
         inb adm cs' lg')
    /\ exists earlier,
         cs' = (if truthy (default VNone (st !! "short"%string))
                then ReplyPhoto (query_message q)
                       (ShortenerUI.generate_caption
                          {| api := default (VStr (py "None")) (st !! "api"%string);
                             bypass_count := default (VStr (py "0")) (st !! "bypass"%string);
                             website := default (VStr (py "None")) (st !! "website"%string);
                             short_enabled := VBool false; mode := VNone;
                             token_time := n0 |})
                       {| check_24 := false; check_link := false |}
                else Answer AlreadyDisabled) :: earlier.
Proof.
  intros Ha H0.
  unfold short3. run. rewrite Ha. simpl. rewrite H0. simpl.
  destruct (truthy (default VNone (st !! "short"%string))) eqn:Es; simpl.
  - lookups. simpl. rewrite H0. simpl. eexists _, _. split; [reflexivity|].
    eexists. reflexivity.
  - eexists _, _. split; [reflexivity|]. eexists. reflexivity.
Qed.

Lemma short4_link_world (q : CallbackQuery) (st : gmap string value)
    (inb : list incoming) (adm : Z -> bool) (cs : list call)
    (lg : list (level * string)) (n0 : Z) :
  adm (from_user q) = true ->
  item (split 0x5F (data q)) 1 = Ok (py "link") ->
  py_int (default (VInt 0) (st !! "token_time"%string)) = Ok n0 ->
  exists cs' lg',
    short4 q (reliable st inb adm cs lg)
    = (Done tt,
       reliable (<["mode" := VStr (py "link")]>
                   (if truthy (default VNone (st !! "short"%string)) then st
                    else <["short" := VBool true]> st))
         inb adm cs' lg').
Proof.
  intros Ha Hq H0.
  unfold short4. run. rewrite Ha. simpl. rewrite Hq. simpl. rewrite H0. simpl.
  change (str_eqb (py "link") (py "link")) with true.
  cbv iota. run.
  destruct (truthy (default VNone (st !! "short"%string))) eqn:Es; simpl;
    lookups; simpl; rewrite H0; simpl; eexists _, _; reflexivity.
Qed.

(** X23: running [short3] again after [short3] writes nothing more: the
    second run finds the shortener off and ends with the already-disabled
    alert. *)
Theorem removal_is_idempotent (q : CallbackQuery) (st : gmap string value)
    (inb : list incoming) (adm : Z -> bool) (cs : list call)
    (lg : list (level * string)) (n0 : Z) :
  adm (from_user q) = true ->
  py_int (default (VInt 0) (st !! "token_time"%string)) = Ok n0 ->
  let w1 := snd (short3 q (reliable st inb adm cs lg)) in
  let r := short3 q w1 in
  fst r = Done tt /\ store (snd r) = store w1
  /\ exists earlier, calls (snd r) = Answer AlreadyDisabled :: earlier.
Proof.
  intros Ha H0.
  destruct (short3_world q st inb adm cs lg n0 Ha H0) as (cs1 & lg1 & E1 & _).
  rewrite E1. cbn [snd].
  set (st1 := if truthy (default VNone (st !! "short"%string))
              then <["mode" := VNone]> (<["short" := VBool false]> st) else st).
  assert (Hs : truthy (default VNone (st1 !! "short"%string)) = false).
  { unfold st1. destruct (truthy (default VNone (st !! "short"%string))) eqn:Es;
      [lookups; reflexivity | exact Es]. }
  assert (H1 : py_int (default (VInt 0) (st1 !! "token_time"%string)) = Ok n0).
  { unfold st1. destruct (truthy (default VNone (st !! "short"%string)));
      [lookups|]; exact H0. }
  destruct (short3_world q st1 inb adm cs1 lg1 n0 Ha H1) as (cs2 & lg2 & E2 & earlier & Ec).
  rewrite E2, Hs in *. cbn [fst snd]. unfold reliable at 1 2. cbn [store calls].
  split; [reflexivity|]. split; [reflexivity|]. now exists earlier.
Qed.

Lemma removal_is_idempotent_witness :
  fst (short3 {| from_user := 7; data := py "short_rem"; query_message := 100 |}
         (snd (short3 {| from_user := 7; data := py "short_rem"; query_message := 100 |}
                 (reliable {["short"%string := VBool true]} [] (fun _ => true) [] []))))
  = Done tt.
Proof.
  destruct (removal_is_idempotent
              {| from_user := 7; data := py "short_rem"; query_message := 100 |}
              {["short"%string := VBool true]} [] (fun _ => true) [] [] 0) as [H _].
  - reflexivity.
  - reflexivity.
  - exact H.
Defined.

(** X24: enabling the per-link mode and then removing the shortener
    leaves [short = False] and [mode = None], every other field as it was
    before both, and a panel showing the shortener off. *)
Theorem removal_undoes_per_link (q q' : CallbackQuery) (st : gmap string value)
    (inb : list incoming) (adm : Z -> bool) (cs : list call)
    (lg : list (level * string)) (n0 : Z) :
  adm (from_user q) = true -> adm (from_user q') = true ->
  item (split 0x5F (data q)) 1 = Ok (py "link") ->
  py_int (default (VInt 0) (st !! "token_time"%string)) = Ok n0 ->
  let w1 := snd (short4 q (reliable st inb adm cs lg)) in
  let r := short3 q' w1 in
  fst r = Done tt
  /\ store (snd r) !! "short"%string = Some (VBool false)
  /\ store (snd r) !! "mode"%string = Some VNone
  /\ (forall key, key <> "short"%string -> key <> "mode"%string ->
        store (snd r) !! key = st !! key)
  /\ exists earlier caption,
       calls (snd r)
       = ReplyPhoto (query_message q') caption {| check_24 := false; check_link := false |}
           :: earlier
       /\ cap_mode caption = ModeOff.
Proof.
  intros Ha Ha' Hq H0.
  destruct (short4_link_world q st inb adm cs lg n0 Ha Hq H0) as (cs1 & lg1 & E1).
  rewrite E1. cbn [snd].
  set (st1 := <["mode" := VStr (py "link")]>
                (if truthy (default VNone (st !! "short"%string)) then st
                 else <["short" := VBool true]> st)).
  assert (Hs : truthy (default VNone (st1 !! "short"%string)) = true).
  { unfold st1. lookups. destruct (truthy (default VNone (st !! "short"%string))) eqn:Es;
      [exact Es | lookups; reflexivity]. }
  assert (H1 : py_int (default (VInt 0) (st1 !! "token_time"%string)) = Ok n0).
  { unfold st1. lookups. destruct (truthy (default VNone (st !! "short"%string)));
      [|lookups]; exact H0. }
  destruct (short3_world q' st1 inb adm cs1 lg1 n0 Ha' H1) as (cs2 & lg2 & E2 & earlier & Ec).
  rewrite E2, Hs in *. cbn [fst snd]. unfold reliable at 1 2 3 4. cbn [store calls].
  split; [reflexivity|]. split; [now lookups|]. split; [now lookups|]. split.
  - intros key Hk1 Hk2. rewrite !lookup_insert_ne by congruence.
    unfold st1. rewrite lookup_insert_ne by congruence.
    destruct (truthy (default VNone (st !! "short"%string)));
      [reflexivity | now rewrite lookup_insert_ne by congruence].
  - eexists _, _. split; [exact Ec|]. reflexivity.
Qed.

Lemma removal_undoes_per_link_witness :
  store (snd (short3 {| from_user := 7; data := py "short_rem"; query_message := 101 |}
                (snd (short4
                        {| from_user := 7; data := py "mode_link"; query_message := 100 |}
                        (reliable ∅ [] (fun _ => true) [] [])))))
    !! "short"%string
  = Some (VBool false).
Proof.
  destruct (removal_undoes_per_link
              {| from_user := 7; data := py "mode_link"; query_message := 100 |}
              {| from_user := 7; data := py "short_rem"; query_message := 101 |}
              ∅ [] (fun _ => true) [] [] 0) as (_ & H & _).
  - reflexivity.
  - reflexivity.
  - reflexivity.
  - reflexivity.
  - exact H.
Defined.
